(** * PressurePlotImproved (PIMP): the acquisition, calculation and
    presentation workers, the serial device channel and the setup
    validation, embedded in Rocq.

    Conventions of the embedding.
    - A Python [float] (and an entry of a numpy float array) is a real
      number: arithmetic is exact, there is no rounding, no [nan] and no
      [inf].  Division is the total division of [R].  The one exception
      is the averaging of [saveData]: its sums and quotients are rounded
      to binary64 as numpy rounds them (module [Float64]).
    - A one-dimensional numpy array is a [list].
    - A Python exception is a value of [exn]; code that can raise lives in
      the error monad [res].
    - An object with mutable attributes is a record that is passed in and
      handed back; an attribute that is only created by a later assignment
      is an [option]. *)

From Stdlib Require Import String Ascii DecimalString Reals Lra Lia Bool Arith ZArith List.
From Stdlib Require Import Permutation Sorted.
Import ListNotations.
Open Scope R_scope.

(** ** Python exceptions *)

Module Py.

Inductive exn : Type :=
| IndexError
| ValueError
| AttributeError
| UnicodeDecodeError
| PortNotOpenError
| OSError
| Exception_ (msg : string).

Inductive res (A : Type) : Type :=
| Ok (a : A)
| Raise (e : exn).

Arguments Ok {A} a.
Arguments Raise {A} e.

Definition bind {A B : Type} (m : res A) (k : A -> res B) : res B :=
  match m with
  | Ok a => k a
  | Raise e => Raise e
  end.

Definition raised {A : Type} (m : res A) : Prop :=
  exists e, m = Raise e.

Definition returned {A : Type} (m : res A) : Prop :=
  exists a, m = Ok a.

(** Reading an attribute that no assignment has created yet. *)
Definition attr {A : Type} (o : option A) : res A :=
  match o with
  | Some v => Ok v
  | None => Raise AttributeError
  end.

(** Methods that assign attributes of [self] and may raise: what was
    assigned before a [raise] stays assigned. *)
Definition stm (S A : Type) : Type := S -> S * res A.

Definition st_ret {S A : Type} (a : A) : stm S A := fun s => (s, Ok a).

Definition st_bind {S A B : Type} (m : stm S A) (k : A -> stm S B) : stm S B :=
  fun s =>
    match m s with
    | (s', Ok a) => k a s'
    | (s', Raise e) => (s', Raise e)
    end.

Definition st_get {S : Type} : stm S S := fun s => (s, Ok s).

Definition st_modify {S : Type} (f : S -> S) : stm S unit :=
  fun s => (f s, Ok tt).

Definition st_lift {S A : Type} (m : res A) : stm S A := fun s => (s, m).

(** [try: body except BaseException as err: handler(err)] *)
Definition st_try {S A : Type} (body : stm S A) (handler : exn -> stm S A)
  : stm S A :=
  fun s =>
    match body s with
    | (s', Ok a) => (s', Ok a)
    | (s', Raise e) => handler e s'
    end.

Definition st_raise {S A : Type} (e : exn) : stm S A := fun s => (s, Raise e).

(** A method of an attribute, run on the attribute inside the object. *)
Definition st_zoom {S T A : Type} (get : S -> T) (set : T -> S -> S)
    (m : stm T A) : stm S A :=
  fun s =>
    match m (get s) with
    | (t', r) => (set t' s, r)
    end.

End Py.

Import Py.

Declare Scope py_scope.
Delimit Scope py_scope with py.
Notation "x <- m ;; k" := (bind m (fun x => k))
  (at level 61, m at next level, right associativity) : py_scope.
Notation "' p <- m ;; k" := (bind m (fun p => k))
  (at level 61, p pattern, m at next level, right associativity) : py_scope.
Notation "x <~ m ;; k" := (st_bind m (fun x => k))
  (at level 61, m at next level, right associativity) : py_scope.
Notation "' p <~ m ;; k" := (st_bind m (fun p => k))
  (at level 61, p pattern, m at next level, right associativity) : py_scope.
Notation "m >>> k" := (st_bind m (fun _ => k))
  (at level 61, right associativity) : py_scope.
Open Scope py_scope.

(** ** Comparisons of floats, as booleans *)

Definition Rltb (x y : R) : bool := if Rlt_dec x y then true else false.
Definition Rleb (x y : R) : bool := if Rle_dec x y then true else false.
Definition Reqb (x y : R) : bool := if Req_dec_T x y then true else false.

(** ** numpy's float64

    A float64 operation returns the binary64 number nearest to the exact
    result, ties to the even significand.  The binary64 numbers are the
    [m * 2^e] with [|m| < 2^53] and [-1074 <= e <= 971].  Infinities and
    NaN, and with them overflow and division by zero, have no counterpart
    in the reals and are left out. *)

Module Float64.

Definition pow2 (e : Z) : R := powerRZ 2 e.

(** The exponents of the last place, from the subnormal numbers up. *)
Definition exponents : list Z :=
  map (fun k => (Z.of_nat k - 1074)%Z) (seq 0 2046).

(** The exponent of the last place of the binary64 numbers around [x]:
    the least [e] with [|x| < 2^(e + 53)]. *)
Definition ulp_exponent (x : R) : Z :=
  match find (fun e => Rltb (Rabs x) (pow2 (e + 53))) exponents with
  | Some e => e
  | None => 971%Z
  end.

(** The integer nearest to [x], the even one of the two at a tie. *)
Definition nearest_even (x : R) : Z :=
  let f := Int_part x in
  let r := x - IZR f in
  if Rltb r (1 / 2) then f
  else if Rltb (1 / 2) r then (f + 1)%Z
  else if Z.even f then f else (f + 1)%Z.

Definition round (x : R) : R :=
  let e := ulp_exponent x in
  IZR (nearest_even (x / pow2 e)) * pow2 e.

Definition add (x y : R) : R := round (x + y).

Definition div (x y : R) : R := round (x / y).

(** [x] is a binary64 number. *)
Definition representable (x : R) : Prop :=
  round x = x /\ Rabs x < pow2 1024.

End Float64.

(** ** The part of numpy the program uses *)

Module Np.

Section Indexing.
Context {A : Type}.

(** [a[i]] for [i >= 0]. *)
Definition getitem (a : list A) (i : nat) : res A :=
  match nth_error a i with
  | Some v => Ok v
  | None => Raise IndexError
  end.

(** [a[-k]] for [k >= 1]. *)
Definition getitem_neg (a : list A) (k : nat) : res A :=
  if (k <=? length a)%nat then getitem a (length a - k) else Raise IndexError.

(** [a[mask]] for a boolean mask: the shapes must agree. *)
Fixpoint bool_index (a : list A) (mask : list bool) : res (list A) :=
  match a, mask with
  | [], [] => Ok []
  | v :: a', b :: mask' =>
      r <- bool_index a' mask' ;; Ok (if b then v :: r else r)
  | _, _ => Raise IndexError
  end.

(** [a[idx]] for an array of indices. *)
Fixpoint take (a : list A) (idx : list nat) : res (list A) :=
  match idx with
  | [] => Ok []
  | i :: idx' => v <- getitem a i ;; r <- take a idx' ;; Ok (v :: r)
  end.

(** [a[1:]] *)
Definition from1 (a : list A) : list A := tl a.

End Indexing.

(** [np.append(a, v)] and [np.append(v, a)] for a scalar [v]. *)
Definition append_back (a : list R) (v : R) : list R := a ++ [v].
Definition append_front (v : R) (a : list R) : list R := v :: a.

(** [np.lexsort((secondary, primary))]: the indices that sort by [primary],
    ties broken by [secondary], equal keys kept in their order (the sort is
    stable). *)
Definition key_le (k1 k2 : R * R) : bool :=
  Rltb (fst k1) (fst k2) || (Reqb (fst k1) (fst k2) && Rleb (snd k1) (snd k2)).

Fixpoint insert_index (key : nat -> R * R) (i : nat) (l : list nat) : list nat :=
  match l with
  | [] => [i]
  | j :: l' =>
      if key_le (key i) (key j) then i :: j :: l' else j :: insert_index key i l'
  end.

Definition lexsort (secondary primary : list R) : res (list nat) :=
  if (length secondary =? length primary)%nat then
    let key i := (nth i primary 0, nth i secondary 0) in
    Ok (fold_right (insert_index key) [] (seq 0 (length primary)))
  else Raise ValueError.

(** [np.linspace(start, stop, num)] *)
Definition linspace (start stop : R) (num : nat) : list R :=
  match num with
  | O => []
  | S O => [start]
  | S (S _) =>
      map (fun i => start + INR i * ((stop - start) / INR (num - 1))) (seq 0 num)
  end.

(** [np.diff(a)] *)
Fixpoint diff (a : list R) : list R :=
  match a with
  | u :: ((v :: _) as a') => (v - u) :: diff a'
  | _ => []
  end.

(** [a op b] for two arrays, with numpy's broadcasting of a one-element
    array; other shape mismatches raise. *)
Fixpoint zip_with (f : R -> R -> R) (a b : list R) : list R :=
  match a, b with
  | u :: a', v :: b' => f u v :: zip_with f a' b'
  | _, _ => []
  end.

Definition ew2 (f : R -> R -> R) (a b : list R) : res (list R) :=
  if (length a =? length b)%nat then Ok (zip_with f a b)
  else match a, b with
       | [u], _ => Ok (map (f u) b)
       | _, [v] => Ok (map (fun u => f u v) a)
       | _, _ => Raise ValueError
       end.

(** [c * a], [a * c] and [a / c] for a scalar [c], and a function applied
    to every entry. *)
Definition scale (c : R) (a : list R) : list R := map (Rmult c) a.
Definition scale_r (a : list R) (c : R) : list R := map (fun u => u * c) a.
Definition div_scalar (a : list R) (c : R) : list R := map (fun u => u / c) a.

(** [np.sum(a)] *)
Definition sum (a : list R) : R := fold_right Rplus 0 a.

(** The float64 sum of a vector, as [np.add.reduce] computes it along the
    contiguous axis: numpy's pairwise summation.  Fewer than eight numbers
    are added from left to right; up to 128 numbers are added into eight
    partial sums [r[0] .. r[7]], eight at a time, which are then added in
    pairs, and the numbers left over are added one by one; a longer vector
    is cut in two at a multiple of eight. *)
Fixpoint unrolled (blocks : nat) (r v : list R) : list R * list R :=
  match blocks with
  | O => (r, v)
  | S b => unrolled b (zip_with Float64.add r (firstn 8 v)) (skipn 8 v)
  end.

Definition sum8 (r : list R) : R :=
  Float64.add
    (Float64.add (Float64.add (nth 0 r 0) (nth 1 r 0))
                 (Float64.add (nth 2 r 0) (nth 3 r 0)))
    (Float64.add (Float64.add (nth 4 r 0) (nth 5 r 0))
                 (Float64.add (nth 6 r 0) (nth 7 r 0))).

Fixpoint pairwise_sum (fuel : nat) (v : list R) : R :=
  let n := length v in
  if (n <? 8)%nat then fold_left Float64.add v 0
  else if (n <=? 128)%nat then
    let '(r, rest) := unrolled (n / 8 - 1) (firstn 8 v) (skipn 8 v) in
    fold_left Float64.add rest (sum8 r)
  else
    match fuel with
    | O => 0
    | S fuel' =>
        let n2 := (n / 2 - (n / 2) mod 8)%nat in
        Float64.add (pairwise_sum fuel' (firstn n2 v))
                    (pairwise_sum fuel' (skipn n2 v))
    end.

(** [np.add.reduce(v)] for a float64 vector: the result starts as [0.0]
    and the pairwise sum is added to it. *)
Definition add_reduce (v : list R) : R :=
  Float64.add 0 (pairwise_sum (length v) v).

(** [np.add.reduce(a, axis=0)] for a float64 array of rows, column [j]:
    the result starts as [0.0] and the rows are added to it one after the
    other. *)
Definition add_reduce_axis0 (rows : list (list R)) (j : nat) : R :=
  fold_left Float64.add (map (fun row => nth j row 0) rows) 0.

(** [np.deg2rad(x)] *)
Definition deg2rad (x : R) : R := x * (PI / 180).

End Np.

(** ** The dictionary [DEFAULTS]

    main.py reads it from DEFAULTS.txt and adds the wing data; here it is a
    record of the keys that the constructors embedded below read. *)

Module Defaults.

Record t : Type := {
  PRESSURE_ARRAY : list R;
  ANGLE : R;
  VELOCITY : R;
  WIDTH : R;
  CHORD_LENGTH : R;
  LIFT : R;
  PROFILE_NAME : string;
  X_WING_TOP : list R;
  X_WING_BOTTOM : list R;
  Y_WING_TOP : list R;
  Y_WING_BOTTOM : list R;
  NUM_INTERPOL_POINTS : nat;
  NUM_OF_MEASSUREMENTS : nat;
  HEADER : list string;
  DEMO_MODE : bool;
  DEMO_PRESSURE : list R;
  DEMO_DENSITY : list R;
  DEMO_PRESSURE_FACTOR : R;
  DEMO_DENSITY_FACTOR : R
}.

End Defaults.

(** ** workers.py, class [Calculations] *)

Module Calculations.

(** The tuple sent with [send_lift_splines_sig]. *)
Record lift_and_splines : Type := {
  r_lift : R;
  r_spline_top : list R;
  r_spline_bottom : list R;
  r_x_grid_interpolation : list R;
  r_y_wing_top : list R;
  r_y_wing_bottom : list R;
  r_x_wing_interpolation_top : list R;
  r_x_wing_interpolation_bottom : list R;
  r_lift_data_available : bool
}.

(** The attributes of the worker.  [mask_top] to [x_coordinates_bottom]
    are created by [updateSetupData], [lift] by the first successful
    calculation.  [sent] and [logged] record what the worker has emitted on
    [send_lift_splines_sig] and written to the error log, oldest first. *)
Record state : Type := {
  pressure_array : list R;
  angle : R;
  width : R;
  chord_length : R;
  x_wing_top : list R;
  x_wing_bottom : list R;
  y_wing_top : list R;
  y_wing_bottom : list R;
  number_of_interpolated_points : nat;
  spline_top : list R;
  spline_bottom : list R;
  mask_top : option (list bool);
  mask_bottom : option (list bool);
  x_coordinates : option (list R);
  x_coordinates_top : option (list R);
  x_coordinates_bottom : option (list R);
  lift : option R;
  sent : list lift_and_splines;
  logged : list exn
}.

Definition set_splines (top bottom : list R) (s : state) : state :=
  {| pressure_array := pressure_array s; angle := angle s; width := width s;
     chord_length := chord_length s; x_wing_top := x_wing_top s;
     x_wing_bottom := x_wing_bottom s; y_wing_top := y_wing_top s;
     y_wing_bottom := y_wing_bottom s;
     number_of_interpolated_points := number_of_interpolated_points s;
     spline_top := top; spline_bottom := bottom;
     mask_top := mask_top s; mask_bottom := mask_bottom s;
     x_coordinates := x_coordinates s;
     x_coordinates_top := x_coordinates_top s;
     x_coordinates_bottom := x_coordinates_bottom s;
     lift := lift s; sent := sent s; logged := logged s |}.

Definition set_lift (v : R) (s : state) : state :=
  {| pressure_array := pressure_array s; angle := angle s; width := width s;
     chord_length := chord_length s; x_wing_top := x_wing_top s;
     x_wing_bottom := x_wing_bottom s; y_wing_top := y_wing_top s;
     y_wing_bottom := y_wing_bottom s;
     number_of_interpolated_points := number_of_interpolated_points s;
     spline_top := spline_top s; spline_bottom := spline_bottom s;
     mask_top := mask_top s; mask_bottom := mask_bottom s;
     x_coordinates := x_coordinates s;
     x_coordinates_top := x_coordinates_top s;
     x_coordinates_bottom := x_coordinates_bottom s;
     lift := Some v; sent := sent s; logged := logged s |}.

(** [self.send_lift_splines_sig.emit(t)] *)
Definition emit (t : lift_and_splines) (s : state) : state :=
  {| pressure_array := pressure_array s; angle := angle s; width := width s;
     chord_length := chord_length s; x_wing_top := x_wing_top s;
     x_wing_bottom := x_wing_bottom s; y_wing_top := y_wing_top s;
     y_wing_bottom := y_wing_bottom s;
     number_of_interpolated_points := number_of_interpolated_points s;
     spline_top := spline_top s; spline_bottom := spline_bottom s;
     mask_top := mask_top s; mask_bottom := mask_bottom s;
     x_coordinates := x_coordinates s;
     x_coordinates_top := x_coordinates_top s;
     x_coordinates_bottom := x_coordinates_bottom s;
     lift := lift s; sent := sent s ++ [t]; logged := logged s |}.

(** [print(err); logging.error(str(err), exc_info=True)] *)
Definition log_error (err : exn) (s : state) : state :=
  {| pressure_array := pressure_array s; angle := angle s; width := width s;
     chord_length := chord_length s; x_wing_top := x_wing_top s;
     x_wing_bottom := x_wing_bottom s; y_wing_top := y_wing_top s;
     y_wing_bottom := y_wing_bottom s;
     number_of_interpolated_points := number_of_interpolated_points s;
     spline_top := spline_top s; spline_bottom := spline_bottom s;
     mask_top := mask_top s; mask_bottom := mask_bottom s;
     x_coordinates := x_coordinates s;
     x_coordinates_top := x_coordinates_top s;
     x_coordinates_bottom := x_coordinates_bottom s;
     lift := lift s; sent := sent s; logged := logged s ++ [err] |}.

Definition set_setup (m_top m_bottom : option (list bool))
    (x x_top x_bottom : option (list R)) (s : state) : state :=
  {| pressure_array := pressure_array s; angle := angle s; width := width s;
     chord_length := chord_length s; x_wing_top := x_wing_top s;
     x_wing_bottom := x_wing_bottom s; y_wing_top := y_wing_top s;
     y_wing_bottom := y_wing_bottom s;
     number_of_interpolated_points := number_of_interpolated_points s;
     spline_top := spline_top s; spline_bottom := spline_bottom s;
     mask_top := m_top; mask_bottom := m_bottom;
     x_coordinates := x;
     x_coordinates_top := x_top;
     x_coordinates_bottom := x_bottom;
     lift := lift s; sent := sent s; logged := logged s |}.

(** [__init__]: the attributes that exist before any slot has run.  The
    masks, the coordinates and the lift are not among them. *)
Definition init (d : Defaults.t) : state :=
  {| pressure_array := Defaults.PRESSURE_ARRAY d;
     angle := Defaults.ANGLE d;
     width := Defaults.WIDTH d;
     chord_length := Defaults.CHORD_LENGTH d;
     x_wing_top := Defaults.X_WING_TOP d;
     x_wing_bottom := Defaults.X_WING_BOTTOM d;
     y_wing_top := Defaults.Y_WING_TOP d;
     y_wing_bottom := Defaults.Y_WING_BOTTOM d;
     number_of_interpolated_points := Defaults.NUM_INTERPOL_POINTS d;
     spline_top := repeat 0 (Defaults.NUM_INTERPOL_POINTS d);
     spline_bottom := repeat 0 (Defaults.NUM_INTERPOL_POINTS d);
     mask_top := None; mask_bottom := None;
     x_coordinates := None;
     x_coordinates_top := None;
     x_coordinates_bottom := None;
     lift := None; sent := []; logged := [] |}.

(** [updateSetupData] *)
Definition updateSetupData (m_top m_bottom : list bool) (x : list R)
  : stm state unit :=
  st_modify (fun s =>
    set_setup (Some m_top) (Some m_bottom) (Some x)
      (x_coordinates_top s) (x_coordinates_bottom s) s) >>>
  x_top <~ st_lift (Np.bool_index x m_top) ;;
  st_modify (fun s =>
    set_setup (mask_top s) (mask_bottom s) (x_coordinates s)
      (Some x_top) (x_coordinates_bottom s) s) >>>
  x_bottom <~ st_lift (Np.bool_index x m_bottom) ;;
  st_modify (fun s =>
    set_setup (mask_top s) (mask_bottom s) (x_coordinates s)
      (x_coordinates_top s) (Some x_bottom) s).

(** *** Sorting and boundary extension (the first half of
    [calculateLiftAndSplines]) *)

(** [idx = np.lexsort((p, x)); x = x[idx]; p = p[idx]] *)
Definition sort_surface (x p : list R) : res (list R * list R) :=
  idx <- Np.lexsort p x ;;
  x' <- Np.take x idx ;;
  p' <- Np.take p idx ;;
  Ok (x', p').

(** [if x_coordinates_top_calc[-1] < 0.99: ...] *)
Definition extend_trailing_top (x p : list R) : res (list R * list R) :=
  x_last <- Np.getitem_neg x 1 ;;
  if Rltb x_last 0.99 then
    p2 <- Np.getitem_neg p 2 ;;
    p1 <- Np.getitem_neg p 1 ;;
    let last_pressure_top := p2 + (p1 - p2) in
    Ok (Np.append_back x 1, Np.append_back p last_pressure_top)
  else Ok (x, p).

(** [if x_coordinates_bottom_calc[-1] < 0.99: ...]; the quotient reads
    [self.x_coordinates_bottom], the coordinates as they were before the
    sort, here [x_self]. *)
Definition extend_trailing_bottom (x_self x p : list R)
  : res (list R * list R) :=
  x_last <- Np.getitem_neg x 1 ;;
  if Rltb x_last 0.99 then
    p2 <- Np.getitem_neg p 2 ;;
    p1 <- Np.getitem_neg p 1 ;;
    c1 <- Np.getitem_neg x_self 1 ;;
    c2 <- Np.getitem_neg x_self 2 ;;
    let last_pressure_bottom := p2 + ((p1 - p2) / (c1 - c2)) * (1 - c2) in
    Ok (Np.append_back x 1, Np.append_back p last_pressure_bottom)
  else Ok (x, p).

(** [if x_coordinates_..._calc[0] > 0.00001: ...], the same on both
    surfaces. *)
Definition extend_leading (x p : list R) : res (list R * list R) :=
  x_first <- Np.getitem x 0 ;;
  if Rltb 0.00001 x_first then
    Ok (Np.append_front 0 x, Np.append_front 0 p)
  else Ok (x, p).

(** The boundary extension of the two sorted surfaces, in the order of the
    source: trailing top, trailing bottom, leading top, leading bottom. *)
Definition boundary_extension (x_self_bottom x_top p_top x_bottom p_bottom : list R)
  : res ((list R * list R) * (list R * list R)) :=
  '(x_top, p_top) <- extend_trailing_top x_top p_top ;;
  '(x_bottom, p_bottom) <- extend_trailing_bottom x_self_bottom x_bottom p_bottom ;;
  '(x_top, p_top) <- extend_leading x_top p_top ;;
  '(x_bottom, p_bottom) <- extend_leading x_bottom p_bottom ;;
  Ok ((x_top, p_top), (x_bottom, p_bottom)).

(** Selection by the masks, sort and boundary extension: the knots handed
    to the interpolator. *)
Definition knots (s : state) : res ((list R * list R) * (list R * list R)) :=
  m_top <- attr (mask_top s) ;;
  pressures_top <- Np.bool_index (pressure_array s) m_top ;;
  m_bottom <- attr (mask_bottom s) ;;
  pressures_bottom <- Np.bool_index (pressure_array s) m_bottom ;;
  x_top <- attr (x_coordinates_top s) ;;
  x_bottom <- attr (x_coordinates_bottom s) ;;
  '(x_top_calc, pressures_top) <- sort_surface x_top pressures_top ;;
  '(x_bottom_calc, pressures_bottom) <- sort_surface x_bottom pressures_bottom ;;
  boundary_extension x_bottom x_top_calc pressures_top x_bottom_calc pressures_bottom.

(** *** Panel integration (the last part of [calculateLiftAndSplines]) *)

(** [delta_x], [delta_y], [alpha] and [area] of one surface. *)
Definition panels (width chord_length : R) (x_wing_interpolation y_wing : list R)
  : res (list R * list R) :=
  let delta_x := Np.diff (Np.scale_r x_wing_interpolation chord_length) in
  let delta_y := Np.diff y_wing in
  slope <- Np.ew2 Rdiv delta_y delta_x ;;
  let alpha := map atan slope in
  quot <- Np.ew2 Rdiv delta_x (map cos alpha) ;;
  let area := Np.scale width quot in
  Ok (alpha, area).

(** [np.sum(-1 * interpolate_pressures[1:] * norm_y * area)] *)
Definition surface_lift (interpolate_pressures norm_y area : list R) : res R :=
  t <- Np.ew2 Rmult (Np.scale (-1) (Np.from1 interpolate_pressures)) norm_y ;;
  l <- Np.ew2 Rmult t area ;;
  Ok (Np.sum l).

Definition calculate_lift (width chord_length angle : R)
    (x_wing_interpolation_top y_wing_top
     x_wing_interpolation_bottom y_wing_bottom
     interpolate_pressures_top interpolate_pressures_bottom : list R) : res R :=
  '(alpha_top, area_top) <-
     panels width chord_length x_wing_interpolation_top y_wing_top ;;
  '(alpha_bottom, area_bottom) <-
     panels width chord_length x_wing_interpolation_bottom y_wing_bottom ;;
  let norm_y_top := Np.scale (-1) (map cos alpha_top) in
  let norm_y_bottom := map cos alpha_bottom in
  lift_top <- surface_lift interpolate_pressures_top norm_y_top area_top ;;
  lift_bottom <-
    surface_lift interpolate_pressures_bottom norm_y_bottom area_bottom ;;
  let lift := lift_top + lift_bottom in
  Ok (lift * cos (Np.deg2rad angle)).

Section WithInterpolator.

(** [scipy.interpolate.Akima1DInterpolator(x, y)]: the interpolant through
    the knots, or [ValueError] when scipy refuses the knots (fewer than two,
    abscissae not strictly increasing, ...).  The program only evaluates the
    interpolant on arrays, entry by entry. *)
Variable Akima1DInterpolator : list R -> list R -> res (R -> R).

(** Up to and including the evaluation of the two pressure interpolants. *)
Definition pressure_stage (s : state) : res (list R * list R * list R) :=
  '((x_top, p_top), (x_bottom, p_bottom)) <- knots s ;;
  let x_grid_interpolation :=
    Np.linspace 0 1 (number_of_interpolated_points s) in
  f_top <- Akima1DInterpolator x_top p_top ;;
  let interpolate_pressures_top := map f_top x_grid_interpolation in
  f_bottom <- Akima1DInterpolator x_bottom p_bottom ;;
  let interpolate_pressures_bottom := map f_bottom x_grid_interpolation in
  Ok (x_grid_interpolation, interpolate_pressures_top,
      interpolate_pressures_bottom).

(** From the resampling of the wing geometry to the lift. *)
Definition wing_stage (s : state)
    (interpolate_pressures_top interpolate_pressures_bottom : list R)
  : res (R * (list R * list R) * (list R * list R)) :=
  t0 <- Np.getitem (x_wing_top s) 0 ;;
  t1 <- Np.getitem_neg (x_wing_top s) 1 ;;
  let x_wing_interpolation_top :=
    Np.linspace t0 t1 (number_of_interpolated_points s) in
  b0 <- Np.getitem (x_wing_bottom s) 0 ;;
  b1 <- Np.getitem_neg (x_wing_bottom s) 1 ;;
  let x_wing_interpolation_bottom :=
    Np.linspace b0 b1 (number_of_interpolated_points s) in
  g_top <- Akima1DInterpolator (x_wing_top s) (y_wing_top s) ;;
  let y_top := map g_top x_wing_interpolation_top in
  g_bottom <- Akima1DInterpolator (x_wing_bottom s) (y_wing_bottom s) ;;
  let y_bottom := map g_bottom x_wing_interpolation_bottom in
  l <- calculate_lift (width s) (chord_length s) (angle s)
         x_wing_interpolation_top y_top x_wing_interpolation_bottom y_bottom
         interpolate_pressures_top interpolate_pressures_bottom ;;
  Ok (l, (y_top, y_bottom),
      (x_wing_interpolation_top, x_wing_interpolation_bottom)).

(** The body of the [try] of [calculateLiftAndSplines]. *)
Definition pipeline : stm state unit :=
  s <~ st_get ;;
  '(x_grid_interpolation, interpolate_pressures_top,
    interpolate_pressures_bottom) <~ st_lift (pressure_stage s) ;;
  st_modify
    (set_splines interpolate_pressures_top interpolate_pressures_bottom) >>>
  s <~ st_get ;;
  '(l, (y_top, y_bottom), (x_top, x_bottom)) <~
     st_lift (wing_stage s interpolate_pressures_top
                interpolate_pressures_bottom) ;;
  st_modify (set_lift l) >>>
  s <~ st_get ;;
  st_modify
    (emit {| r_lift := l;
             r_spline_top := spline_top s;
             r_spline_bottom := spline_bottom s;
             r_x_grid_interpolation := x_grid_interpolation;
             r_y_wing_top := y_top;
             r_y_wing_bottom := y_bottom;
             r_x_wing_interpolation_top := x_top;
             r_x_wing_interpolation_bottom := x_bottom;
             r_lift_data_available := true |}).

Definition calculateLiftAndSplines : stm state unit :=
  st_try pipeline (fun err => st_modify (log_error err)).

End WithInterpolator.

(** *** The panel-integration formula, as the specification words it

    For the panel between grid points [i] and [i+1] of a resampled wing
    curve: chordwise length [dx = (x(i+1) - x(i)) * chord_length], rise
    [dy = y(i+1) - y(i)], inclination [alpha = atan (dy / dx)], area
    [width * dx / cos alpha], normal component [normal_sign * cos alpha]
    ([-1] on the top surface, [+1] on the bottom), and the interpolated
    pressure at grid index [i+1]. *)
Definition spec_panel (normal_sign width chord_length : R)
    (x y p : list R) (i : nat) : R :=
  let dx := (nth (S i) x 0 - nth i x 0) * chord_length in
  let dy := nth (S i) y 0 - nth i y 0 in
  let alpha := atan (dy / dx) in
  let area := width * dx / cos alpha in
  let normal := normal_sign * cos alpha in
  area * normal * nth (S i) p 0.

Definition spec_surface (normal_sign width chord_length : R)
    (x y p : list R) : R :=
  Np.sum (map (spec_panel normal_sign width chord_length x y p)
            (seq 0 (length x - 1))).

Definition spec_lift (width chord_length angle : R)
    (x_top y_top x_bottom y_bottom p_top p_bottom : list R) : R :=
  (spec_surface (-1) width chord_length x_top y_top p_top
   + spec_surface 1 width chord_length x_bottom y_bottom p_bottom)
  * cos (Np.deg2rad angle).

End Calculations.

(** ** serialdevices.py *)

(** pyserial's [Serial], as far as [Device] uses it.  [incoming] holds the
    lines the instrument sends in answer to the coming requests, one per
    request; when it is empty the instrument stays silent and [readline]
    returns the empty byte string after its timeout.  Every operation on a
    closed port raises. *)
Module Serial.

Record port : Type := {
  is_open : bool;
  incoming : list string
}.

Definition guard_open : stm port unit :=
  fun p => if is_open p then (p, Ok tt) else (p, Raise PortNotOpenError).

Definition reset_input_buffer : stm port unit := guard_open.

Definition reset_output_buffer : stm port unit := guard_open.

Definition write (data : string) : stm port unit := guard_open.

(** The two commands of the line protocol, [b"Rate 0\n"] and [b"?\n"]. *)
Definition newline : string := String (ascii_of_nat 10) EmptyString.
Definition rate_command : string := "Rate 0" ++ newline.
Definition query_command : string := "?" ++ newline.

Definition readline : stm port string :=
  guard_open >>>
  (fun p =>
     match incoming p with
     | [] => (p, Ok EmptyString)
     | line :: rest => ({| is_open := true; incoming := rest |}, Ok line)
     end).

Definition close : stm port unit :=
  st_modify (fun p => {| is_open := false; incoming := incoming p |}).

End Serial.

Module SerialDevices.

Record Device : Type := {
  connection_established : bool;
  device_port : string;
  expected_shape : nat;
  ser_dev : Serial.port
}.

Definition set_ser_dev (p : Serial.port) (d : Device) : Device :=
  {| connection_established := connection_established d;
     device_port := device_port d;
     expected_shape := expected_shape d;
     ser_dev := p |}.

Definition on_port {A : Type} (m : stm Serial.port A) : stm Device A :=
  st_zoom ser_dev set_ser_dev m.

Section WithParser.

(** [line.decode("utf-8")], which raises on bytes that are not UTF-8, and
    [np.fromstring(text.strip(), sep="\t")], the array of the numbers
    numpy reads from the text. *)
Variable decode : string -> res string.
Variable fromstring : string -> list R.

(** [Device.__init__], given the outcome of opening the port. *)
Definition init (opened : res Serial.port) (port_name : string)
    (shape : nat) : res Device :=
  match
    (p <- opened ;;
     match (Serial.reset_output_buffer >>>
            Serial.write Serial.rate_command >>>
            Serial.readline >>>
            Serial.reset_input_buffer) p with
     | (p', Ok _) => Ok p'
     | (_, Raise e) => Raise e
     end)
  with
  | Ok p' =>
      Ok {| connection_established := true; device_port := port_name;
            expected_shape := shape; ser_dev := p' |}
  | Raise _ => Raise (Exception_ "ERROR connecting devices.")
  end.

(** [Device.getNewData]; the result [None] is Python's [None], returned
    when the body of the [if] is skipped. *)
Definition getNewData : stm Device (option (list R)) :=
  st_try
    (d <~ st_get ;;
     if connection_established d then
       on_port Serial.reset_input_buffer >>>
       on_port (Serial.write Serial.query_command) >>>
       line <~ on_port Serial.readline ;;
       text <~ st_lift (decode line) ;;
       let data_array := fromstring text in
       if (length data_array =? expected_shape d)%nat then
         st_ret (Some data_array)
       else
         on_port Serial.close >>>
         st_raise (Exception_ "Received data does not have expected shape.")
     else st_ret None)
    (fun _ => st_raise (Exception_ "ERROR in method getNewData.")).

(** [Device.close] *)
Definition close : stm Device unit := on_port Serial.close.

End WithParser.

End SerialDevices.

(** ** workers.py, class [Plot] *)

Module Plot.

(** The data attributes of the worker.  [x_coordinates_top] and
    [x_coordinates_bottom] are created by [updateSetupData];
    [x_grid_interpolation], [spline_top] and [spline_bottom] are created by
    the first [updateLiftAndSplines] and do not exist before. *)
Record attrs : Type := {
  angle : R;
  velocity : R;
  lift : R;
  pressure_array : list R;
  mask_top : list bool;
  mask_bottom : list bool;
  checkbox_tuple : bool * bool * bool;
  temperature : R;
  p_amb : R;
  humidity : R;
  density : R;
  y_wing_scale_pressures : R;
  y_wing_scale_cp : R;
  wing_sign : R;
  x_wing_interpolation_top : list R;
  x_wing_interpolation_bottom : list R;
  y_wing_top : list R;
  y_wing_bottom : list R;
  lift_data_available : bool;
  x_coordinates : option (list R);
  x_coordinates_top : option (list R);
  x_coordinates_bottom : option (list R);
  x_grid_interpolation : option (list R);
  spline_top : option (list R);
  spline_bottom : option (list R)
}.

(** The data of a matplotlib [Line2D]: what [set_data(x, y)] stores. *)
Definition line : Type := (list R * list R)%type.

Record artists : Type := {
  line_pressures_top : line;
  line_pressures_bottom : line;
  line_spline_top : line;
  line_spline_bottom : line;
  line_wing_top : line;
  line_wing_bottom : line
}.

(** The LCD widgets of the plot window, each holding the number it was
    last asked to display (the formatting to a fixed number of decimals is
    not modelled). *)
Record lcds : Type := {
  temp_lcd : R;
  p_amb_lcd : R;
  hum_lcd : R;
  dens_lcd : R;
  lift_top_lcd : R;
  lift_bottom_lcd : R
}.

(** The worker with its plot window.  [checkboxes_enabled] is the state of
    the line and cp check boxes, driven by [activate_checkboxes_sig] and
    [deactivate_checkboxes_sig]. *)
Record state : Type := {
  self : attrs;
  art : artists;
  lcd : lcds;
  checkboxes_enabled : bool
}.

Definition set_art (f : artists -> artists) (s : state) : state :=
  {| self := self s; art := f (art s); lcd := lcd s;
     checkboxes_enabled := checkboxes_enabled s |}.

Definition set_checkboxes (b : bool) (s : state) : state :=
  {| self := self s; art := art s; lcd := lcd s; checkboxes_enabled := b |}.

Definition set_self (f : attrs -> attrs) (s : state) : state :=
  {| self := f (self s); art := art s; lcd := lcd s;
     checkboxes_enabled := checkboxes_enabled s |}.

Definition pressures_top_set_data (d : line) (a : artists) : artists :=
  {| line_pressures_top := d;
     line_pressures_bottom := line_pressures_bottom a;
     line_spline_top := line_spline_top a;
     line_spline_bottom := line_spline_bottom a;
     line_wing_top := line_wing_top a;
     line_wing_bottom := line_wing_bottom a |}.

Definition pressures_bottom_set_data (d : line) (a : artists) : artists :=
  {| line_pressures_top := line_pressures_top a;
     line_pressures_bottom := d;
     line_spline_top := line_spline_top a;
     line_spline_bottom := line_spline_bottom a;
     line_wing_top := line_wing_top a;
     line_wing_bottom := line_wing_bottom a |}.

Definition spline_top_set_data (d : line) (a : artists) : artists :=
  {| line_pressures_top := line_pressures_top a;
     line_pressures_bottom := line_pressures_bottom a;
     line_spline_top := d;
     line_spline_bottom := line_spline_bottom a;
     line_wing_top := line_wing_top a;
     line_wing_bottom := line_wing_bottom a |}.

Definition spline_bottom_set_data (d : line) (a : artists) : artists :=
  {| line_pressures_top := line_pressures_top a;
     line_pressures_bottom := line_pressures_bottom a;
     line_spline_top := line_spline_top a;
     line_spline_bottom := d;
     line_wing_top := line_wing_top a;
     line_wing_bottom := line_wing_bottom a |}.

Definition wing_top_set_data (d : line) (a : artists) : artists :=
  {| line_pressures_top := line_pressures_top a;
     line_pressures_bottom := line_pressures_bottom a;
     line_spline_top := line_spline_top a;
     line_spline_bottom := line_spline_bottom a;
     line_wing_top := d;
     line_wing_bottom := line_wing_bottom a |}.

Definition wing_bottom_set_data (d : line) (a : artists) : artists :=
  {| line_pressures_top := line_pressures_top a;
     line_pressures_bottom := line_pressures_bottom a;
     line_spline_top := line_spline_top a;
     line_spline_bottom := line_spline_bottom a;
     line_wing_top := line_wing_top a;
     line_wing_bottom := d |}.

(** [updateDynamicLCDs] *)
Definition updateDynamicLCDs : stm state unit :=
  st_modify (fun s =>
    {| self := self s; art := art s;
       lcd := {| temp_lcd := temperature (self s);
                 p_amb_lcd := p_amb (self s);
                 hum_lcd := humidity (self s);
                 dens_lcd := density (self s);
                 lift_top_lcd := lift (self s);
                 lift_bottom_lcd := lift (self s) |};
       checkboxes_enabled := checkboxes_enabled s |}).

(** [plotPause] *)
Definition plotPause : stm state unit :=
  st_modify (set_checkboxes false).

(** The wing outline of one surface:
    [(x_wing_interpolation / x_wing_interpolation[-1],
      wing_sign * y_wing * y_wing_scale)]. *)
Definition wing_outline (sign scale : R) (x_wing_interpolation y_wing : list R)
  : res line :=
  x_last <- Np.getitem_neg x_wing_interpolation 1 ;;
  Ok (Np.div_scalar x_wing_interpolation x_last,
      Np.scale_r (Np.scale sign y_wing) scale).

(** [plotPressures] *)
Definition plotPressures : stm state unit :=
  st_modify (set_checkboxes true) >>>
  s <~ st_get ;;
  let a := self s in
  x_top <~ st_lift (attr (x_coordinates_top a)) ;;
  p_top <~ st_lift (Np.bool_index (pressure_array a) (mask_top a)) ;;
  st_modify (set_art (pressures_top_set_data (x_top, p_top))) >>>
  x_bottom <~ st_lift (attr (x_coordinates_bottom a)) ;;
  p_bottom <~ st_lift (Np.bool_index (pressure_array a) (mask_bottom a)) ;;
  st_modify (set_art (pressures_bottom_set_data (x_bottom, p_bottom))) >>>
  (if snd (fst (checkbox_tuple a)) && lift_data_available a then
     x_grid <~ st_lift (attr (x_grid_interpolation a)) ;;
     s_top <~ st_lift (attr (spline_top a)) ;;
     st_modify (set_art (spline_top_set_data (x_grid, s_top))) >>>
     x_grid <~ st_lift (attr (x_grid_interpolation a)) ;;
     s_bottom <~ st_lift (attr (spline_bottom a)) ;;
     st_modify (set_art (spline_bottom_set_data (x_grid, s_bottom))) >>>
     w_top <~ st_lift (wing_outline (wing_sign a) (y_wing_scale_pressures a)
                         (x_wing_interpolation_top a) (y_wing_top a)) ;;
     st_modify (set_art (wing_top_set_data w_top)) >>>
     w_bottom <~ st_lift (wing_outline (wing_sign a) (y_wing_scale_pressures a)
                            (x_wing_interpolation_bottom a) (y_wing_bottom a)) ;;
     st_modify (set_art (wing_bottom_set_data w_bottom))
   else
     st_modify (set_art (spline_top_set_data ([], []))) >>>
     st_modify (set_art (spline_bottom_set_data ([], [])))) >>>
  updateDynamicLCDs.

(** [plotCp]; [updateDynamicLCDs] is called in the [else] branch only. *)
Definition plotCp : stm state unit :=
  st_modify (set_checkboxes true) >>>
  s <~ st_get ;;
  let a := self s in
  let denominator_cp := 0.5 * velocity a ^ 2 * density a in
  x_top <~ st_lift (attr (x_coordinates_top a)) ;;
  p_top <~ st_lift (Np.bool_index (pressure_array a) (mask_top a)) ;;
  st_modify (set_art (pressures_top_set_data
                        (x_top, Np.div_scalar p_top denominator_cp))) >>>
  x_bottom <~ st_lift (attr (x_coordinates_bottom a)) ;;
  p_bottom <~ st_lift (Np.bool_index (pressure_array a) (mask_bottom a)) ;;
  st_modify (set_art (pressures_bottom_set_data
                        (x_bottom, Np.div_scalar p_bottom denominator_cp))) >>>
  (if snd (fst (checkbox_tuple a)) then
     x_grid <~ st_lift (attr (x_grid_interpolation a)) ;;
     s_top <~ st_lift (attr (spline_top a)) ;;
     st_modify (set_art (spline_top_set_data
                           (x_grid, Np.div_scalar s_top denominator_cp))) >>>
     x_grid <~ st_lift (attr (x_grid_interpolation a)) ;;
     s_bottom <~ st_lift (attr (spline_bottom a)) ;;
     st_modify (set_art (spline_bottom_set_data
                           (x_grid, Np.div_scalar s_bottom denominator_cp))) >>>
     w_top <~ st_lift (wing_outline (wing_sign a) (y_wing_scale_cp a)
                         (x_wing_interpolation_top a) (y_wing_top a)) ;;
     st_modify (set_art (wing_top_set_data w_top)) >>>
     w_bottom <~ st_lift (wing_outline (wing_sign a) (y_wing_scale_cp a)
                            (x_wing_interpolation_bottom a) (y_wing_bottom a)) ;;
     st_modify (set_art (wing_bottom_set_data w_bottom))
   else
     st_modify (set_art (spline_top_set_data ([], []))) >>>
     st_modify (set_art (spline_bottom_set_data ([], []))) >>>
     updateDynamicLCDs).

(** [plot_options_dict], keyed by (pause, line, cp). *)
Definition plot_options_dict (key : bool * bool * bool) : stm state unit :=
  match key with
  | (true, _, _) => plotPause
  | (false, true, true) => plotCp
  | (false, false, false) => plotPressures
  | (false, false, true) => plotCp
  | (false, true, false) => plotPressures
  end.

(** [animate], one tick of the presentation timer. *)
Definition animate : stm state unit :=
  s <~ st_get ;;
  plot_options_dict (checkbox_tuple (self s)).

(** [updateLiftAndSplines] *)
Definition updateLiftAndSplines (t : Calculations.lift_and_splines)
    (s : state) : state :=
  set_self (fun a =>
    {| angle := angle a; velocity := velocity a;
       lift := Calculations.r_lift t;
       pressure_array := pressure_array a;
       mask_top := mask_top a; mask_bottom := mask_bottom a;
       checkbox_tuple := checkbox_tuple a;
       temperature := temperature a; p_amb := p_amb a;
       humidity := humidity a; density := density a;
       y_wing_scale_pressures := y_wing_scale_pressures a;
       y_wing_scale_cp := y_wing_scale_cp a;
       wing_sign := wing_sign a;
       x_wing_interpolation_top := Calculations.r_x_wing_interpolation_top t;
       x_wing_interpolation_bottom :=
         Calculations.r_x_wing_interpolation_bottom t;
       y_wing_top := Calculations.r_y_wing_top t;
       y_wing_bottom := Calculations.r_y_wing_bottom t;
       lift_data_available := Calculations.r_lift_data_available t;
       x_coordinates := x_coordinates a;
       x_coordinates_top := x_coordinates_top a;
       x_coordinates_bottom := x_coordinates_bottom a;
       x_grid_interpolation := Some (Calculations.r_x_grid_interpolation t);
       spline_top := Some (Calculations.r_spline_top t);
       spline_bottom := Some (Calculations.r_spline_bottom t) |}) s.

Definition set_setup (m_top m_bottom : list bool)
    (x x_top x_bottom : option (list R)) (a : attrs) : attrs :=
  {| angle := angle a; velocity := velocity a; lift := lift a;
     pressure_array := pressure_array a;
     mask_top := m_top; mask_bottom := m_bottom;
     checkbox_tuple := checkbox_tuple a;
     temperature := temperature a; p_amb := p_amb a;
     humidity := humidity a; density := density a;
     y_wing_scale_pressures := y_wing_scale_pressures a;
     y_wing_scale_cp := y_wing_scale_cp a;
     wing_sign := wing_sign a;
     x_wing_interpolation_top := x_wing_interpolation_top a;
     x_wing_interpolation_bottom := x_wing_interpolation_bottom a;
     y_wing_top := y_wing_top a; y_wing_bottom := y_wing_bottom a;
     lift_data_available := lift_data_available a;
     x_coordinates := x;
     x_coordinates_top := x_top;
     x_coordinates_bottom := x_bottom;
     x_grid_interpolation := x_grid_interpolation a;
     spline_top := spline_top a; spline_bottom := spline_bottom a |}.

(** [updateSetupData] *)
Definition updateSetupData (m_top m_bottom : list bool) (x : list R)
  : stm state unit :=
  st_modify (set_self (fun a =>
    set_setup m_top m_bottom (Some x)
      (x_coordinates_top a) (x_coordinates_bottom a) a)) >>>
  x_top <~ st_lift (Np.bool_index x m_top) ;;
  st_modify (set_self (fun a =>
    set_setup (mask_top a) (mask_bottom a) (x_coordinates a)
      (Some x_top) (x_coordinates_bottom a) a)) >>>
  x_bottom <~ st_lift (Np.bool_index x m_bottom) ;;
  st_modify (set_self (fun a =>
    set_setup (mask_top a) (mask_bottom a) (x_coordinates a)
      (x_coordinates_top a) (Some x_bottom) a)).

(** The worker as [__init__] leaves it, with the setup data of
    [updateSetupData] already received: no calculation result yet. *)
Definition fresh (angle0 velocity0 lift0 : R) (pressures : list R)
    (m_top m_bottom : list bool) (boxes : bool * bool * bool)
    (scale_pressures scale_cp sign : R) (x x_top x_bottom : list R) : state :=
  {| self :=
       {| angle := angle0; velocity := velocity0; lift := lift0;
          pressure_array := pressures;
          mask_top := m_top; mask_bottom := m_bottom;
          checkbox_tuple := boxes;
          temperature := nth 0 pressures 0; p_amb := nth 1 pressures 0;
          humidity := nth 2 pressures 0; density := nth 3 pressures 0;
          y_wing_scale_pressures := scale_pressures;
          y_wing_scale_cp := scale_cp;
          wing_sign := sign;
          x_wing_interpolation_top := [];
          x_wing_interpolation_bottom := [];
          y_wing_top := []; y_wing_bottom := [];
          lift_data_available := false;
          x_coordinates := Some x;
          x_coordinates_top := Some x_top;
          x_coordinates_bottom := Some x_bottom;
          x_grid_interpolation := None;
          spline_top := None; spline_bottom := None |};
     art := {| line_pressures_top := ([], []);
               line_pressures_bottom := ([], []);
               line_spline_top := ([], []);
               line_spline_bottom := ([], []);
               line_wing_top := ([], []);
               line_wing_bottom := ([], []) |};
     lcd := {| temp_lcd := 0; p_amb_lcd := 0; hum_lcd := 0; dens_lcd := 0;
               lift_top_lcd := 0; lift_bottom_lcd := 0 |};
     checkboxes_enabled := true |}.

End Plot.

(** ** The part of pandas that [Data.saveData] uses

    A CSV file is the list of its lines, each line the list of its fields;
    the first line is the header.  The embedding covers rectangular files
    whose fields hold neither separators nor quotes.  [read_csv] infers the
    type of a column from all of its fields, as pandas does by default: a
    column whose fields are all integer literals (within 64 bits) becomes a
    column of integers.  Other fields are carried as the text they had, an
    empty field as a missing value; pandas would parse float literals and
    print them again, which the embedding takes to give the same text. *)

Module Pandas.

Inductive cell : Type :=
| CInt (z : Z)
| CFloat (r : R)
| CStr (s : string)
| CNaN.

Definition csv : Type := list (list string).

(** A data frame, column by column; all columns have [nrows] cells. *)
Record DataFrame : Type := {
  names : list string;
  cols : list (list cell);
  nrows : nat
}.

Definition int64 (z : Z) : bool :=
  ((- 2 ^ 63 <=? z) && (z <? 2 ^ 63))%Z.

Definition int_literal (s : string) : option Z :=
  match NilZero.int_of_string s with
  | Some d => if int64 (Z.of_int d) then Some (Z.of_int d) else None
  | None => None
  end.

Fixpoint all_int_literals (fields : list string) : option (list Z) :=
  match fields with
  | [] => Some []
  | f :: fs =>
      match int_literal f, all_int_literals fs with
      | Some z, Some zs => Some (z :: zs)
      | _, _ => None
      end
  end.

Definition text_cell (s : string) : cell :=
  match s with
  | EmptyString => CNaN
  | _ => CStr s
  end.

Definition infer_column (fields : list string) : list cell :=
  match fields with
  | [] => []
  | _ =>
      match all_int_literals fields with
      | Some zs => map CInt zs
      | None => map text_cell fields
      end
  end.

(** [pd.read_csv(path)] on the content of the file. *)
Definition read_csv (f : csv) : res DataFrame :=
  match f with
  | [] => Raise ValueError
  | header :: lines =>
      if forallb (fun l => (length l =? length header)%nat) lines then
        Ok {| names := header;
              cols := map (fun j =>
                             infer_column (map (fun l => nth j l EmptyString) lines))
                          (seq 0 (length header));
              nrows := length lines |}
      else Raise ValueError
  end.

(** The frame of one row that [saveData] assembles, after
    [df_new.columns = header]. *)
Definition one_row (header : list string) (row : list cell) : res DataFrame :=
  if (length header =? length row)%nat then
    Ok {| names := header; cols := map (fun c => [c]) row; nrows := 1 |}
  else Raise ValueError.

(** The common type of a column after a concatenation: integers stay
    integers among themselves, become floats next to floats or missing
    values, and every cell keeps its own type in a column that holds
    text. *)
Definition is_int (c : cell) : bool :=
  match c with CInt _ => true | _ => false end.

Definition is_text (c : cell) : bool :=
  match c with CStr _ => true | _ => false end.

Definition to_float (c : cell) : cell :=
  match c with
  | CInt z => CFloat (IZR z)
  | _ => c
  end.

Definition unify (col : list cell) : list cell :=
  if forallb is_int col then col
  else if existsb is_text col then col
  else map to_float col.

Fixpoint index_of (name : string) (l : list string) : option nat :=
  match l with
  | [] => None
  | n :: l' =>
      if String.eqb name n then Some O
      else option_map S (index_of name l')
  end.

Fixpoint unique (l : list string) : bool :=
  match l with
  | [] => true
  | n :: l' =>
      match index_of n l' with
      | Some _ => false
      | None => unique l'
      end
  end.

Definition column_of (df : DataFrame) (name : string) : list cell :=
  match index_of name (names df) with
  | Some j => nth j (cols df) (repeat CNaN (nrows df))
  | None => repeat CNaN (nrows df)
  end.

Definition missing_in (l : list string) (name : string) : bool :=
  match index_of name l with
  | Some _ => false
  | None => true
  end.

(** [pd.concat([a, b], ignore_index=True)]: the rows of [b] below the rows
    of [a], the columns matched by name. *)
Definition concat (a b : DataFrame) : res DataFrame :=
  if list_eq_dec string_dec (names a) (names b) then
    Ok {| names := names a;
          cols := map (fun j => unify (nth j (cols a) [] ++ nth j (cols b) []))
                      (seq 0 (length (names a)));
          nrows := nrows a + nrows b |}
  else if unique (names a) && unique (names b) then
    let all := names a ++ filter (missing_in (names a)) (names b) in
    Ok {| names := all;
          cols := map (fun n => unify (column_of a n ++ column_of b n)) all;
          nrows := nrows a + nrows b |}
  else Raise ValueError.

Section WithRepr.

(** The text pandas writes for a float. *)
Variable float_repr : R -> string.

Definition field (c : cell) : string :=
  match c with
  | CInt z => NilZero.string_of_int (Z.to_int z)
  | CFloat r => float_repr r
  | CStr s => s
  | CNaN => EmptyString
  end.

(** [df.to_csv(path, index=False)]: the content written. *)
Definition to_csv (df : DataFrame) : csv :=
  names df
  :: map (fun i => map (fun col => field (nth i col CNaN)) (cols df))
         (seq 0 (nrows df)).

End WithRepr.

End Pandas.

(** ** workers.py, class [Data] *)

Module Data.

Inductive signal : Type :=
| send_data_sig (pressure density : option (list R))
| calc_lift_splines_sig
| update_info_label_sig (text color : string)
| update_demo_label_sig (text : string)
| switch_plot_button_sig (status : bool)
| switch_save_button_sig (status : bool).

(** The attributes of the worker.  The devices are created by
    [updateSerialConnections], the masks and coordinates by
    [updateSetupData], the two arrays by [readData].  An array attribute
    that holds Python's [None] (the answer of a device that is not
    connected, which [Device.__init__] never builds) is [None] here as
    well, and using it raises. *)
Record attrs : Type := {
  stop_flag : bool;
  path : option string;
  number_of_measurements : nat;
  angle : R;
  velocity : R;
  width : R;
  header : list string;
  lift : R;
  demo_mode : bool;
  demo_pressure : list R;
  demo_density : list R;
  demo_pressure_factor : R;
  demo_density_factor : R;
  pressure_device : option SerialDevices.Device;
  density_device : option SerialDevices.Device;
  pressure_array : option (list R);
  density_array : option (list R);
  mask_top : option (list bool);
  mask_bottom : option (list bool);
  x_coordinates : option (list R);
  x_coordinates_top : option (list R);
  x_coordinates_bottom : option (list R)
}.

(** The worker in its surroundings: the files, the signals emitted and the
    error log so far (oldest first), and what the surroundings will answer:
    the text of [datetime.now().strftime("%H:%M:%S")], the seconds the
    measurements take, the draws of numpy's random generator, and whether
    a file can be created at a path that names none (the directory of the
    path exists and may be written to, and the path is not a directory
    itself). *)
Record world : Type := {
  self : attrs;
  files : list (string * Pandas.csv);
  emitted : list signal;
  logged : list exn;
  now_time : string;
  total_time_measurements : R;
  random_draws : nat -> list R * list R;
  draws : nat;
  creatable : string -> bool
}.

Definition set_self (f : attrs -> attrs) (w : world) : world :=
  {| self := f (self w); files := files w; emitted := emitted w;
     logged := logged w; now_time := now_time w;
     total_time_measurements := total_time_measurements w;
     random_draws := random_draws w; draws := draws w;
     creatable := creatable w |}.

Definition emit (sg : signal) : stm world unit :=
  st_modify (fun w =>
    {| self := self w; files := files w; emitted := emitted w ++ [sg];
       logged := logged w; now_time := now_time w;
       total_time_measurements := total_time_measurements w;
       random_draws := random_draws w; draws := draws w;
     creatable := creatable w |}).

Definition log_error (err : exn) : stm world unit :=
  st_modify (fun w =>
    {| self := self w; files := files w; emitted := emitted w;
       logged := logged w ++ [err]; now_time := now_time w;
       total_time_measurements := total_time_measurements w;
       random_draws := random_draws w; draws := draws w;
     creatable := creatable w |}).

Definition next_draw : stm world (list R * list R) :=
  fun w =>
    ({| self := self w; files := files w; emitted := emitted w;
        logged := logged w; now_time := now_time w;
        total_time_measurements := total_time_measurements w;
        random_draws := random_draws w; draws := S (draws w);
        creatable := creatable w |},
     Ok (random_draws w (draws w))).

(** The content of the file at [p], if there is one. *)
Fixpoint lookup (p : string) (fs : list (string * Pandas.csv))
  : option Pandas.csv :=
  match fs with
  | [] => None
  | (q, c) :: fs' => if String.eqb p q then Some c else lookup p fs'
  end.

Definition store (p : string) (content : Pandas.csv) (w : world) : world :=
  {| self := self w; files := (p, content) :: files w;
     emitted := emitted w; logged := logged w; now_time := now_time w;
     total_time_measurements := total_time_measurements w;
     random_draws := random_draws w; draws := draws w;
     creatable := creatable w |}.

(** [df.to_csv(path, index=False)]: the file at the path is replaced; where
    there is none it is created when the surroundings allow it, and
    otherwise opening it raises an [OSError] (a missing directory, a
    directory that may not be written to, a path that is a directory) and
    nothing is written. *)
Definition write_file (p : string) (content : Pandas.csv) : stm world unit :=
  fun w =>
    match lookup p (files w) with
    | Some _ => (store p content w, Ok tt)
    | None =>
        if creatable w p then (store p content w, Ok tt)
        else (w, Raise OSError)
    end.

Definition with_arrays (p d : option (list R)) (a : attrs) : attrs :=
  {| stop_flag := stop_flag a; path := path a;
     number_of_measurements := number_of_measurements a;
     angle := angle a; velocity := velocity a; width := width a;
     header := header a; lift := lift a; demo_mode := demo_mode a;
     demo_pressure := demo_pressure a; demo_density := demo_density a;
     demo_pressure_factor := demo_pressure_factor a;
     demo_density_factor := demo_density_factor a;
     pressure_device := pressure_device a;
     density_device := density_device a;
     pressure_array := p; density_array := d;
     mask_top := mask_top a; mask_bottom := mask_bottom a;
     x_coordinates := x_coordinates a;
     x_coordinates_top := x_coordinates_top a;
     x_coordinates_bottom := x_coordinates_bottom a |}.

Definition with_pressure_array (p : option (list R)) (a : attrs) : attrs :=
  with_arrays p (density_array a) a.

Definition with_density_array (d : option (list R)) (a : attrs) : attrs :=
  with_arrays (pressure_array a) d a.

Definition with_devices (p d : option SerialDevices.Device) (a : attrs)
  : attrs :=
  {| stop_flag := stop_flag a; path := path a;
     number_of_measurements := number_of_measurements a;
     angle := angle a; velocity := velocity a; width := width a;
     header := header a; lift := lift a; demo_mode := demo_mode a;
     demo_pressure := demo_pressure a; demo_density := demo_density a;
     demo_pressure_factor := demo_pressure_factor a;
     demo_density_factor := demo_density_factor a;
     pressure_device := p; density_device := d;
     pressure_array := pressure_array a; density_array := density_array a;
     mask_top := mask_top a; mask_bottom := mask_bottom a;
     x_coordinates := x_coordinates a;
     x_coordinates_top := x_coordinates_top a;
     x_coordinates_bottom := x_coordinates_bottom a |}.

Definition with_stop_flag (b : bool) (a : attrs) : attrs :=
  {| stop_flag := b; path := path a;
     number_of_measurements := number_of_measurements a;
     angle := angle a; velocity := velocity a; width := width a;
     header := header a; lift := lift a; demo_mode := demo_mode a;
     demo_pressure := demo_pressure a; demo_density := demo_density a;
     demo_pressure_factor := demo_pressure_factor a;
     demo_density_factor := demo_density_factor a;
     pressure_device := pressure_device a;
     density_device := density_device a;
     pressure_array := pressure_array a; density_array := density_array a;
     mask_top := mask_top a; mask_bottom := mask_bottom a;
     x_coordinates := x_coordinates a;
     x_coordinates_top := x_coordinates_top a;
     x_coordinates_bottom := x_coordinates_bottom a |}.

Definition with_lift (v : R) (a : attrs) : attrs :=
  {| stop_flag := stop_flag a; path := path a;
     number_of_measurements := number_of_measurements a;
     angle := angle a; velocity := velocity a; width := width a;
     header := header a; lift := v; demo_mode := demo_mode a;
     demo_pressure := demo_pressure a; demo_density := demo_density a;
     demo_pressure_factor := demo_pressure_factor a;
     demo_density_factor := demo_density_factor a;
     pressure_device := pressure_device a;
     density_device := density_device a;
     pressure_array := pressure_array a; density_array := density_array a;
     mask_top := mask_top a; mask_bottom := mask_bottom a;
     x_coordinates := x_coordinates a;
     x_coordinates_top := x_coordinates_top a;
     x_coordinates_bottom := x_coordinates_bottom a |}.

Definition with_setup (m_top m_bottom : option (list bool))
    (x : option (list R)) (a : attrs) : attrs :=
  {| stop_flag := stop_flag a; path := path a;
     number_of_measurements := number_of_measurements a;
     angle := angle a; velocity := velocity a; width := width a;
     header := header a; lift := lift a; demo_mode := demo_mode a;
     demo_pressure := demo_pressure a; demo_density := demo_density a;
     demo_pressure_factor := demo_pressure_factor a;
     demo_density_factor := demo_density_factor a;
     pressure_device := pressure_device a;
     density_device := density_device a;
     pressure_array := pressure_array a; density_array := density_array a;
     mask_top := m_top; mask_bottom := m_bottom;
     x_coordinates := x;
     x_coordinates_top := x_coordinates_top a;
     x_coordinates_bottom := x_coordinates_bottom a |}.

Definition with_path (p : string) (a : attrs) : attrs :=
  {| stop_flag := stop_flag a; path := Some p;
     number_of_measurements := number_of_measurements a;
     angle := angle a; velocity := velocity a; width := width a;
     header := header a; lift := lift a; demo_mode := demo_mode a;
     demo_pressure := demo_pressure a; demo_density := demo_density a;
     demo_pressure_factor := demo_pressure_factor a;
     demo_density_factor := demo_density_factor a;
     pressure_device := pressure_device a;
     density_device := density_device a;
     pressure_array := pressure_array a; density_array := density_array a;
     mask_top := mask_top a; mask_bottom := mask_bottom a;
     x_coordinates := x_coordinates a;
     x_coordinates_top := x_coordinates_top a;
     x_coordinates_bottom := x_coordinates_bottom a |}.

Definition with_surfaces (x_top x_bottom : option (list R)) (a : attrs)
  : attrs :=
  {| stop_flag := stop_flag a; path := path a;
     number_of_measurements := number_of_measurements a;
     angle := angle a; velocity := velocity a; width := width a;
     header := header a; lift := lift a; demo_mode := demo_mode a;
     demo_pressure := demo_pressure a; demo_density := demo_density a;
     demo_pressure_factor := demo_pressure_factor a;
     demo_density_factor := demo_density_factor a;
     pressure_device := pressure_device a;
     density_device := density_device a;
     pressure_array := pressure_array a; density_array := density_array a;
     mask_top := mask_top a; mask_bottom := mask_bottom a;
     x_coordinates := x_coordinates a;
     x_coordinates_top := x_top;
     x_coordinates_bottom := x_bottom |}.

(** [__init__]: no path, no devices, no arrays and no setup data yet. *)
Definition init (d : Defaults.t) : attrs :=
  {| stop_flag := false; path := None;
     number_of_measurements := Defaults.NUM_OF_MEASSUREMENTS d;
     angle := Defaults.ANGLE d; velocity := Defaults.VELOCITY d;
     width := Defaults.WIDTH d;
     header := Defaults.HEADER d; lift := Defaults.LIFT d;
     demo_mode := Defaults.DEMO_MODE d;
     demo_pressure := Defaults.DEMO_PRESSURE d;
     demo_density := Defaults.DEMO_DENSITY d;
     demo_pressure_factor := Defaults.DEMO_PRESSURE_FACTOR d;
     demo_density_factor := Defaults.DEMO_DENSITY_FACTOR d;
     pressure_device := None; density_device := None;
     pressure_array := None; density_array := None;
     mask_top := None; mask_bottom := None;
     x_coordinates := None;
     x_coordinates_top := None;
     x_coordinates_bottom := None |}.

(** [updateSetupData] *)
Definition updateSetupData (m_top m_bottom : list bool) (x : list R)
  : stm world unit :=
  st_modify (set_self (with_setup (Some m_top) (Some m_bottom) (Some x))) >>>
  x_top <~ st_lift (Np.bool_index x m_top) ;;
  st_modify (set_self (fun a =>
    with_surfaces (Some x_top) (x_coordinates_bottom a) a)) >>>
  x_bottom <~ st_lift (Np.bool_index x m_bottom) ;;
  st_modify (set_self (fun a =>
    with_surfaces (x_coordinates_top a) (Some x_bottom) a)).

(** [updatePath] *)
Definition updatePath (p : string) (w : world) : world :=
  set_self (with_path p) w.

(** [updateSerialConnections] *)
Definition updateSerialConnections
    (pressure density : SerialDevices.Device) (w : world) : world :=
  set_self (with_devices (Some pressure) (Some density)) w.

(** [updateLift] *)
Definition updateLift (t : Calculations.lift_and_splines) (w : world)
  : world :=
  set_self (with_lift (Calculations.r_lift t)) w.

(** [stopDataLoop] *)
Definition stopDataLoop (w : world) : world :=
  set_self (with_stop_flag true) w.

Section WithParser.

Variable decode : string -> res string.
Variable fromstring : string -> list R.

(** [self.pressure_array = self.pressure_device.getNewData()] and the same
    for the density device. *)
Definition query_pressure : stm world unit :=
  w <~ st_get ;;
  dev <~ st_lift (attr (pressure_device (self w))) ;;
  let '(dev', r) := SerialDevices.getNewData decode fromstring dev in
  st_modify (set_self (with_devices (Some dev') (density_device (self w)))) >>>
  data <~ st_lift r ;;
  st_modify (set_self (with_pressure_array data)).

Definition query_density : stm world unit :=
  w <~ st_get ;;
  dev <~ st_lift (attr (density_device (self w))) ;;
  let '(dev', r) := SerialDevices.getNewData decode fromstring dev in
  st_modify (set_self (with_devices (pressure_device (self w)) (Some dev'))) >>>
  data <~ st_lift r ;;
  st_modify (set_self (with_density_array data)).

(** [readData] *)
Definition readData : stm world unit :=
  st_try
    (w <~ st_get ;;
     if demo_mode (self w) then
       emit (update_demo_label_sig "DEMO MODE!") >>>
       '(r16, r4) <~ next_draw ;;
       p <~ st_lift
              (Np.ew2 Rplus (demo_pressure (self w))
                 (Np.scale_r r16 (demo_pressure_factor (self w)))) ;;
       st_modify (set_self (with_pressure_array (Some p))) >>>
       d <~ st_lift
              (Np.ew2 Rplus (demo_density (self w))
                 (Np.scale_r r4 (demo_density_factor (self w)))) ;;
       st_modify (set_self (with_density_array (Some d)))
     else
       query_pressure >>> query_density)
    (fun err =>
       log_error err >>> st_raise (Exception_ "ERROR in method readData.")).

(** [sendData] *)
Definition sendData : stm world unit :=
  w <~ st_get ;;
  emit (send_data_sig (pressure_array (self w)) (density_array (self w))).

(** [readDataLoop], when the stop request arrives during iteration
    [rounds] of the loop. *)
Fixpoint acquire (rounds : nat) : stm world unit :=
  match rounds with
  | O => st_ret tt
  | S k =>
      readData >>> sendData >>> emit calc_lift_splines_sig >>> acquire k
  end.

Definition readDataLoop (rounds : nat) : stm world unit :=
  st_try
    (st_modify (set_self (with_stop_flag false)) >>>
     acquire rounds >>>
     st_modify (set_self (with_stop_flag true)))
    (fun err =>
       emit (update_info_label_sig
               "There was an Error getting new Data from devices! Close window and rerun setup!"
               "red") >>>
       emit (switch_plot_button_sig false) >>>
       emit (switch_save_button_sig false) >>>
       log_error err).

(** [a[i, :] = v] for a row of [n] entries: a one-element [v] is
    broadcast, any other shape mismatch raises. *)
Definition assign_row (n : nat) (v : list R) : res (list R) :=
  if (length v =? n)%nat then Ok v
  else match v with
       | [u] => Ok (repeat u n)
       | _ => Raise ValueError
       end.

(** The measuring loop of [saveData]: the rows of [num_pressures],
    [num_density] and the entries of [num_lift]. *)
Fixpoint measure (n : nat)
  : stm world (list (list R) * list (list R) * list R) :=
  match n with
  | O => st_ret ([], [], [])
  | S k =>
      emit calc_lift_splines_sig >>>
      readData >>>
      sendData >>>
      w <~ st_get ;;
      p <~ st_lift (attr (pressure_array (self w))) ;;
      row_p <~ st_lift (assign_row 16 p) ;;
      d <~ st_lift (attr (density_array (self w))) ;;
      row_d <~ st_lift (assign_row 4 d) ;;
      let l := lift (self w) in
      '(ps, ds, ls) <~ measure k ;;
      st_ret (row_p :: ps, row_d :: ds, l :: ls)
  end.

(** [np.mean(a, axis=0)] of a float64 array of [n >= 1] rows and [m]
    columns, and [np.mean] of a float64 vector of [n >= 1] entries: the
    float64 sum, divided by the number of entries in float64.  (The [nan]
    that numpy gives for [n = 0] has no counterpart here.) *)
Definition mean_axis0 (n m : nat) (rows : list (list R)) : list R :=
  map (fun j => Float64.div (Np.add_reduce_axis0 rows j) (INR n)) (seq 0 m).

Definition mean (n : nat) (v : list R) : R :=
  Float64.div (Np.add_reduce v) (INR n).

(** ["".join(map(str, mask.astype(np.int_)))] *)
Fixpoint mask_str (mask : list bool) : string :=
  match mask with
  | [] => EmptyString
  | b :: mask' => String (if b then "1"%char else "0"%char) (mask_str mask')
  end.

(** The row of [df_new]. *)
Definition record (w : world) (pressures_mean density_mean : list R)
    (lift_mean : R) : res (list Pandas.cell) :=
  let a := self w in
  x <- attr (x_coordinates a) ;;
  m_top <- attr (mask_top a) ;;
  m_bottom <- attr (mask_bottom a) ;;
  Ok ([Pandas.CStr (now_time w)]
      ++ map Pandas.CFloat density_mean
      ++ [Pandas.CFloat (angle a); Pandas.CFloat (velocity a);
          Pandas.CFloat lift_mean; Pandas.CFloat (width a);
          Pandas.CInt (Z.of_nat (number_of_measurements a));
          Pandas.CFloat (total_time_measurements w)]
      ++ map Pandas.CFloat pressures_mean
      ++ map Pandas.CFloat x
      ++ [Pandas.CStr (mask_str m_top); Pandas.CStr (mask_str m_bottom)]).

Variable float_repr : R -> string.

(** The [if self.path.is_file(): ... else: ...] of [saveData]. *)
Definition append_record (row : list Pandas.cell) : stm world unit :=
  w <~ st_get ;;
  p <~ st_lift (attr (path (self w))) ;;
  match lookup p (files w) with
  | Some content =>
      df_old <~ st_lift (Pandas.read_csv content) ;;
      df_new <~ st_lift (Pandas.one_row (header (self w)) row) ;;
      df_write <~ st_lift (Pandas.concat df_old df_new) ;;
      write_file p (Pandas.to_csv float_repr df_write)
  | None =>
      df_new <~ st_lift (Pandas.one_row (header (self w)) row) ;;
      write_file p (Pandas.to_csv float_repr df_new)
  end.

(** The measuring loop followed by the three means: [pressures_mean],
    [density_mean] and [lift_mean]. *)
Definition averaged : stm world (list R * list R * R) :=
  w <~ st_get ;;
  let n := number_of_measurements (self w) in
  '(num_pressures, num_density, num_lift) <~ measure n ;;
  let pressures_mean := mean_axis0 n 16 num_pressures in
  let lift_mean := mean n num_lift in
  let density_mean := mean_axis0 n 4 num_density in
  st_ret (pressures_mean, density_mean, lift_mean).

(** The [try] block of [saveData] with its handler. *)
Definition save : stm world unit :=
  st_try
    ('(pressures_mean, density_mean, lift_mean) <~ averaged ;;
     w <~ st_get ;;
     row <~ st_lift (record w pressures_mean density_mean lift_mean) ;;
     append_record row >>>
     w <~ st_get ;;
     p <~ st_lift (attr (path (self w))) ;;
     emit (update_info_label_sig
             (now_time w ++ " : Data saved in " ++ p) "default"))
    (fun err =>
       emit (update_info_label_sig "ERROR in method saveData" "red") >>>
       log_error err).

(** [saveData]: the measurement is saved, then the acquisition loop is
    entered again. *)
Definition saveData (rounds : nat) : stm world unit :=
  save >>> readDataLoop rounds.

End WithParser.

End Data.

(** ** windows.py, class [SetUpWindow] *)

Module SetUpWindow.

(** What the window emits. *)
Inductive signal : Type :=
| update_sig (mask_top mask_bottom : list bool) (x_coordinates : list R)
| path_name_sig (path : string)
| send_serial_connections_sig (pressure density : SerialDevices.Device)
| switch_plot_button_sig (status : bool).

(** The attributes of the window, the state of its widgets (what the user
    has entered: [checkbox_list], [spinbox_list], [checkbox_color_list] and
    the two line edits), the signals emitted and the warnings shown so far,
    oldest first.  [x_coordinates_status], [x_coordinates] and [color_code]
    are numpy arrays that [setUp] assigns to index by index. *)
Record state : Type := {
  x_coordinates_status : list bool;
  x_coordinates : list R;
  color_code : list bool;
  pressure_port : string;
  density_port : string;
  baud_rate : N;
  expected_shape_pressure : nat;
  expected_shape_density : nat;
  demo_mode : bool;
  path : string;
  checkbox_list : list bool;
  spinbox_list : list R;
  checkbox_color_list : list bool;
  pressure_line_edit : string;
  density_line_edit : string;
  emitted : list signal;
  warnings : list string;
  logged : list exn;
  visible : bool
}.

Definition emit (sg : signal) : stm state unit :=
  st_modify (fun s =>
    {| x_coordinates_status := x_coordinates_status s;
       x_coordinates := x_coordinates s; color_code := color_code s;
       pressure_port := pressure_port s; density_port := density_port s;
       baud_rate := baud_rate s;
       expected_shape_pressure := expected_shape_pressure s;
       expected_shape_density := expected_shape_density s;
       demo_mode := demo_mode s; path := path s;
       checkbox_list := checkbox_list s; spinbox_list := spinbox_list s;
       checkbox_color_list := checkbox_color_list s;
       pressure_line_edit := pressure_line_edit s;
       density_line_edit := density_line_edit s;
       emitted := emitted s ++ [sg]; warnings := warnings s;
       logged := logged s; visible := visible s |}).

(** [WarningWindow.showWarning(title, text, info)] *)
Definition showWarning (text : string) : stm state unit :=
  st_modify (fun s =>
    {| x_coordinates_status := x_coordinates_status s;
       x_coordinates := x_coordinates s; color_code := color_code s;
       pressure_port := pressure_port s; density_port := density_port s;
       baud_rate := baud_rate s;
       expected_shape_pressure := expected_shape_pressure s;
       expected_shape_density := expected_shape_density s;
       demo_mode := demo_mode s; path := path s;
       checkbox_list := checkbox_list s; spinbox_list := spinbox_list s;
       checkbox_color_list := checkbox_color_list s;
       pressure_line_edit := pressure_line_edit s;
       density_line_edit := density_line_edit s;
       emitted := emitted s; warnings := warnings s ++ [text];
       logged := logged s; visible := visible s |}).

Definition log_error (err : exn) : stm state unit :=
  st_modify (fun s =>
    {| x_coordinates_status := x_coordinates_status s;
       x_coordinates := x_coordinates s; color_code := color_code s;
       pressure_port := pressure_port s; density_port := density_port s;
       baud_rate := baud_rate s;
       expected_shape_pressure := expected_shape_pressure s;
       expected_shape_density := expected_shape_density s;
       demo_mode := demo_mode s; path := path s;
       checkbox_list := checkbox_list s; spinbox_list := spinbox_list s;
       checkbox_color_list := checkbox_color_list s;
       pressure_line_edit := pressure_line_edit s;
       density_line_edit := density_line_edit s;
       emitted := emitted s; warnings := warnings s;
       logged := logged s ++ [err]; visible := visible s |}).

(** [self.close()] *)
Definition close : stm state unit :=
  st_modify (fun s =>
    {| x_coordinates_status := x_coordinates_status s;
       x_coordinates := x_coordinates s; color_code := color_code s;
       pressure_port := pressure_port s; density_port := density_port s;
       baud_rate := baud_rate s;
       expected_shape_pressure := expected_shape_pressure s;
       expected_shape_density := expected_shape_density s;
       demo_mode := demo_mode s; path := path s;
       checkbox_list := checkbox_list s; spinbox_list := spinbox_list s;
       checkbox_color_list := checkbox_color_list s;
       pressure_line_edit := pressure_line_edit s;
       density_line_edit := density_line_edit s;
       emitted := emitted s; warnings := warnings s;
       logged := logged s; visible := false |}).

Definition with_arrays (status : list bool) (coordinates : list R)
    (colors : list bool) (s : state) : state :=
  {| x_coordinates_status := status;
     x_coordinates := coordinates; color_code := colors;
     pressure_port := pressure_port s;
     density_port := density_port s;
     baud_rate := baud_rate s;
     expected_shape_pressure := expected_shape_pressure s;
     expected_shape_density := expected_shape_density s;
     demo_mode := demo_mode s; path := path s;
     checkbox_list := checkbox_list s; spinbox_list := spinbox_list s;
     checkbox_color_list := checkbox_color_list s;
     pressure_line_edit := pressure_line_edit s;
     density_line_edit := density_line_edit s;
     emitted := emitted s; warnings := warnings s;
     logged := logged s; visible := visible s |}.

Definition with_ports (pressure density : string) (s : state) : state :=
  {| x_coordinates_status := x_coordinates_status s;
     x_coordinates := x_coordinates s; color_code := color_code s;
     pressure_port := pressure;
     density_port := density;
     baud_rate := baud_rate s;
     expected_shape_pressure := expected_shape_pressure s;
     expected_shape_density := expected_shape_density s;
     demo_mode := demo_mode s; path := path s;
     checkbox_list := checkbox_list s; spinbox_list := spinbox_list s;
     checkbox_color_list := checkbox_color_list s;
     pressure_line_edit := pressure_line_edit s;
     density_line_edit := density_line_edit s;
     emitted := emitted s; warnings := warnings s;
     logged := logged s; visible := visible s |}.

(** [for i, w in enumerate(widgets): array[i] = value(w)]: the array is
    assigned to in place, entry by entry; a widget beyond the end of the
    array raises [IndexError], after the whole array has been
    overwritten. *)
Definition assign_all {A : Type} (values array : list A) : list A * res unit :=
  if (length values <=? length array)%nat then
    (values ++ skipn (length values) array, Ok tt)
  else (firstn (length array) values, Raise IndexError).

Definition read_status : stm state unit :=
  fun s =>
    let '(a, r) := assign_all (checkbox_list s) (x_coordinates_status s) in
    (with_arrays a (x_coordinates s) (color_code s) s, r).

Definition read_coordinates : stm state unit :=
  fun s =>
    let '(a, r) := assign_all (spinbox_list s) (x_coordinates s) in
    (with_arrays (x_coordinates_status s) a (color_code s) s, r).

Definition read_colors : stm state unit :=
  fun s =>
    let '(a, r) := assign_all (checkbox_color_list s) (color_code s) in
    (with_arrays (x_coordinates_status s) (x_coordinates s) a s, r).

(** The first steps of [setUp]: the two ports, then the three arrays. *)
Definition read_widgets : stm state unit :=
  s <~ st_get ;;
  st_modify (with_ports (pressure_line_edit s) (density_line_edit s)) >>>
  read_status >>>
  read_coordinates >>>
  read_colors.

(** [np.bitwise_and(a, b)] and [~a] on boolean arrays. *)
Fixpoint bitwise_and (a b : list bool) : res (list bool) :=
  match a, b with
  | [], [] => Ok []
  | u :: a', v :: b' => r <- bitwise_and a' b' ;; Ok ((u && v) :: r)
  | _, _ => Raise ValueError
  end.

Definition invert (a : list bool) : list bool := map negb a.

(** [np.sum(mask)] *)
Definition count (mask : list bool) : nat := length (filter (fun b => b) mask).

(** The indices of [np.unique(a, axis=0, return_index=True)]: for every
    distinct value the index of its first occurrence.  numpy lists them in
    the order of the sorted values, here they are in increasing order;
    [np.setdiff1d] below does not depend on the order. *)
Fixpoint occurs (x : R) (l : list R) : bool :=
  match l with
  | [] => false
  | y :: l' => Reqb x y || occurs x l'
  end.

Fixpoint first_occurrences (seen : list R) (i : nat) (a : list R) : list nat :=
  match a with
  | [] => []
  | x :: a' =>
      if occurs x seen then first_occurrences seen (S i) a'
      else i :: first_occurrences (x :: seen) (S i) a'
  end.

Definition unique_indices (a : list R) : list nat := first_occurrences [] 0 a.

(** [np.setdiff1d(np.arange(n), idx)] *)
Definition setdiff_arange (n : nat) (idx : list nat) : list nat :=
  filter (fun i => negb (existsb (Nat.eqb i) idx)) (seq 0 n).

(** [idx.any()] on an array of indices: some entry is not zero. *)
Definition any (idx : list nat) : bool :=
  existsb (fun i => negb (i =? 0)%nat) idx.

Definition duplicate_indices (coordinates : list R) : list nat :=
  setdiff_arange (length coordinates) (unique_indices coordinates).

Section WithRuntime.

Variable decode : string -> res string.
Variable fromstring : string -> list R.

(** The outcome of [serial.Serial(port=..., baudrate=..., ...)]. *)
Variable open_port : string -> N -> res Serial.port.

(** The [else] branch of the demo test: both devices are opened, sent to
    the data worker and read once.  The data worker receives the device
    objects themselves, so it sees them as the two test readings leave
    them; the signal therefore carries the devices after the readings. *)
Definition connect_devices : stm state unit :=
  st_try
    (s <~ st_get ;;
     pressure_device <~
       st_lift (SerialDevices.init
                  (open_port (pressure_port s) (baud_rate s))
                  (pressure_port s) (expected_shape_pressure s)) ;;
     density_device <~
       st_lift (SerialDevices.init
                  (open_port (density_port s) (baud_rate s))
                  (density_port s) (expected_shape_density s)) ;;
     let '(pressure_device', r1) :=
       SerialDevices.getNewData decode fromstring pressure_device in
     let '(density_device', r2) :=
       match r1 with
       | Ok _ => SerialDevices.getNewData decode fromstring density_device
       | Raise e => (density_device, Raise e)
       end in
     emit (send_serial_connections_sig pressure_device' density_device') >>>
     emit (switch_plot_button_sig true) >>>
     st_lift r1 >>>
     st_lift r2 >>>
     st_ret tt)
    (fun err =>
       showWarning "Could not connect devices." >>>
       log_error err >>>
       emit (switch_plot_button_sig false)).

(** The last step of [setUp] before the window closes: the masks are
    built, the candidate is tested and, when it passes, sent to the
    workers. *)
Definition validate : stm state unit :=
  s <~ st_get ;;
  mask_top <~
    st_lift (bitwise_and (x_coordinates_status s) (color_code s)) ;;
  mask_bottom <~
    st_lift (bitwise_and (x_coordinates_status s) (invert (color_code s))) ;;
  coordinates_top <~ st_lift (Np.bool_index (x_coordinates s) mask_top) ;;
  let duplicate_indices_top := duplicate_indices coordinates_top in
  coordinates_bottom <~
    st_lift (Np.bool_index (x_coordinates s) mask_bottom) ;;
  let duplicate_indices_bottom := duplicate_indices coordinates_bottom in
  let min_length_ok :=
    negb ((count mask_top <? 2)%nat || (count mask_bottom <? 2)%nat) in
  (if negb min_length_ok then
     showWarning "Top and bottom need at least two points for interpolation." >>>
     emit (switch_plot_button_sig false)
   else st_ret tt) >>>
  (if any duplicate_indices_top || any duplicate_indices_bottom then
     showWarning "Please check for duplicates." >>>
     emit (switch_plot_button_sig false)
   else st_ret tt) >>>
  (if negb (any duplicate_indices_top)
      && negb (any duplicate_indices_bottom)
      && min_length_ok then
     emit (update_sig mask_top mask_bottom (x_coordinates s)) >>>
     emit (path_name_sig (path s)) >>>
     (if demo_mode s then emit (switch_plot_button_sig true)
      else connect_devices)
   else st_ret tt).

(** [setUp]: the widgets are read into the attributes, the candidate is
    validated, the window closes. *)
Definition setUp : stm state unit :=
  read_widgets >>> validate >>> close.

End WithRuntime.

(** Python's [needle in text] on strings. *)
Fixpoint contains (needle text : string) : bool :=
  String.prefix needle text
  || match text with
     | EmptyString => false
     | String _ rest => contains needle rest
     end.

Definition with_path (p : string) (s : state) : state :=
  {| x_coordinates_status := x_coordinates_status s;
     x_coordinates := x_coordinates s; color_code := color_code s;
     pressure_port := pressure_port s; density_port := density_port s;
     baud_rate := baud_rate s;
     expected_shape_pressure := expected_shape_pressure s;
     expected_shape_density := expected_shape_density s;
     demo_mode := demo_mode s; path := p;
     checkbox_list := checkbox_list s; spinbox_list := spinbox_list s;
     checkbox_color_list := checkbox_color_list s;
     pressure_line_edit := pressure_line_edit s;
     density_line_edit := density_line_edit s;
     emitted := emitted s; warnings := warnings s;
     logged := logged s; visible := visible s |}.

(** [openFileDialog], given the pair that [QFileDialog.getSaveFileName]
    returns: the file name and the selected filter, both empty when the
    user cancels.  A path is the string it was made from. *)
Definition openFileDialog (filename ok : string) : stm state unit :=
  match ok with
  | EmptyString => st_ret tt
  | String _ _ =>
      if contains ".csv" filename then st_modify (with_path filename)
      else st_modify (with_path (filename ++ ".csv"))
  end >>>
  s <~ st_get ;;
  emit (path_name_sig (path s)).

End SetUpWindow.

(** ** profiledata.py *)

Module ProfileData.

(** [readProfileData] catches [DataError] and nothing else: every other
    exception leaves the function.  Besides the exceptions of [exn] these
    are exceptions of other classes, kept by the name of their class. *)
Inductive uncaught : Type :=
| Builtin (e : exn)
| Other (class : string).

Inductive outcome (A : Type) : Type :=
| Return (a : A)
| Escapes (e : uncaught).

Arguments Return {A} a.
Arguments Escapes {A} e.

Definition lift {A : Type} (m : res A) : outcome A :=
  match m with
  | Ok a => Return a
  | Raise e => Escapes (Builtin e)
  end.

Definition and_then {A B : Type} (m : outcome A) (k : A -> outcome B)
  : outcome B :=
  match m with
  | Return a => k a
  | Escapes e => Escapes e
  end.

(** The tuple the function returns; [error] is [None] for the status [0]
    and the message of the [DataError] otherwise. *)
Record profile : Type := {
  name : string;
  x_top : list R;
  x_bottom : list R;
  y_top : list R;
  y_bottom : list R;
  error : option string
}.

(** [int(r)] for a float: the integer part, towards zero. *)
Definition int (r : R) : Z :=
  if Rle_dec 0 r then Int_part r else (- Int_part (- r))%Z.

(** [np.all(coords[:-1] < coords[1:])] *)
Definition increasing (coords : list R) : bool :=
  forallb (fun uv => Rltb (fst uv) (snd uv))
    (combine (removelast coords) (Np.from1 coords)).

(** [data[data[0] == 0.0].first_valid_index()]: the index of the first row
    whose abscissa is zero, [None] when there is no such row. *)
Fixpoint first_valid_index (x : list R) : option nat :=
  match x with
  | [] => None
  | u :: x' =>
      if Reqb u 0 then Some O else option_map S (first_valid_index x')
  end.

Definition message : string :=
  "WARNING! X-coordinates are not in increasing Sequence. Please modify .dat file manually.".

(** [for coords in [x_top, x_bottom]: if ...: raise DataError(...)] with
    the handler that returns the arrays together with the error. *)
Definition checked (name : string) (x_top x_bottom y_top y_bottom : list R)
  : profile :=
  {| name := name;
     x_top := x_top; x_bottom := x_bottom;
     y_top := y_top; y_bottom := y_bottom;
     error :=
       if negb (increasing x_top) then Some message
       else if negb (increasing x_bottom) then Some message
       else None |}.

Section WithPython.

(** [str.split()], [float(text)], and the first two columns, as numbers,
    of the frame that [pd.read_csv(StringIO(text), sep="\s+", header=None)]
    reads. *)
Variable split : string -> list string.
Variable float : string -> res R.
Variable read_csv : string -> outcome (list R * list R).

(** [float(line.split()[0])] *)
Definition first_number (line : string) : res R :=
  token <- Np.getitem (split line) 0 ;;
  float token.

(** [readProfileData], given the lines of the file. *)
Definition readProfileData (lines : list string) : outcome profile :=
  match lines with
  | [] => Escapes (Builtin IndexError)
  | first_line :: lines =>
      and_then (lift (Np.getitem (split first_line) 0)) (fun name =>
      and_then (lift (line <- Np.getitem lines 0 ;; first_number line))
        (fun count =>
      if Rltb 1 count then
        (* Lednicer format *)
        let length_top := Z.to_nat (int count) in
        let lines := tl lines in
        and_then (read_csv (String.concat EmptyString lines)) (fun xy =>
        let x := fst xy in
        let y := snd xy in
        Return (checked name
                  (firstn length_top x) (skipn length_top x)
                  (firstn length_top y) (skipn length_top y)))
      else
        (* Selig format *)
        and_then (read_csv (String.concat EmptyString lines)) (fun xy =>
        let x := fst xy in
        let y := snd xy in
        match first_valid_index x with
        | None => Escapes (Other "TypeError")
        | Some length_top =>
            Return (checked name
                      (rev (firstn (length_top + 1) x)) (skipn length_top x)
                      (rev (firstn (length_top + 1) y)) (skipn length_top y))
        end)))
  end.

End WithPython.

End ProfileData.

(** ** main.py: the workers wired together

    The connections of [MainWindow.__init__], as far as the setup data and
    the calculation results travel along them.  A signal is delivered to
    its slots as soon as it is emitted; between threads Qt queues it, which
    delays the delivery but does not change what is delivered.

    The tuple of [update_sig] carries the array [x_coordinates] of the
    setup window itself, not a copy, and [updateSetupData] stores that
    object in the attribute [x_coordinates] of each worker.  So when
    [setUp] later assigns to the entries of its array, the attribute of
    every worker that was given the array shows the new entries:
    [share_x_coordinates] applies the assignment to them.  The masks are
    fresh arrays on every [setUp], and the per-surface coordinates the
    workers compute are copies (a boolean index copies). *)

Module Main.

Record system : Type := {
  setup_window : SetUpWindow.state;
  data_worker : Data.world;
  plot_worker : Plot.state;
  calculations_worker : Calculations.state;
  show_plot_button : bool
}.

Definition rebind {A : Type} (x : A) (o : option A) : option A :=
  match o with
  | Some _ => Some x
  | None => None
  end.

Definition share_x_coordinates (x : list R) (sys : system) : system :=
  {| setup_window := setup_window sys;
     data_worker :=
       Data.set_self
         (fun a => Data.with_setup (Data.mask_top a) (Data.mask_bottom a)
                     (rebind x (Data.x_coordinates a)) a)
         (data_worker sys);
     plot_worker :=
       Plot.set_self
         (fun a => Plot.set_setup (Plot.mask_top a) (Plot.mask_bottom a)
                     (rebind x (Plot.x_coordinates a))
                     (Plot.x_coordinates_top a) (Plot.x_coordinates_bottom a) a)
         (plot_worker sys);
     calculations_worker :=
       (fun s => Calculations.set_setup
                   (Calculations.mask_top s) (Calculations.mask_bottom s)
                   (rebind x (Calculations.x_coordinates s))
                   (Calculations.x_coordinates_top s)
                   (Calculations.x_coordinates_bottom s) s)
         (calculations_worker sys);
     show_plot_button := show_plot_button sys |}.

(** The slots connected to the signals of the setup window. *)
Definition deliver (sys : system) (sg : SetUpWindow.signal) : system :=
  match sg with
  | SetUpWindow.update_sig m_top m_bottom x =>
      {| setup_window := setup_window sys;
         data_worker :=
           fst (Data.updateSetupData m_top m_bottom x (data_worker sys));
         plot_worker :=
           fst (Plot.updateSetupData m_top m_bottom x (plot_worker sys));
         calculations_worker :=
           fst (Calculations.updateSetupData m_top m_bottom x
                  (calculations_worker sys));
         show_plot_button := show_plot_button sys |}
  | SetUpWindow.path_name_sig p =>
      {| setup_window := setup_window sys;
         data_worker := Data.updatePath p (data_worker sys);
         plot_worker := plot_worker sys;
         calculations_worker := calculations_worker sys;
         show_plot_button := show_plot_button sys |}
  | SetUpWindow.send_serial_connections_sig pressure density =>
      {| setup_window := setup_window sys;
         data_worker :=
           Data.updateSerialConnections pressure density (data_worker sys);
         plot_worker := plot_worker sys;
         calculations_worker := calculations_worker sys;
         show_plot_button := show_plot_button sys |}
  | SetUpWindow.switch_plot_button_sig status =>
      {| setup_window := setup_window sys;
         data_worker := data_worker sys;
         plot_worker := plot_worker sys;
         calculations_worker := calculations_worker sys;
         show_plot_button := status |}
  end.

(** The slots connected to [send_lift_splines_sig]. *)
Definition deliver_result (sys : system) (t : Calculations.lift_and_splines)
  : system :=
  {| setup_window := setup_window sys;
     data_worker := Data.updateLift t (data_worker sys);
     plot_worker := Plot.updateLiftAndSplines t (plot_worker sys);
     calculations_worker := calculations_worker sys;
     show_plot_button := show_plot_button sys |}.

Section WithRuntime.

Variable decode : string -> res string.
Variable fromstring : string -> list R.
Variable open_port : string -> N -> res Serial.port.
Variable Akima1DInterpolator : list R -> list R -> res (R -> R).

(** The user confirms the setup window. *)
Definition setUp (sys : system) : system :=
  let before := setup_window sys in
  let after := fst (SetUpWindow.setUp decode fromstring open_port before) in
  let sys1 :=
    share_x_coordinates (SetUpWindow.x_coordinates after)
      {| setup_window := after;
         data_worker := data_worker sys;
         plot_worker := plot_worker sys;
         calculations_worker := calculations_worker sys;
         show_plot_button := show_plot_button sys |} in
  fold_left deliver
    (skipn (length (SetUpWindow.emitted before)) (SetUpWindow.emitted after))
    sys1.

(** The data worker emits [calc_lift_splines_sig]: one calculation
    cycle. *)
Definition calculation_cycle (sys : system) : system :=
  let before := calculations_worker sys in
  let after :=
    fst (Calculations.calculateLiftAndSplines Akima1DInterpolator before) in
  fold_left deliver_result
    (skipn (length (Calculations.sent before)) (Calculations.sent after))
    {| setup_window := setup_window sys;
       data_worker := data_worker sys;
       plot_worker := plot_worker sys;
       calculations_worker := after;
       show_plot_button := show_plot_button sys |}.

End WithRuntime.

(** The main script: the wing data read by [readProfileData] are added to
    [DEFAULTS]. *)
Definition add_wing_data (p : ProfileData.profile) (d : Defaults.t)
  : Defaults.t :=
  {| Defaults.PRESSURE_ARRAY := Defaults.PRESSURE_ARRAY d;
     Defaults.ANGLE := Defaults.ANGLE d;
     Defaults.VELOCITY := Defaults.VELOCITY d;
     Defaults.WIDTH := Defaults.WIDTH d;
     Defaults.CHORD_LENGTH := Defaults.CHORD_LENGTH d;
     Defaults.LIFT := Defaults.LIFT d;
     Defaults.PROFILE_NAME := ProfileData.name p;
     Defaults.X_WING_TOP := ProfileData.x_top p;
     Defaults.X_WING_BOTTOM := ProfileData.x_bottom p;
     Defaults.Y_WING_TOP := ProfileData.y_top p;
     Defaults.Y_WING_BOTTOM := ProfileData.y_bottom p;
     Defaults.NUM_INTERPOL_POINTS := Defaults.NUM_INTERPOL_POINTS d;
     Defaults.NUM_OF_MEASSUREMENTS := Defaults.NUM_OF_MEASSUREMENTS d;
     Defaults.HEADER := Defaults.HEADER d;
     Defaults.DEMO_MODE := Defaults.DEMO_MODE d;
     Defaults.DEMO_PRESSURE := Defaults.DEMO_PRESSURE d;
     Defaults.DEMO_DENSITY := Defaults.DEMO_DENSITY d;
     Defaults.DEMO_PRESSURE_FACTOR := Defaults.DEMO_PRESSURE_FACTOR d;
     Defaults.DEMO_DENSITY_FACTOR := Defaults.DEMO_DENSITY_FACTOR d |}.

(** [if data_error_status: (a warning) else: main_window =
    MainWindow(DEFAULTS)]: the calculation worker and the data worker of
    the main window, when the script creates one.  The status [0] is
    false, a [DataError] is true. *)
Definition start (p : ProfileData.profile) (d : Defaults.t)
  : option (Calculations.state * Data.attrs) :=
  match ProfileData.error p with
  | Some _ => None
  | None =>
      Some (Calculations.init (add_wing_data p d),
            Data.init (add_wing_data p d))
  end.

End Main.

(** * Facts *)

(** ** Float comparisons *)

Lemma Rltb_true (x y : R) : x < y -> Rltb x y = true.
Proof. intros H. unfold Rltb. destruct (Rlt_dec x y); [reflexivity | contradiction]. Qed.

Lemma Rltb_false (x y : R) : y <= x -> Rltb x y = false.
Proof. intros H. unfold Rltb. destruct (Rlt_dec x y); [lra | reflexivity]. Qed.

Lemma Rleb_true (x y : R) : x <= y -> Rleb x y = true.
Proof. intros H. unfold Rleb. destruct (Rle_dec x y); [reflexivity | contradiction]. Qed.

Lemma Rleb_false (x y : R) : y < x -> Rleb x y = false.
Proof. intros H. unfold Rleb. destruct (Rle_dec x y); [lra | reflexivity]. Qed.

Lemma Reqb_true (x y : R) : x = y -> Reqb x y = true.
Proof. intros H. unfold Reqb. destruct (Req_dec_T x y); [reflexivity | contradiction]. Qed.

Lemma Reqb_false (x y : R) : x <> y -> Reqb x y = false.
Proof. intros H. unfold Reqb. destruct (Req_dec_T x y); [contradiction | reflexivity]. Qed.

Lemma Rltb_spec (x y : R) : Rltb x y = true <-> x < y.
Proof.
  unfold Rltb. destruct (Rlt_dec x y); split; intros; auto; discriminate.
Qed.

Lemma Reqb_spec (x y : R) : Reqb x y = true <-> x = y.
Proof.
  unfold Reqb. destruct (Req_dec_T x y); split; intros; auto; discriminate.
Qed.

(** Decides the float comparisons of a goal whose operands are literals. *)
Ltac float_cmp :=
  repeat first
    [ rewrite Rltb_true by lra
    | rewrite Rltb_false by lra
    | rewrite Rleb_true by lra
    | rewrite Rleb_false by lra
    | rewrite Reqb_true by lra
    | rewrite Reqb_false by lra ].

(** Evaluates numpy code on literal arrays. *)
Ltac np_step :=
  cbv [Calculations.knots Calculations.sort_surface
         Calculations.boundary_extension Calculations.extend_trailing_top
         Calculations.extend_trailing_bottom Calculations.extend_leading
         Calculations.mask_top Calculations.mask_bottom
         Calculations.pressure_array Calculations.x_coordinates_top
         Calculations.x_coordinates_bottom
         Np.lexsort Np.key_le Np.insert_index Np.take Np.getitem
         Np.getitem_neg Np.bool_index Np.append_back Np.append_front
         attr bind fold_right seq length nth nth_error app fst snd
         Nat.eqb Nat.leb Nat.sub orb andb];
  float_cmp.

Ltac np_eval := repeat (progress np_step).

(** ** numpy indexing *)

Lemma getitem_neg_last {A : Type} (l : list A) (a : A) :
  Np.getitem_neg (l ++ [a]) 1 = Ok a.
Proof.
  unfold Np.getitem_neg, Np.getitem.
  rewrite length_app. cbn [length].
  destruct (Nat.leb_spec 1 (length l + 1)) as [_ | Hlt]; [| lia].
  replace (length l + 1 - 1)%nat with (length l) by lia.
  rewrite nth_error_app2 by lia.
  rewrite Nat.sub_diag. reflexivity.
Qed.

Lemma getitem_neg_last_but_one {A : Type} (l : list A) (b a : A) :
  Np.getitem_neg (l ++ [b; a]) 2 = Ok b.
Proof.
  unfold Np.getitem_neg, Np.getitem.
  rewrite length_app. cbn [length].
  destruct (Nat.leb_spec 2 (length l + 2)) as [_ | Hlt]; [| lia].
  replace (length l + 2 - 2)%nat with (length l) by lia.
  rewrite nth_error_app2 by lia.
  rewrite Nat.sub_diag. reflexivity.
Qed.

Lemma getitem_neg_last2 {A : Type} (l : list A) (b a : A) :
  Np.getitem_neg (l ++ [b; a]) 1 = Ok a.
Proof.
  replace (l ++ [b; a]) with ((l ++ [b]) ++ [a])
    by (rewrite <- app_assoc; reflexivity).
  apply getitem_neg_last.
Qed.

Module CalculationsFacts.
Import Calculations.

(** *** Boundary extension *)

(** On the top surface the anchor appended at coordinate 1 repeats the last
    pressure: [p2 + (p1 - p2)] is [p1]. *)
Lemma extend_trailing_top_appends (xs ps : list R) (x_last p2 p1 : R) :
  x_last < 0.99 ->
  extend_trailing_top (xs ++ [x_last]) (ps ++ [p2; p1])
  = Ok ((xs ++ [x_last]) ++ [1], (ps ++ [p2; p1]) ++ [p1]).
Proof.
  intros Hlt. unfold extend_trailing_top.
  rewrite getitem_neg_last. simpl.
  rewrite Rltb_true by exact Hlt.
  rewrite getitem_neg_last_but_one. simpl.
  rewrite getitem_neg_last2. simpl.
  unfold Np.append_back. repeat f_equal. lra.
Qed.

(** On the bottom surface the anchor is the scaled difference, with the
    coordinate gap read from [self.x_coordinates_bottom]. *)
Lemma extend_trailing_bottom_appends
    (cs xs ps : list R) (c2 c1 x_last p2 p1 : R) :
  x_last < 0.99 ->
  extend_trailing_bottom (cs ++ [c2; c1]) (xs ++ [x_last]) (ps ++ [p2; p1])
  = Ok ((xs ++ [x_last]) ++ [1],
        (ps ++ [p2; p1]) ++ [p2 + (p1 - p2) / (c1 - c2) * (1 - c2)]).
Proof.
  intros Hlt. unfold extend_trailing_bottom.
  rewrite getitem_neg_last. simpl.
  rewrite Rltb_true by exact Hlt.
  rewrite getitem_neg_last_but_one. simpl.
  rewrite getitem_neg_last2. simpl.
  rewrite getitem_neg_last2. simpl.
  rewrite getitem_neg_last_but_one. simpl.
  reflexivity.
Qed.

Lemma extend_trailing_top_keeps (xs ps : list R) (x_last : R) :
  0.99 <= x_last ->
  extend_trailing_top (xs ++ [x_last]) ps = Ok (xs ++ [x_last], ps).
Proof.
  intros Hge. unfold extend_trailing_top.
  rewrite getitem_neg_last. simpl.
  rewrite Rltb_false by exact Hge. reflexivity.
Qed.

(** Both surfaces prepend the anchor (0, 0) when the first coordinate
    exceeds 1e-5. *)
Lemma extend_leading_prepends (x0 : R) (xs ps : list R) :
  0.00001 < x0 ->
  extend_leading (x0 :: xs) ps = Ok (0 :: x0 :: xs, 0 :: ps).
Proof.
  intros Hgt. unfold extend_leading. simpl.
  rewrite Rltb_true by exact Hgt. reflexivity.
Qed.

Lemma extend_leading_keeps (x0 : R) (xs ps : list R) :
  x0 <= 0.00001 ->
  extend_leading (x0 :: xs) ps = Ok (x0 :: xs, ps).
Proof.
  intros Hle. unfold extend_leading. simpl.
  rewrite Rltb_false by exact Hle. reflexivity.
Qed.

(** A worker state with three active taps on each surface, at coordinates
    0.1, 0.3, 0.6 and with pressures 5, 3, 1 on both surfaces. *)
Definition two_surface_state : state :=
  {| pressure_array := [5; 3; 1; 5; 3; 1; 0; 0; 0; 0; 0; 0; 0; 0; 0; 0];
     angle := 0; width := 1; chord_length := 1;
     x_wing_top := [0; 1]; x_wing_bottom := [0; 1];
     y_wing_top := [0; 0]; y_wing_bottom := [0; 0];
     number_of_interpolated_points := 2;
     spline_top := [0; 0]; spline_bottom := [0; 0];
     mask_top :=
       Some [true; true; true; false; false; false; false; false;
             false; false; false; false; false; false; false; false];
     mask_bottom :=
       Some [false; false; false; true; true; true; false; false;
             false; false; false; false; false; false; false; false];
     x_coordinates :=
       Some [0.1; 0.3; 0.6; 0.1; 0.3; 0.6; 0; 0; 0; 0; 0; 0; 0; 0; 0; 0];
     x_coordinates_top := Some [0.1; 0.3; 0.6];
     x_coordinates_bottom := Some [0.1; 0.3; 0.6];
     lift := None; sent := []; logged := [] |}.

(** C1: with coordinates [0.1; 0.3; 0.6] and pressures [5; 3; 1] on both
    surfaces, the boundary extension prepends (0, 0) on both, appends the
    extrapolated pressure -5/3 at coordinate 1 on the bottom surface, but
    appends the last pressure 1 on the top surface: the top anchor is not
    on the line through (0.3, 3) and (0.6, 1), and the two surfaces do not
    use the same formula. *)
Theorem boundary_extension_top_differs_from_bottom :
  knots two_surface_state
  = Ok (([0; 0.1; 0.3; 0.6; 1], [0; 5; 3; 1; 1]),
        ([0; 0.1; 0.3; 0.6; 1], [0; 5; 3; 1; -5 / 3]))
  /\ 1 <> 3 + (1 - 3) / (0.6 - 0.3) * (1 - 0.3).
Proof.
  split; [| lra].
  unfold two_surface_state.
  np_eval.
  replace (3 + (1 - 3)) with 1 by lra.
  replace (3 + (1 - 3) / (0.6 - 0.3) * (1 - 0.3)) with (-5 / 3) by lra.
  reflexivity.
Qed.


Example sort_example :
  sort_surface [0.6; 0.1; 0.3] [1; 5; 3] = Ok ([0.1; 0.3; 0.6], [5; 3; 1]).
Proof.
  np_eval. reflexivity.
Qed.

(** *** Panel integration *)

Lemma ew2_same_length (f : R -> R -> R) (a b : list R) :
  length a = length b -> Np.ew2 f a b = Ok (Np.zip_with f a b).
Proof.
  intros H. unfold Np.ew2. rewrite H, Nat.eqb_refl. reflexivity.
Qed.

Lemma length_zip_with (f : R -> R -> R) (a b : list R) :
  length a = length b -> length (Np.zip_with f a b) = length a.
Proof.
  revert b. induction a as [| u a IH]; intros [| v b] H; simpl in *;
    try reflexivity; try discriminate.
  f_equal. apply IH. lia.
Qed.

Lemma length_diff (a : list R) : length (Np.diff a) = (length a - 1)%nat.
Proof.
  induction a as [| u [| v a] IH]; try reflexivity.
  change (Np.diff (u :: v :: a)) with ((v - u) :: Np.diff (v :: a)).
  cbn [length] in *. lia.
Qed.

Lemma length_scale_r (a : list R) (c : R) :
  length (Np.scale_r a c) = length a.
Proof. apply length_map. Qed.

(** The summands of one surface, as the code computes them from the arrays
    [x_wing_interpolation], [y_wing] and [interpolate_pressures]; [norm] is
    [fun a => -1 * cos a] on the top surface and [cos] on the bottom. *)
Definition code_terms (norm : R -> R) (w c : R) (x y p : list R) : list R :=
  let delta_x := Np.diff (Np.scale_r x c) in
  let delta_y := Np.diff y in
  let alpha := map atan (Np.zip_with Rdiv delta_y delta_x) in
  let area := Np.scale w (Np.zip_with Rdiv delta_x (map cos alpha)) in
  Np.zip_with Rmult
    (Np.zip_with Rmult (Np.scale (-1) (Np.from1 p)) (map norm alpha)) area.

Lemma spec_surface_cons (sgn w c x0 y0 p0 : R) (x y p : list R) :
  x <> [] ->
  spec_surface sgn w c (x0 :: x) (y0 :: y) (p0 :: p)
  = spec_panel sgn w c (x0 :: x) (y0 :: y) (p0 :: p) 0
    + spec_surface sgn w c x y p.
Proof.
  intros Hx. unfold spec_surface.
  destruct x as [| x1 x]; [contradiction |].
  cbn [length].
  replace (S (S (length x)) - 1)%nat with (S (length x)) by lia.
  replace (S (length x) - 1)%nat with (length x) by lia.
  change (seq 0 (S (length x))) with (0%nat :: seq 1 (length x)).
  cbn [map Np.sum fold_right]. f_equal.
  rewrite <- seq_shift, map_map. reflexivity.
Qed.

Lemma code_terms_sum (norm : R -> R) (sgn w c : R) :
  (forall a, norm a = sgn * cos a) ->
  forall x y p : list R,
    length y = length x -> length p = length x ->
    Np.sum (code_terms norm w c x y p) = - spec_surface sgn w c x y p.
Proof.
  intros Hnorm x.
  induction x as [| x0 x IH]; intros [| y0 y] [| p0 p] Hy Hp;
    try discriminate.
  - unfold code_terms, spec_surface. simpl. lra.
  - destruct x as [| x1 x].
    + destruct y; [| discriminate]. destruct p; [| discriminate].
      unfold code_terms, spec_surface. simpl. lra.
    + destruct y as [| y1 y]; [discriminate |].
      destruct p as [| p1 p]; [discriminate |].
      rewrite spec_surface_cons by discriminate.
      specialize (IH (y1 :: y) (p1 :: p)).
      rewrite Ropp_plus_distr, <- IH by (simpl in *; lia).
      unfold code_terms, spec_panel, Np.from1, Np.scale, Np.scale_r.
      cbn [map Np.diff Np.zip_with tl nth Np.sum fold_right].
      replace (x1 * c - x0 * c) with ((x1 - x0) * c) by ring.
      f_equal. rewrite Hnorm. unfold Rdiv. ring.
Qed.

Lemma panels_same_length (w c : R) (x y : list R) :
  length y = length x ->
  panels w c x y
  = Ok (map atan (Np.zip_with Rdiv (Np.diff y) (Np.diff (Np.scale_r x c))),
        Np.scale w
          (Np.zip_with Rdiv (Np.diff (Np.scale_r x c))
             (map cos
                (map atan
                   (Np.zip_with Rdiv (Np.diff y)
                      (Np.diff (Np.scale_r x c))))))).
Proof.
  intros H. unfold panels.
  rewrite ew2_same_length
    by (rewrite !length_diff, length_scale_r; congruence).
  cbn [bind].
  rewrite ew2_same_length.
  - reflexivity.
  - rewrite !length_map, length_zip_with;
      rewrite !length_diff, ?length_scale_r; congruence.
Qed.

Lemma surface_lift_same_length (norm : R -> R) (w c : R) (x y p : list R) :
  length y = length x -> length p = length x ->
  let alpha :=
    map atan (Np.zip_with Rdiv (Np.diff y) (Np.diff (Np.scale_r x c))) in
  let area :=
    Np.scale w (Np.zip_with Rdiv (Np.diff (Np.scale_r x c)) (map cos alpha)) in
  surface_lift p (map norm alpha) area
  = Ok (Np.sum (code_terms norm w c x y p)).
Proof.
  intros Hy Hp alpha area.
  assert (Hdx : length (Np.diff (Np.scale_r x c)) = (length x - 1)%nat)
    by (rewrite length_diff, length_scale_r; reflexivity).
  assert (Hdy : length (Np.diff y) = (length x - 1)%nat)
    by (rewrite length_diff; congruence).
  assert (Halpha : length alpha = (length x - 1)%nat).
  { unfold alpha. rewrite length_map, length_zip_with; congruence. }
  assert (Hp1 : length (Np.scale (-1) (Np.from1 p)) = (length x - 1)%nat).
  { unfold Np.scale, Np.from1. rewrite length_map.
    destruct p; simpl in *; lia. }
  assert (Harea : length area = (length x - 1)%nat).
  { unfold area, Np.scale.
    rewrite length_map, length_zip_with; rewrite ?length_map; congruence. }
  assert (Hnorm : length (map norm alpha) = (length x - 1)%nat)
    by (rewrite length_map; exact Halpha).
  unfold surface_lift.
  rewrite ew2_same_length by congruence.
  cbn [bind].
  rewrite ew2_same_length.
  - reflexivity.
  - rewrite (length_zip_with Rmult _ (map norm alpha)) by congruence.
    congruence.
Qed.

(** On arrays sampled on one grid per surface [calculate_lift] does not
    raise: it returns the two sums of the summands the code builds, scaled
    by the cosine of the angle of attack. *)
Lemma calculate_lift_returns (w c angle : R) (xt yt xb yb pt pb : list R) :
  length yt = length xt -> length pt = length xt ->
  length yb = length xb -> length pb = length xb ->
  calculate_lift w c angle xt yt xb yb pt pb
  = Ok ((Np.sum (code_terms (fun a => -1 * cos a) w c xt yt pt)
         + Np.sum (code_terms cos w c xb yb pb))
        * cos (Np.deg2rad angle)).
Proof.
  intros Hyt Hpt Hyb Hpb. unfold calculate_lift.
  rewrite (panels_same_length w c xt yt Hyt). cbn [bind].
  rewrite (panels_same_length w c xb yb Hyb). cbn [bind].
  unfold Np.scale at 1. rewrite map_map.
  rewrite (surface_lift_same_length (fun a => -1 * cos a) w c xt yt pt Hyt Hpt).
  cbn [bind].
  rewrite (surface_lift_same_length cos w c xb yb pb Hyb Hpb).
  reflexivity.
Qed.

(** C2, as amended: on arrays sampled on one grid per surface, the lift the
    code computes is the panel sum of area times normal component times
    pressure, over both surfaces and scaled by the cosine of the angle of
    attack, with the opposite sign: the code multiplies every summand by
    -1. *)
Theorem calculate_lift_negates_panel_formula
    (w c angle : R) (xt yt xb yb pt pb : list R) :
  length yt = length xt -> length pt = length xt ->
  length yb = length xb -> length pb = length xb ->
  calculate_lift w c angle xt yt xb yb pt pb
  = Ok (- spec_lift w c angle xt yt xb yb pt pb).
Proof.
  intros Hyt Hpt Hyb Hpb.
  rewrite calculate_lift_returns by assumption.
  rewrite (code_terms_sum (fun a => -1 * cos a) (-1) w c) by auto.
  rewrite (code_terms_sum cos 1 w c) by (auto; intros; ring).
  unfold spec_lift. f_equal. ring.
Qed.

Lemma spec_lift_flat_panel :
  spec_lift 1 1 0 [0; 1] [0; 0] [0; 1] [0; 0] [0; 1] [0; 0] = -1.
Proof.
  unfold spec_lift, spec_surface, spec_panel, Np.deg2rad. simpl.
  replace ((0 - 0) / ((1 - 0) * 1)) with 0 by lra.
  replace (0 * (PI / 180)) with 0 by lra.
  rewrite atan_0, cos_0. lra.
Qed.

Lemma calculate_lift_flat_panel :
  calculate_lift 1 1 0 [0; 1] [0; 0] [0; 1] [0; 0] [0; 1] [0; 0] = Ok 1.
Proof.
  rewrite calculate_lift_returns by reflexivity.
  unfold code_terms, Np.deg2rad, Np.scale, Np.scale_r, Np.from1. simpl.
  replace ((0 - 0) / (1 * 1 - 0 * 1)) with 0 by lra.
  replace (0 * (PI / 180)) with 0 by lra.
  rewrite atan_0, cos_0. f_equal. lra.
Qed.

Lemma calculate_lift_witness :
  length [0; 0] = length [0; 1]
  /\ calculate_lift 1 1 0 [0; 1] [0; 0] [0; 1] [0; 0] [0; 1] [0; 0]
     = Ok (- spec_lift 1 1 0 [0; 1] [0; 0] [0; 1] [0; 0] [0; 1] [0; 0]).
Proof.
  split; [reflexivity |].
  apply calculate_lift_negates_panel_formula; reflexivity.
Defined.

(** C2, as stated, fails: one flat panel of unit area on each surface,
    pressure 1 on the top and 0 on the bottom, angle of attack 0: the code
    returns 1, the formula of the claim gives -1. *)
Lemma calculate_lift_is_not_panel_formula :
  calculate_lift 1 1 0 [0; 1] [0; 0] [0; 1] [0; 0] [0; 1] [0; 0]
  <> Ok (spec_lift 1 1 0 [0; 1] [0; 0] [0; 1] [0; 0] [0; 1] [0; 0]).
Proof.
  rewrite calculate_lift_flat_panel, spec_lift_flat_panel.
  intros H. injection H as H. lra.
Qed.

End CalculationsFacts.

(** ** The device channel *)

Module SerialDevicesFacts.
Import SerialDevices.

Section WithParser.

Variable decode : string -> res string.
Variable fromstring : string -> list R.

(** The line the instrument sends in answer to the next request. *)
Definition next_line (d : Device) : string :=
  match Serial.incoming (ser_dev d) with
  | [] => EmptyString
  | line :: _ => line
  end.

(** [n] calls of [getNewData] in a row, with their outcomes. *)
Fixpoint poll (n : nat) (d : Device)
  : list (res (option (list R))) * Device :=
  match n with
  | O => ([], d)
  | S n' =>
      let '(d1, r) := getNewData decode fromstring d in
      let '(rs, d2) := poll n' d1 in
      (r :: rs, d2)
  end.

Lemma getNewData_open (d : Device) (text : string) :
  connection_established d = true ->
  Serial.is_open (ser_dev d) = true ->
  decode (next_line d) = Ok text ->
  getNewData decode fromstring d
  = if (length (fromstring text) =? expected_shape d)%nat then
      (set_ser_dev
         {| Serial.is_open := true;
            Serial.incoming := tl (Serial.incoming (ser_dev d)) |} d,
       Ok (Some (fromstring text)))
    else
      (set_ser_dev
         {| Serial.is_open := false;
            Serial.incoming := tl (Serial.incoming (ser_dev d)) |} d,
       Raise (Exception_ "ERROR in method getNewData.")).
Proof.
  intros Hc Ho Hd.
  destruct d as [c name shape [o inc]]. simpl in *. subst c o.
  unfold getNewData, st_try, st_bind, st_get, on_port, st_zoom, st_lift,
    Serial.reset_input_buffer, Serial.write, Serial.readline,
    Serial.guard_open, st_bind. simpl.
  unfold next_line in Hd. simpl in Hd.
  destruct inc as [| line rest]; simpl; rewrite Hd; simpl;
    destruct (length (fromstring text) =? shape)%nat; reflexivity.
Qed.

Lemma getNewData_closed (d : Device) :
  connection_established d = true ->
  Serial.is_open (ser_dev d) = false ->
  getNewData decode fromstring d
  = (d, Raise (Exception_ "ERROR in method getNewData.")).
Proof.
  intros Hc Ho.
  destruct d as [c name shape [o inc]]. simpl in *. subst c o.
  reflexivity.
Qed.

(** Whatever goes wrong in [getNewData], the bare [except:] turns it into
    one and the same exception. *)
Lemma getNewData_raises_one_exception (d : Device) (e : exn) :
  snd (getNewData decode fromstring d) = Raise e ->
  e = Exception_ "ERROR in method getNewData.".
Proof.
  unfold getNewData, st_try.
  match goal with
  | |- context [match ?b d with _ => _ end] =>
      destruct (b d) as [d1 [a | e0]]
  end; cbn [snd].
  - discriminate.
  - unfold st_raise. cbn [snd]. intros H. injection H as <-. reflexivity.
Qed.

(** C4, as amended: on a connected device with an open port, a response
    whose parsed token count differs from the declared arity makes
    [getNewData] raise, and what it raises is not an error of its own
    kind: the exception with the shape message is caught by the bare
    [except:] of the method and replaced by
    [Exception("ERROR in method getNewData.")], the exception of every
    failure of the method.  A response whose count equals the arity is
    returned as parsed, in full and with exactly that length: no array is
    cut or padded to fit. *)
Theorem getNewData_checks_arity (d : Device) (text : string) :
  connection_established d = true ->
  Serial.is_open (ser_dev d) = true ->
  decode (next_line d) = Ok text ->
  (length (fromstring text) <> expected_shape d ->
   snd (getNewData decode fromstring d)
   = Raise (Exception_ "ERROR in method getNewData."))
  /\ (length (fromstring text) = expected_shape d ->
      snd (getNewData decode fromstring d) = Ok (Some (fromstring text)))
  /\ (forall a,
        snd (getNewData decode fromstring d) = Ok (Some a) ->
        a = fromstring text /\ length a = expected_shape d)
  /\ (forall (d0 : Device) (e : exn),
        snd (getNewData decode fromstring d0) = Raise e ->
        e = Exception_ "ERROR in method getNewData.").
Proof.
  intros Hc Ho Hd.
  split; [| split; [| split]].
  - intros Hne. rewrite (getNewData_open d text Hc Ho Hd).
    destruct (Nat.eqb_spec (length (fromstring text)) (expected_shape d))
      as [He | _]; [contradiction | reflexivity].
  - intros He. rewrite (getNewData_open d text Hc Ho Hd).
    destruct (Nat.eqb_spec (length (fromstring text)) (expected_shape d))
      as [_ | Hne]; [reflexivity | contradiction].
  - intros a. rewrite (getNewData_open d text Hc Ho Hd).
    destruct (Nat.eqb_spec (length (fromstring text)) (expected_shape d))
      as [He | Hne]; cbn [snd].
    + intros H. injection H as <-. split; [reflexivity | exact He].
    + discriminate.
  - exact getNewData_raises_one_exception.
Qed.

Lemma poll_closed (n : nat) (d : Device) :
  connection_established d = true ->
  Serial.is_open (ser_dev d) = false ->
  Forall raised (fst (poll n d)) /\ snd (poll n d) = d.
Proof.
  intros Hc Ho. induction n as [| n [IHr IHd]]; simpl.
  - split; [constructor | reflexivity].
  - rewrite (getNewData_closed d Hc Ho).
    destruct (poll n d) as [rs d2]. simpl in *.
    split; [| exact IHd].
    constructor; [eexists; reflexivity | exact IHr].
Qed.

(** C10: a response that fails the arity check leaves the serial port
    closed when the error is raised, and every later query on the same
    device raises as well. *)
Theorem shape_mismatch_closes_port (d : Device) (text : string) :
  connection_established d = true ->
  Serial.is_open (ser_dev d) = true ->
  decode (next_line d) = Ok text ->
  length (fromstring text) <> expected_shape d ->
  let d' := fst (getNewData decode fromstring d) in
  raised (snd (getNewData decode fromstring d))
  /\ Serial.is_open (ser_dev d') = false
  /\ forall n, Forall raised (fst (poll n d')).
Proof.
  intros Hc Ho Hd Hne.
  rewrite (getNewData_open d text Hc Ho Hd).
  destruct (Nat.eqb_spec (length (fromstring text)) (expected_shape d))
    as [He | _]; [contradiction |].
  simpl. repeat split.
  - eexists. reflexivity.
  - intros n. apply poll_closed; [exact Hc | reflexivity].
Qed.

End WithParser.

(** *** A concrete parser, to run the channel on concrete lines

    Stands for [np.fromstring] on lines of unsigned decimal integers
    separated by tabs. *)

Fixpoint fields (sep : ascii) (s : string) : list string :=
  match s with
  | EmptyString => [EmptyString]
  | String c s' =>
      if Ascii.eqb c sep then EmptyString :: fields sep s'
      else match fields sep s' with
           | f :: fs => String c f :: fs
           | [] => [String c EmptyString]
           end
  end.

Fixpoint digits_value (acc : nat) (s : string) : nat :=
  match s with
  | EmptyString => acc
  | String c s' => digits_value (10 * acc + (nat_of_ascii c - 48)) s'
  end.

Definition unsigned_fromstring (text : string) : list R :=
  match text with
  | EmptyString => []
  | _ => map (fun f => INR (digits_value 0 f)) (fields (ascii_of_nat 9) text)
  end.

Definition tab : string := String (ascii_of_nat 9) EmptyString.

(** A pressure scanner of arity 16 whose next answer has three numbers. *)
Definition short_answer_device : Device :=
  {| connection_established := true;
     device_port := "/dev/ttyACM0";
     expected_shape := 16;
     ser_dev :=
       {| Serial.is_open := true;
          Serial.incoming := [("1" ++ tab ++ "2" ++ tab ++ "3")%string] |} |}.

(** An environment sensor of arity 4 whose next answer has four numbers. *)
Definition full_answer_device : Device :=
  {| connection_established := true;
     device_port := "/dev/ttyACM1";
     expected_shape := 4;
     ser_dev :=
       {| Serial.is_open := true;
          Serial.incoming :=
            [("21" ++ tab ++ "98" ++ tab ++ "40" ++ tab ++ "1")%string] |} |}.

Lemma getNewData_checks_arity_witness :
  snd (getNewData Ok unsigned_fromstring full_answer_device)
  = Ok (Some [21; 98; 40; 1]).
Proof.
  pose proof (getNewData_checks_arity Ok unsigned_fromstring
                full_answer_device (next_line full_answer_device)
                eq_refl eq_refl eq_refl) as [_ [H _]].
  rewrite (H eq_refl).
  unfold unsigned_fromstring. simpl.
  repeat f_equal; lra.
Defined.

(** C4, as stated, fails: a pressure scanner of arity 16 that answers
    with three numbers does not make the query raise the shape error; the
    query raises the exception of every failure of the method. *)
Lemma short_answer_raises_no_shape_error :
  length (unsigned_fromstring (next_line short_answer_device))
  <> expected_shape short_answer_device
  /\ snd (getNewData Ok unsigned_fromstring short_answer_device)
     = Raise (Exception_ "ERROR in method getNewData.")
  /\ snd (getNewData Ok unsigned_fromstring short_answer_device)
     <> Raise (Exception_ "Received data does not have expected shape.").
Proof.
  assert (Hrun :
    snd (getNewData Ok unsigned_fromstring short_answer_device)
    = Raise (Exception_ "ERROR in method getNewData."))
    by reflexivity.
  split; [simpl; discriminate |].
  split; [exact Hrun |].
  rewrite Hrun. discriminate.
Qed.

Lemma shape_mismatch_closes_port_witness :
  Serial.is_open
    (ser_dev (fst (getNewData Ok unsigned_fromstring short_answer_device)))
  = false.
Proof.
  refine (proj1 (proj2 (shape_mismatch_closes_port Ok unsigned_fromstring
                          short_answer_device (next_line short_answer_device)
                          eq_refl eq_refl eq_refl _))).
  simpl. discriminate.
Defined.

End SerialDevicesFacts.

(** ** Rounding to binary64 *)

Module Float64Facts.
Import Float64.

Lemma pow2_pos (e : Z) : 0 < pow2 e.
Proof. apply powerRZ_lt. lra. Qed.

Lemma pow2_add (a b : Z) : pow2 (a + b) = pow2 a * pow2 b.
Proof. apply powerRZ_add. lra. Qed.

Lemma pow2_opp (a : Z) : pow2 (- a) = / pow2 a.
Proof. apply powerRZ_neg'. Qed.

Lemma pow2_IZR (k : Z) : (0 <= k)%Z -> pow2 k = IZR (2 ^ k).
Proof.
  intros Hk. unfold pow2.
  destruct (Z_of_nat_complete k Hk) as [n ->].
  rewrite <- pow_powerRZ, <- pow_IZR. reflexivity.
Qed.

Lemma pow2_le (a b : Z) : (a <= b)%Z -> pow2 a <= pow2 b.
Proof.
  intros H. replace b with (a + (b - a))%Z by lia.
  rewrite pow2_add.
  assert (1 <= pow2 (b - a)).
  { rewrite pow2_IZR by lia. apply IZR_le.
    assert (0 < 2 ^ (b - a))%Z by (apply Z.pow_pos_nonneg; lia). lia. }
  pose proof (pow2_pos a). nra.
Qed.

Lemma find_first {A : Type} (P : A -> bool) (l1 l2 : list A) (a : A) :
  (forall b, In b l1 -> P b = false) -> P a = true ->
  find P (l1 ++ a :: l2) = Some a.
Proof.
  intros H1 Ha. induction l1 as [| b l1 IH]; simpl.
  - rewrite Ha. reflexivity.
  - rewrite (H1 b (or_introl eq_refl)). apply IH.
    intros c Hc. apply H1. right. exact Hc.
Qed.

Lemma exponents_split (e : Z) :
  (-1074 <= e <= 971)%Z ->
  exists l1 l2,
    exponents = l1 ++ e :: l2 /\ forall b, In b l1 -> (b < e)%Z.
Proof.
  intros He. set (k := Z.to_nat (e + 1074)).
  exists (map (fun k => (Z.of_nat k - 1074)%Z) (seq 0 k)),
         (map (fun k => (Z.of_nat k - 1074)%Z) (seq (S k) (2045 - k))).
  split.
  - unfold exponents.
    replace 2046%nat with (k + S (2045 - k))%nat by (unfold k; lia).
    rewrite seq_app, map_app. cbn [seq map Nat.add]. f_equal.
    replace (0 + k)%nat with k by lia.
    f_equal. unfold k. lia.
  - intros b Hb. apply in_map_iff in Hb. destruct Hb as [j [<- Hj]].
    apply in_seq in Hj. unfold k in Hj. lia.
Qed.

(** The last place of [x] has exponent [e] when [x] lies in the binade
    of [e], or below it for the least exponent. *)
Lemma ulp_exponent_spec (x : R) (e : Z) :
  (-1074 <= e <= 971)%Z ->
  (e = (-1074)%Z \/ pow2 (e + 52) <= Rabs x) ->
  Rabs x < pow2 (e + 53) ->
  ulp_exponent x = e.
Proof.
  intros He Hlow Hhigh. unfold ulp_exponent.
  destruct (exponents_split e He) as [l1 [l2 [Hsplit Hl1]]].
  rewrite Hsplit, (find_first _ l1 l2 e); [reflexivity | |].
  - intros b Hb. apply Rltb_false.
    destruct Hlow as [-> | Hlow].
    + exfalso. specialize (Hl1 b Hb).
      assert (Hin : In b exponents)
        by (rewrite Hsplit; apply in_or_app; left; exact Hb).
      unfold exponents in Hin. apply in_map_iff in Hin.
      destruct Hin as [j [<- _]]. lia.
    + pose proof (pow2_le (b + 53) (e + 52) ltac:(specialize (Hl1 b Hb); lia)).
      lra.
  - apply Rltb_true. exact Hhigh.
Qed.

Lemma nearest_even_close (x : R) (m : Z) :
  Rabs (x - IZR m) < 1 / 2 -> nearest_even x = m.
Proof.
  intros H. apply Rabs_def2 in H. destruct H as [Hhi Hlo].
  unfold nearest_even.
  destruct (Rle_lt_dec (IZR m) x) as [Hle | Hlt].
  - assert (Hf : Int_part x = m)
      by (symmetry; apply Int_part_spec; lra).
    rewrite Hf. rewrite Rltb_true by lra. reflexivity.
  - assert (Hf : Int_part x = (m - 1)%Z).
    { symmetry. apply Int_part_spec. rewrite minus_IZR. lra. }
    rewrite Hf, minus_IZR.
    rewrite Rltb_false by lra. rewrite Rltb_true by lra. lia.
Qed.

Lemma nearest_even_tie (x : R) (m : Z) :
  x = IZR m + 1 / 2 ->
  nearest_even x = if Z.even m then m else (m + 1)%Z.
Proof.
  intros H. unfold nearest_even.
  assert (Hf : Int_part x = m) by (symmetry; apply Int_part_spec; lra).
  rewrite Hf. rewrite Rltb_false by lra. rewrite Rltb_false by lra.
  reflexivity.
Qed.

Lemma round_nearest (x : R) (m e : Z) :
  (-1074 <= e <= 971)%Z ->
  (e = (-1074)%Z \/ pow2 (e + 52) <= Rabs x) ->
  Rabs x < pow2 (e + 53) ->
  Rabs (x / pow2 e - IZR m) < 1 / 2 ->
  round x = IZR m * pow2 e.
Proof.
  intros He Hlow Hhigh Hm. unfold round.
  rewrite (ulp_exponent_spec x e He Hlow Hhigh).
  rewrite (nearest_even_close _ m Hm). reflexivity.
Qed.

Lemma round_tie (x : R) (m e : Z) :
  (-1074 <= e <= 971)%Z ->
  (e = (-1074)%Z \/ pow2 (e + 52) <= Rabs x) ->
  Rabs x < pow2 (e + 53) ->
  x / pow2 e = IZR m + 1 / 2 ->
  round x = IZR (if Z.even m then m else (m + 1)%Z) * pow2 e.
Proof.
  intros He Hlow Hhigh Hm. unfold round.
  rewrite (ulp_exponent_spec x e He Hlow Hhigh).
  rewrite (nearest_even_tie _ m Hm). reflexivity.
Qed.

(** The numbers of the grid are fixed by the rounding. *)
Lemma round_grid (m e : Z) :
  (-1074 <= e <= 971)%Z ->
  (e = (-1074)%Z \/ (2 ^ 52 <= Z.abs m)%Z) ->
  (Z.abs m < 2 ^ 53)%Z ->
  round (IZR m * pow2 e) = IZR m * pow2 e.
Proof.
  intros He Hlow Hhigh.
  pose proof (pow2_pos e) as Hpos.
  assert (Habs : Rabs (IZR m * pow2 e) = IZR (Z.abs m) * pow2 e).
  { rewrite Rabs_mult, (Rabs_pos_eq (pow2 e)) by lra.
    rewrite <- abs_IZR. reflexivity. }
  apply round_nearest; try assumption.
  - destruct Hlow as [-> | Hlow]; [left; reflexivity | right].
    rewrite Habs, pow2_add, (pow2_IZR 52) by lia.
    apply IZR_le in Hlow. rewrite Rmult_comm. nra.
  - rewrite Habs, pow2_add, (pow2_IZR 53) by lia.
    apply IZR_lt in Hhigh. rewrite (Rmult_comm (pow2 e)). nra.
  - replace (IZR m * pow2 e / pow2 e - IZR m) with 0 by (field; lra).
    rewrite Rabs_R0. lra.
Qed.

Lemma representable_grid (m e : Z) :
  (-1074 <= e <= 971)%Z ->
  (e = (-1074)%Z \/ (2 ^ 52 <= Z.abs m)%Z) ->
  (Z.abs m < 2 ^ 53)%Z ->
  representable (IZR m * pow2 e).
Proof.
  intros He Hlow Hhigh. split; [apply round_grid; assumption |].
  pose proof (pow2_pos e) as Hpos.
  rewrite Rabs_mult, (Rabs_pos_eq (pow2 e)), <- abs_IZR by lra.
  apply IZR_lt in Hhigh. rewrite <- pow2_IZR in Hhigh by lia.
  pose proof (pow2_le (53 + e) 1024 ltac:(lia)) as Hle.
  rewrite pow2_add in Hle. nra.
Qed.

Lemma round_0 : round 0 = 0.
Proof.
  replace 0 with (IZR 0 * pow2 (-1074)) by lra.
  apply round_grid; [lia | left; reflexivity | simpl; lia].
Qed.

(** The integers below [2^53] are binary64 numbers. *)
Lemma representable_IZR (z : Z) :
  (Z.abs z < 2 ^ 53)%Z -> representable (IZR z).
Proof.
  intros Hz.
  destruct (Z.eq_dec z 0) as [-> | Hnz].
  { split; [apply round_0 |]. rewrite Rabs_R0. apply pow2_pos. }
  set (l := Z.log2 (Z.abs z)).
  assert (Hl : (0 <= l <= 52)%Z).
  { split; [apply Z.log2_nonneg |].
    assert (l < 53)%Z; [| lia].
    apply Z.log2_lt_pow2; lia. }
  assert (Hspec : (2 ^ l <= Z.abs z < 2 ^ Z.succ l)%Z)
    by (apply Z.log2_spec; lia).
  replace (IZR z) with (IZR (z * 2 ^ (52 - l)) * pow2 (l - 52)).
  - apply representable_grid.
    + lia.
    + right. rewrite Z.abs_mul, (Z.abs_eq (2 ^ (52 - l)))
        by (apply Z.pow_nonneg; lia).
      replace 52%Z with (l + (52 - l))%Z at 1 by lia.
      rewrite Z.pow_add_r by lia.
      apply Z.mul_le_mono_nonneg_r; [apply Z.pow_nonneg; lia | lia].
    + rewrite Z.abs_mul, (Z.abs_eq (2 ^ (52 - l)))
        by (apply Z.pow_nonneg; lia).
      replace 53%Z with (Z.succ l + (52 - l))%Z by lia.
      rewrite Z.pow_add_r by lia.
      apply Z.mul_lt_mono_pos_r; [apply Z.pow_pos_nonneg; lia | lia].
  - rewrite mult_IZR, <- pow2_IZR by lia.
    rewrite Rmult_assoc, <- pow2_add.
    replace (52 - l + (l - 52))%Z with 0%Z by lia.
    unfold pow2. simpl. lra.
Qed.

Lemma pow2_neg_IZR (k : Z) : (0 <= k)%Z -> pow2 (- k) = / IZR (2 ^ k).
Proof. intros Hk. rewrite pow2_opp, pow2_IZR by exact Hk. reflexivity. Qed.

(** Powers of two with literal exponents, as rational constants. *)
Lemma pow2_0 : pow2 0 = 1.
Proof. reflexivity. Qed.

Ltac pow2_literals :=
  repeat match goal with
  | |- context [pow2 (?a + ?b)] =>
      let v := eval vm_compute in (a + b)%Z in
      change (pow2 (a + b)) with (pow2 v)
  end;
  rewrite ?pow2_0;
  repeat match goal with
  | |- context [pow2 (Zneg ?p)] =>
      let v := eval vm_compute in (2 ^ Zpos p)%Z in
      replace (pow2 (Zneg p)) with (/ IZR v)
        by (symmetry; apply (pow2_neg_IZR (Zpos p)); lia)
  | |- context [pow2 (Zpos ?p)] =>
      let v := eval vm_compute in (2 ^ Zpos p)%Z in
      replace (pow2 (Zpos p)) with (IZR v)
        by (symmetry; apply (pow2_IZR (Zpos p)); lia)
  end.

End Float64Facts.

(** ** Float64 sums of equal numbers

    When the multiples [x, 2x, ..., nx] are binary64 numbers, no addition
    of numpy's summation rounds: every partial sum is one of them. *)

Module SumFacts.
Import Float64 Float64Facts.

Section Multiples.

Variable x : R.
Variable n : nat.
Hypothesis multiples :
  forall k, (1 <= k <= n)%nat -> representable (INR k * x).

Lemma round_multiple (k : nat) : (k <= n)%nat -> round (INR k * x) = INR k * x.
Proof.
  intros Hk. destruct k as [| k].
  - simpl. rewrite Rmult_0_l. apply round_0.
  - apply multiples. lia.
Qed.

Lemma add_multiples (j k : nat) :
  (j + k <= n)%nat -> add (INR j * x) (INR k * x) = INR (j + k) * x.
Proof.
  intros H. unfold add.
  replace (INR j * x + INR k * x) with (INR (j + k) * x)
    by (rewrite plus_INR; ring).
  apply round_multiple. exact H.
Qed.

Lemma add_one_more (j : nat) :
  (j + 1 <= n)%nat -> add (INR j * x) x = INR (j + 1) * x.
Proof.
  intros H. rewrite <- (add_multiples j 1 H). simpl. rewrite Rmult_1_l.
  reflexivity.
Qed.

Lemma fold_add_repeat (m j : nat) :
  (j + m <= n)%nat ->
  fold_left add (repeat x m) (INR j * x) = INR (j + m) * x.
Proof.
  revert j. induction m as [| m IH]; intros j H; simpl.
  - rewrite Nat.add_0_r. reflexivity.
  - rewrite add_one_more by lia. rewrite IH by lia.
    f_equal. f_equal. lia.
Qed.

Lemma firstn_repeat (a : R) (k m : nat) :
  (k <= m)%nat -> firstn k (repeat a m) = repeat a k.
Proof.
  revert m. induction k as [| k IH]; intros [| m] H; simpl;
    try reflexivity; try lia.
  f_equal. apply IH. lia.
Qed.

Lemma skipn_repeat (a : R) (k m : nat) :
  skipn k (repeat a m) = repeat a (m - k).
Proof.
  revert m. induction k as [| k IH]; intros [| m]; simpl;
    try reflexivity.
  apply IH.
Qed.

Lemma zip_add_repeat (j : nat) :
  (j + 1 <= n)%nat ->
  Np.zip_with add (repeat (INR j * x) 8) (repeat x 8)
  = repeat (INR (j + 1) * x) 8.
Proof.
  intros H. simpl. rewrite add_one_more by exact H. reflexivity.
Qed.

Lemma unrolled_repeat (b j m : nat) :
  (8 * b <= m)%nat -> (j + b <= n)%nat ->
  Np.unrolled b (repeat (INR j * x) 8) (repeat x m)
  = (repeat (INR (j + b) * x) 8, repeat x (m - 8 * b)).
Proof.
  revert j m. induction b as [| b IH]; intros j m Hm Hj.
  - simpl. rewrite Nat.add_0_r, Nat.sub_0_r. reflexivity.
  - cbn [Np.unrolled].
    rewrite firstn_repeat by lia. rewrite skipn_repeat.
    rewrite zip_add_repeat by lia.
    rewrite IH by lia.
    f_equal; f_equal; [f_equal; f_equal |]; lia.
Qed.

Lemma sum8_repeat (j : nat) :
  (8 * j <= n)%nat -> Np.sum8 (repeat (INR j * x) 8) = INR (8 * j) * x.
Proof.
  intros H. unfold Np.sum8. cbn [repeat nth].
  rewrite (add_multiples j j) by lia.
  rewrite (add_multiples (j + j) (j + j)) by lia.
  rewrite (add_multiples (j + j + (j + j)) (j + j + (j + j))) by lia.
  f_equal. f_equal. lia.
Qed.

Lemma pairwise_sum_repeat (fuel m : nat) :
  (m <= fuel)%nat -> (m <= n)%nat ->
  Np.pairwise_sum fuel (repeat x m) = INR m * x.
Proof.
  revert m. induction fuel as [| fuel IH]; intros m Hf Hm.
  - assert (m = 0)%nat by lia. subst m. simpl. lra.
  - destruct fuel as [| f0] eqn:Ef.
    + (* at most one number *)
      cbn [Np.pairwise_sum]. rewrite repeat_length.
      assert (Hlt : (m <? 8)%nat = true) by (apply Nat.ltb_lt; lia).
      rewrite Hlt.
      replace 0 with (INR 0 * x) at 1 by (simpl; lra).
      rewrite fold_add_repeat by lia. reflexivity.
    + rewrite <- Ef in *. clear Ef f0.
      cbn [Np.pairwise_sum]. rewrite repeat_length.
      destruct (Nat.ltb_spec m 8) as [H8 | H8].
      * replace 0 with (INR 0 * x) at 1 by (simpl; lra).
        rewrite fold_add_repeat by lia. reflexivity.
      * destruct (Nat.leb_spec m 128) as [H128 | H128].
        -- rewrite firstn_repeat by lia. rewrite skipn_repeat.
           replace (repeat x 8) with (repeat (INR 1 * x) 8)
             by (simpl; rewrite Rmult_1_l; reflexivity).
           pose proof (Nat.Div0.mul_div_le m 8 ) as Hdiv.
           assert (Hd1 : (1 <= m / 8)%nat)
             by (apply Nat.div_le_lower_bound; lia).
           rewrite unrolled_repeat by lia.
           rewrite sum8_repeat by lia.
           rewrite fold_add_repeat by lia.
           f_equal. f_equal. lia.
        -- set (n2 := (m / 2 - (m / 2) mod 8)%nat).
           assert (Hhalf : (64 <= m / 2)%nat)
             by (apply Nat.div_le_lower_bound; lia).
           assert (Hhalf2 : (2 * (m / 2) <= m)%nat)
             by (apply Nat.Div0.mul_div_le; lia).
           assert (Hmod : ((m / 2) mod 8 < 8)%nat)
             by (apply Nat.mod_upper_bound; lia).
           assert (Hn2 : (1 <= n2 < m)%nat) by (unfold n2; lia).
           rewrite firstn_repeat by lia. rewrite skipn_repeat.
           rewrite !IH by lia.
           rewrite add_multiples by lia.
           f_equal. f_equal. lia.
Qed.

Lemma add_reduce_repeat (m : nat) :
  (m <= n)%nat -> Np.add_reduce (repeat x m) = INR m * x.
Proof.
  intros Hm. unfold Np.add_reduce. rewrite repeat_length.
  rewrite pairwise_sum_repeat by lia.
  unfold add. rewrite Rplus_0_l. apply round_multiple. exact Hm.
Qed.

End Multiples.

End SumFacts.

(** ** Batch averaging *)

Module DataFacts.
Import Data.

(** The float64 mean of [n] copies of [x] is [x] when the multiples of
    [x] up to [n x] are binary64 numbers. *)
Lemma mean_repeat (x : R) (n : nat) :
  (1 <= n)%nat ->
  (forall k, (1 <= k <= n)%nat -> Float64.representable (INR k * x)) ->
  mean n (repeat x n) = x.
Proof.
  intros Hn Hx. unfold mean.
  rewrite (SumFacts.add_reduce_repeat x n Hx n (le_n n)).
  unfold Float64.div.
  replace (INR n * x / INR n) with (INR 1 * x)
    by (simpl; field; apply not_0_INR; lia).
  rewrite (proj1 (Hx 1%nat ltac:(lia))). simpl. lra.
Qed.

Lemma list_as_map_nth (l : list R) :
  l = map (fun j => nth j l 0) (seq 0 (length l)).
Proof.
  induction l as [| x l IH]; [reflexivity |].
  cbn [length seq map nth]. f_equal.
  rewrite <- seq_shift, map_map. exact IH.
Qed.

Lemma mean_axis0_repeat (row : list R) (n m : nat) :
  (1 <= n)%nat -> length row = m ->
  (forall v k, In v row -> (1 <= k <= n)%nat ->
               Float64.representable (INR k * v)) ->
  mean_axis0 n m (repeat row n) = row.
Proof.
  intros Hn Hm Hrow. subst m. unfold mean_axis0.
  transitivity (map (fun j => nth j row 0) (seq 0 (length row)));
    [| symmetry; apply list_as_map_nth].
  apply map_ext_in. intros j Hj. apply in_seq in Hj.
  assert (Hx : forall k, (1 <= k <= n)%nat ->
                         Float64.representable (INR k * nth j row 0))
    by (intros k Hk; apply Hrow; [apply nth_In; lia | exact Hk]).
  pose proof (SumFacts.fold_add_repeat (nth j row 0) n Hx n 0
                ltac:(lia)) as Hfold.
  cbn [INR Nat.add] in Hfold. rewrite Rmult_0_l in Hfold.
  unfold Np.add_reduce_axis0. rewrite map_repeat, Hfold.
  unfold Float64.div.
  replace (INR n * nth j row 0 / INR n) with (INR 1 * nth j row 0)
    by (simpl; field; apply not_0_INR; lia).
  rewrite (proj1 (Hx 1%nat ltac:(lia))). simpl. lra.
Qed.

Lemma assign_row_length (n : nat) (v r : list R) :
  assign_row n v = Ok r -> length r = n.
Proof.
  unfold assign_row.
  destruct (Nat.eqb_spec (length v) n) as [He | Hne].
  - intros H. injection H as <-. exact He.
  - destruct v as [| u [| u' v]]; try discriminate.
    intros H. injection H as <-. apply repeat_length.
Qed.

Section WithParser.

Variable decode : string -> res string.
Variable fromstring : string -> list R.

(** Every row the measuring loop stores has 16, respectively 4, entries. *)
Lemma measure_rows (n : nat) :
  forall (w w1 : world) (ps ds : list (list R)) (ls : list R),
    measure decode fromstring n w = (w1, Ok (ps, ds, ls)) ->
    Forall (fun row => length row = 16%nat) ps
    /\ Forall (fun row => length row = 4%nat) ds.
Proof.
  induction n as [| n IH]; intros w w1 ps ds ls H.
  - injection H as _ <- <- _. split; constructor.
  - cbn [measure] in H. unfold st_bind at 1 in H.
    destruct (emit calc_lift_splines_sig w) as [wa [[] | e]];
      [| discriminate].
    unfold st_bind at 1 in H.
    destruct (readData decode fromstring wa) as [wb [[] | e]];
      [| discriminate].
    unfold st_bind at 1 in H.
    destruct (sendData wb) as [wc [[] | e]]; [| discriminate].
    unfold st_bind at 1 in H. unfold st_get at 1 in H.
    unfold st_bind at 1 in H. unfold st_lift at 1 in H.
    destruct (attr (pressure_array (self wc))) as [p | e]; [| discriminate].
    unfold st_bind at 1 in H. unfold st_lift at 1 in H.
    destruct (assign_row 16 p) as [row_p | e] eqn:Ep; [| discriminate].
    unfold st_bind at 1 in H. unfold st_lift at 1 in H.
    destruct (attr (density_array (self wc))) as [d | e]; [| discriminate].
    unfold st_bind at 1 in H. unfold st_lift at 1 in H.
    destruct (assign_row 4 d) as [row_d | e] eqn:Ed; [| discriminate].
    unfold st_bind at 1 in H.
    destruct (measure decode fromstring n wc) as [wd [[[ps' ds'] ls'] | e]]
      eqn:Em; [| discriminate].
    unfold st_ret in H. injection H as _ <- <- _.
    destruct (IH wc wd ps' ds' ls' Em) as [Hp Hd].
    split; constructor; eauto using assign_row_length.
Qed.

(** When the [n >= 1] readings of the measuring loop are identical
    (pressures [p], environment values [d], lift [l]) and the multiples of
    every value up to [n] times the value are binary64 numbers, the three
    means are [p], [d] and [l] themselves. *)
Lemma averaged_of_identical
    (w w1 : world) (n : nat) (p d : list R) (l : R) :
  number_of_measurements (self w) = n ->
  (1 <= n)%nat ->
  measure decode fromstring n w
  = (w1, Ok (repeat p n, repeat d n, repeat l n)) ->
  (forall v k, In v (l :: p ++ d) -> (1 <= k <= n)%nat ->
               Float64.representable (INR k * v)) ->
  averaged decode fromstring w = (w1, Ok (p, d, l)).
Proof.
  intros Hn Hpos Hm Hrep.
  destruct (measure_rows n w w1 _ _ _ Hm) as [Hp Hd].
  assert (Hlp : length p = 16%nat).
  { destruct n; [lia |]. inversion Hp. assumption. }
  assert (Hld : length d = 4%nat).
  { destruct n; [lia |]. inversion Hd. assumption. }
  unfold averaged, st_bind, st_get. rewrite Hn, Hm. unfold st_ret.
  rewrite (mean_axis0_repeat p n 16 Hpos Hlp)
    by (intros v k Hv; apply Hrep; right; apply in_or_app; left; exact Hv).
  rewrite (mean_axis0_repeat d n 4 Hpos Hld)
    by (intros v k Hv; apply Hrep; right; apply in_or_app; right; exact Hv).
  rewrite (mean_repeat l n Hpos)
    by (intros k; apply Hrep; left; reflexivity).
  reflexivity.
Qed.

End WithParser.

(** *** Concrete worlds *)

(** Two instruments that answer every request with the same line, read
    with the parser [unsigned_fromstring]. *)
Definition pressure_line : string :=
  ("101" ++ SerialDevicesFacts.tab ++ "102" ++ SerialDevicesFacts.tab ++
   "103" ++ SerialDevicesFacts.tab ++ "104" ++ SerialDevicesFacts.tab ++
   "105" ++ SerialDevicesFacts.tab ++ "106" ++ SerialDevicesFacts.tab ++
   "107" ++ SerialDevicesFacts.tab ++ "108" ++ SerialDevicesFacts.tab ++
   "109" ++ SerialDevicesFacts.tab ++ "110" ++ SerialDevicesFacts.tab ++
   "111" ++ SerialDevicesFacts.tab ++ "112" ++ SerialDevicesFacts.tab ++
   "113" ++ SerialDevicesFacts.tab ++ "114" ++ SerialDevicesFacts.tab ++
   "115" ++ SerialDevicesFacts.tab ++ "116")%string.

Definition density_line : string :=
  ("21" ++ SerialDevicesFacts.tab ++ "98" ++ SerialDevicesFacts.tab ++
   "40" ++ SerialDevicesFacts.tab ++ "1")%string.

Definition steady_device (shape : nat) (line : string) (answers : nat)
  : SerialDevices.Device :=
  {| SerialDevices.connection_established := true;
     SerialDevices.device_port := "/dev/ttyACM0";
     SerialDevices.expected_shape := shape;
     SerialDevices.ser_dev :=
       {| Serial.is_open := true;
          Serial.incoming := repeat line answers |} |}.

Definition csv_header : list string :=
  ["Time"; "Temperature"; "Ambient pressure"; "Humidity"; "Density";
   "Angle"; "Velocity"; "Lift"; "Width"; "Measurements"; "Total time";
   "p0"; "p1"; "p2"; "p3"; "p4"; "p5"; "p6"; "p7";
   "p8"; "p9"; "p10"; "p11"; "p12"; "p13"; "p14"; "p15";
   "x0"; "x1"; "x2"; "x3"; "x4"; "x5"; "x6"; "x7";
   "x8"; "x9"; "x10"; "x11"; "x12"; "x13"; "x14"; "x15";
   "Mask top"; "Mask bottom"]%string.

Definition taps_top : list bool :=
  [true; true; true; true; false; false; false; false;
   false; false; false; false; false; false; false; false].

Definition taps_bottom : list bool :=
  [false; false; false; false; true; true; true; true;
   false; false; false; false; false; false; false; false].

Definition tap_coordinates : list R :=
  [0.1; 0.3; 0.6; 0.9; 0.1; 0.3; 0.6; 0.9; 0; 0; 0; 0; 0; 0; 0; 0].

Definition bench_attrs (n : nat) : attrs :=
  {| stop_flag := true; path := Some "Data/run.csv"%string;
     number_of_measurements := n;
     angle := 5; velocity := 10; width := 0.4;
     header := csv_header; lift := 0.35;
     demo_mode := false;
     demo_pressure := repeat 0 16; demo_density := repeat 0 4;
     demo_pressure_factor := 1; demo_density_factor := 1;
     pressure_device := Some (steady_device 16 pressure_line n);
     density_device := Some (steady_device 4 density_line n);
     pressure_array := None; density_array := None;
     mask_top := Some taps_top; mask_bottom := Some taps_bottom;
     x_coordinates := Some tap_coordinates;
     x_coordinates_top := Some [0.1; 0.3; 0.6; 0.9];
     x_coordinates_bottom := Some [0.1; 0.3; 0.6; 0.9] |}.

(** A worker with the files [fs], in surroundings where files can be
    created in the directory [Data]. *)
Definition bench (n : nat) (fs : list (string * Pandas.csv)) : world :=
  {| self := bench_attrs n; files := fs; emitted := []; logged := [];
     now_time := "12:30:00"; total_time_measurements := 1.5;
     random_draws := fun _ => (repeat 0 16, repeat 0 4); draws := 0;
     creatable := String.prefix "Data/" |}.

Definition pressures_read : list R :=
  map INR [101; 102; 103; 104; 105; 106; 107; 108;
           109; 110; 111; 112; 113; 114; 115; 116]%nat.

Definition density_read : list R := map INR [21; 98; 40; 1]%nat.


(** ** Appending to the log *)

Section Appending.

Variable float_repr : R -> string.

Lemma lookup_written (p : string) (content : Pandas.csv) (w : world) :
  lookup p (files (store p content w)) = Some content.
Proof.
  unfold store. cbn [files lookup].
  rewrite String.eqb_refl. reflexivity.
Qed.

(** X13: when the path names no file yet and a file can be created there,
    the last step of [saveData] creates the file, with the header of the
    worker and the one new row.  When no file can be created at the path
    (its directory is missing or may not be written to), the step raises
    [OSError] and writes nothing. *)
Lemma append_record_creates (w : world) (p : string)
    (row : list Pandas.cell) :
  path (self w) = Some p ->
  lookup p (files w) = None ->
  length (header (self w)) = length row ->
  (creatable w p = true ->
   snd (append_record float_repr row w) = Ok tt
   /\ lookup p (files (fst (append_record float_repr row w)))
      = Some [header (self w); map (Pandas.field float_repr) row])
  /\ (creatable w p = false ->
      snd (append_record float_repr row w) = Raise OSError
      /\ files (fst (append_record float_repr row w)) = files w).
Proof.
  intros Hp Hnone Hlen.
  unfold append_record, st_bind, st_get, st_lift.
  rewrite Hp. cbn [attr]. rewrite Hnone.
  unfold Pandas.one_row. rewrite Hlen, Nat.eqb_refl.
  unfold write_file. rewrite Hnone.
  split; intros Hc; rewrite Hc; cbn [fst snd].
  - split; [reflexivity |].
    rewrite lookup_written.
    unfold Pandas.to_csv.
    cbn [Pandas.names Pandas.cols Pandas.nrows seq map].
    rewrite map_map. reflexivity.
  - split; reflexivity.
Qed.


End Appending.

(** A row as an earlier [saveData] wrote it, for the taps of [bench]. *)
Definition earlier_row : list string :=
  ["12:00:00"; "21.0"; "98.0"; "40.0"; "1.0";
   "5.0"; "10.0"; "0.35"; "0.4"; "1"; "1.5";
   "101.0"; "102.0"; "103.0"; "104.0"; "105.0"; "106.0"; "107.0"; "108.0";
   "109.0"; "110.0"; "111.0"; "112.0"; "113.0"; "114.0"; "115.0"; "116.0";
   "0.1"; "0.3"; "0.6"; "0.9"; "0.1"; "0.3"; "0.6"; "0.9";
   "0.0"; "0.0"; "0.0"; "0.0"; "0.0"; "0.0"; "0.0"; "0.0";
   "1111000000000000"; "0000111100000000"]%string.

(** The same row with the leading zeros of its bottom mask gone. *)
Definition earlier_row_rewritten : list string :=
  ["12:00:00"; "21.0"; "98.0"; "40.0"; "1.0";
   "5.0"; "10.0"; "0.35"; "0.4"; "1"; "1.5";
   "101.0"; "102.0"; "103.0"; "104.0"; "105.0"; "106.0"; "107.0"; "108.0";
   "109.0"; "110.0"; "111.0"; "112.0"; "113.0"; "114.0"; "115.0"; "116.0";
   "0.1"; "0.3"; "0.6"; "0.9"; "0.1"; "0.3"; "0.6"; "0.9";
   "0.0"; "0.0"; "0.0"; "0.0"; "0.0"; "0.0"; "0.0"; "0.0";
   "1111000000000000"; "111100000000"]%string.

Definition existing_log : list (string * Pandas.csv) :=
  [("Data/run.csv"%string, [csv_header; earlier_row])].

(** C6: saving into an existing log does not leave the existing rows as
    they were.  [read_csv] reads the two mask columns, whose fields are
    all digits, as integers, so the row written back has lost the leading
    zeros of its mask: "0000111100000000" has become "111100000000". *)
Theorem saveData_rewrites_existing_row (float_repr : R -> string) :
  exists new_row,
    lookup "Data/run.csv"
      (files (fst (saveData Ok SerialDevicesFacts.unsigned_fromstring
                     float_repr 0 (bench 1 existing_log))))
    = Some [csv_header; earlier_row_rewritten; new_row]
    /\ earlier_row_rewritten <> earlier_row.
Proof.
  eexists. split.
  - lazy -[Float64.div Float64.add]. reflexivity.
  - discriminate.
Qed.

End DataFacts.

(** ** A failed calculation cycle *)

Module CycleFacts.
Import Calculations.

(** What a calculation does not change from one cycle to the next: the
    wing geometry and the resolution of the grids. *)
Definition geometry (s : state)
  : list R * list R * list R * list R * nat :=
  (x_wing_top s, x_wing_bottom s, y_wing_top s, y_wing_bottom s,
   number_of_interpolated_points s).

Lemma length_linspace (a b : R) (n : nat) : length (Np.linspace a b n) = n.
Proof.
  destruct n as [| [| n]]; try reflexivity.
  unfold Np.linspace. rewrite length_map, length_seq. reflexivity.
Qed.

Section WithInterpolator.

Variable Akima1DInterpolator : list R -> list R -> res (R -> R).

Lemma pressure_stage_lengths (s : state) (g it ib : list R) :
  pressure_stage Akima1DInterpolator s = Ok (g, it, ib) ->
  length it = number_of_interpolated_points s
  /\ length ib = number_of_interpolated_points s.
Proof.
  unfold pressure_stage. intros H.
  destruct (knots s) as [[[xt pt] [xb pb]] | e]; [| discriminate].
  cbn [bind] in H.
  destruct (Akima1DInterpolator xt pt) as [ft | e]; [| discriminate].
  cbn [bind] in H.
  destruct (Akima1DInterpolator xb pb) as [fb | e]; [| discriminate].
  cbn [bind] in H. injection H as _ <- <-.
  rewrite !length_map, length_linspace. split; reflexivity.
Qed.

(** Whether the second half of the pipeline raises is decided by the
    geometry alone. *)
Lemma wing_stage_returns (s s0 : state) (it ib it0 ib0 : list R) :
  geometry s = geometry s0 ->
  length it = number_of_interpolated_points s ->
  length ib = number_of_interpolated_points s ->
  returned (wing_stage Akima1DInterpolator s0 it0 ib0) ->
  returned (wing_stage Akima1DInterpolator s it ib).
Proof.
  unfold geometry. intros Hg Hit Hib [r0 Hr0].
  injection Hg as Hxt Hxb Hyt Hyb Hn.
  unfold wing_stage in *. rewrite Hxt, Hxb, Hyt, Hyb, Hn in *.
  destruct (Np.getitem (x_wing_top s0) 0) as [t0 | e]; [| discriminate].
  cbn [bind] in *.
  destruct (Np.getitem_neg (x_wing_top s0) 1) as [t1 | e]; [| discriminate].
  cbn [bind] in *.
  destruct (Np.getitem (x_wing_bottom s0) 0) as [b0 | e]; [| discriminate].
  cbn [bind] in *.
  destruct (Np.getitem_neg (x_wing_bottom s0) 1) as [b1 | e];
    [| discriminate].
  cbn [bind] in *.
  destruct (Akima1DInterpolator (x_wing_top s0) (y_wing_top s0))
    as [gt | e]; [| discriminate].
  cbn [bind] in *.
  destruct (Akima1DInterpolator (x_wing_bottom s0) (y_wing_bottom s0))
    as [gb | e]; [| discriminate].
  cbn [bind] in *.
  rewrite CalculationsFacts.calculate_lift_returns
    by (rewrite ?length_map, ?length_linspace; congruence).
  cbn [bind]. eexists. reflexivity.
Qed.

(** The two places where the pipeline can raise, and the state it leaves
    behind. *)
Lemma pipeline_raises (s : state) (err : exn) :
  snd (pipeline Akima1DInterpolator s) = Raise err ->
  (pressure_stage Akima1DInterpolator s = Raise err
   /\ fst (pipeline Akima1DInterpolator s) = s)
  \/ (exists g it ib,
        pressure_stage Akima1DInterpolator s = Ok (g, it, ib)
        /\ wing_stage Akima1DInterpolator (set_splines it ib s) it ib
           = Raise err
        /\ fst (pipeline Akima1DInterpolator s) = set_splines it ib s).
Proof.
  unfold pipeline, st_bind, st_get, st_lift, st_modify.
  destruct (pressure_stage Akima1DInterpolator s) as [[[g it] ib] | e].
  - destruct (wing_stage Akima1DInterpolator (set_splines it ib s) it ib)
      as [[[l [yt yb]] [xt xb]] | e] eqn:Ew.
    + discriminate.
    + cbn [snd fst]. intros H. injection H as <-.
      right. exists g, it, ib. repeat split; assumption.
  - cbn [snd fst]. intros H. injection H as <-. left. split; reflexivity.
Qed.

Lemma pipeline_returns (s : state) :
  snd (pipeline Akima1DInterpolator s) = Ok tt ->
  exists g it ib,
    pressure_stage Akima1DInterpolator s = Ok (g, it, ib)
    /\ returned (wing_stage Akima1DInterpolator (set_splines it ib s) it ib).
Proof.
  unfold pipeline, st_bind, st_get, st_lift, st_modify.
  destruct (pressure_stage Akima1DInterpolator s) as [[[g it] ib] | e].
  - destruct (wing_stage Akima1DInterpolator (set_splines it ib s) it ib)
      as [r | e] eqn:Ew.
    + intros _. exists g, it, ib. split; [reflexivity |].
      exists r. exact Ew.
    + destruct e; discriminate.
  - discriminate.
Qed.

(** C3: when the pipeline raises, [calculateLiftAndSplines] catches the
    exception and returns; the exception is logged, nothing is sent on
    [send_lift_splines_sig], the plot worker and the data worker keep the
    result they received last, and the calculation worker keeps its lift;
    it keeps its two spline arrays as well whenever the pipeline has run to
    its end on this wing geometry before, so that the exception can only
    come from the pressure half of the pipeline. *)
Theorem failed_cycle_keeps_last_result (sys : Main.system) (err : exn) :
  snd (pipeline Akima1DInterpolator (Main.calculations_worker sys))
  = Raise err ->
  let sys' := Main.calculation_cycle Akima1DInterpolator sys in
  let c := Main.calculations_worker sys in
  let c' := Main.calculations_worker sys' in
  snd (calculateLiftAndSplines Akima1DInterpolator c) = Ok tt
  /\ logged c' = logged c ++ [err]
  /\ sent c' = sent c
  /\ Main.plot_worker sys' = Main.plot_worker sys
  /\ Main.data_worker sys' = Main.data_worker sys
  /\ lift c' = lift c
  /\ (forall c0 : state,
        geometry c0 = geometry c ->
        snd (pipeline Akima1DInterpolator c0) = Ok tt ->
        spline_top c' = spline_top c /\ spline_bottom c' = spline_bottom c).
Proof.
  intros Hraise sys' c c'.
  assert (Hcaught :
    snd (calculateLiftAndSplines Akima1DInterpolator c) = Ok tt).
  { unfold calculateLiftAndSplines, st_try.
    fold c in Hraise.
    destruct (pipeline Akima1DInterpolator c) as [s1 [[] | e]];
      cbn [snd fst] in *; [discriminate | reflexivity]. }
  split; [exact Hcaught |].
  assert (Hafter :
    fst (calculateLiftAndSplines Akima1DInterpolator c)
    = log_error err (fst (pipeline Akima1DInterpolator c))).
  { unfold calculateLiftAndSplines, st_try.
    fold c in Hraise.
    destruct (pipeline Akima1DInterpolator c) as [s1 [[] | e]];
      cbn [snd fst] in *; [discriminate |].
    injection Hraise as ->. reflexivity. }
  assert (Hstate :
    forall s1, fst (pipeline Akima1DInterpolator c) = s1 ->
      logged s1 = logged c -> sent s1 = sent c -> lift s1 = lift c ->
      (logged c' = logged c ++ [err]
       /\ sent c' = sent c
       /\ Main.plot_worker sys' = Main.plot_worker sys
       /\ Main.data_worker sys' = Main.data_worker sys
       /\ lift c' = lift c)
      /\ spline_top c' = spline_top s1
      /\ spline_bottom c' = spline_bottom s1).
  { intros s1 Hs1 Hlog Hsent Hlift.
    unfold c', sys', Main.calculation_cycle.
    fold c. rewrite Hafter, Hs1.
    cbn [sent log_error]. rewrite Hsent, skipn_all. cbn [fold_left].
    cbn [Main.calculations_worker Main.plot_worker Main.data_worker
           log_error logged sent lift spline_top spline_bottom].
    rewrite Hlog, Hlift, Hsent. repeat split; reflexivity. }
  destruct (pipeline_raises c err Hraise)
    as [[Hp Hfst] | [g [it [ib [Hp [Hw Hfst]]]]]].
  - destruct (Hstate c Hfst eq_refl eq_refl eq_refl)
      as [[H1 [H2 [H3 [H4 H5]]]] [H6 H7]].
    split; [exact H1 |]. split; [exact H2 |]. split; [exact H3 |].
    split; [exact H4 |]. split; [exact H5 |].
    intros c0 _ _. split; assumption.
  - destruct (Hstate (set_splines it ib c) Hfst eq_refl eq_refl eq_refl)
      as [[H1 [H2 [H3 [H4 H5]]]] _].
    split; [exact H1 |]. split; [exact H2 |]. split; [exact H3 |].
    split; [exact H4 |]. split; [exact H5 |].
    intros c0 Hgeometry Hreturned. exfalso.
    destruct (pipeline_returns c0 Hreturned) as [g0 [it0 [ib0 [Hp0 Hw0]]]].
    destruct (pressure_stage_lengths c g it ib Hp) as [Hit Hib].
    assert (Hret : returned (wing_stage Akima1DInterpolator
                               (set_splines it ib c) it ib)).
    { apply (wing_stage_returns _ (set_splines it0 ib0 c0) it ib it0 ib0).
      - unfold geometry in *. cbn. congruence.
      - exact Hit.
      - exact Hib.
      - exact Hw0. }
    destruct Hret as [r Hr]. congruence.
Qed.

End WithInterpolator.

End CycleFacts.

(** ** The presentation tick *)

Module PlotFacts.
Import Plot.

(** A plot worker that has received the setup data (four taps on each
    surface) and a reading, but no calculation result yet. *)
Definition cold_plot (boxes : bool * bool * bool) : state :=
  fresh 5 10 0
    [101; 102; 103; 104; 105; 106; 107; 108;
     109; 110; 111; 112; 113; 114; 115; 116]
    DataFacts.taps_top DataFacts.taps_bottom boxes 1000 1 1
    DataFacts.tap_coordinates [0.1; 0.3; 0.6; 0.9] [0.1; 0.3; 0.6; 0.9].

Ltac run_plot :=
  cbv [animate plot_options_dict plotCp plotPressures plotPause
         updateDynamicLCDs wing_outline
         st_bind st_get st_lift st_modify st_ret attr bind
         set_art set_checkboxes set_self
         pressures_top_set_data pressures_bottom_set_data
         spline_top_set_data spline_bottom_set_data
         wing_top_set_data wing_bottom_set_data
         cold_plot fresh DataFacts.taps_top DataFacts.taps_bottom
         self art lcd checkboxes_enabled
         checkbox_tuple lift_data_available pressure_array
         mask_top mask_bottom x_coordinates_top x_coordinates_bottom
         x_grid_interpolation spline_top spline_bottom
         temperature p_amb humidity density lift velocity
         line_spline_top line_spline_bottom line_wing_top line_wing_bottom
         line_pressures_top line_pressures_bottom
         Np.bool_index Np.getitem_neg Np.getitem
         fst snd andb nth].

(** C7: with no calculation result received, a tick in the pressure view
    with the spline option checked ends normally and leaves the spline
    and wing lines empty; the same tick in the coefficient view reads the
    spline arrays, which do not exist yet, and raises [AttributeError]:
    [plotCp] does not test [lift_data_available]. *)
Theorem cp_view_without_result_raises :
  (snd (animate (cold_plot (false, true, false))) = Ok tt
   /\ line_spline_top (art (fst (animate (cold_plot (false, true, false)))))
      = ([], [])
   /\ line_wing_top (art (fst (animate (cold_plot (false, true, false)))))
      = ([], []))
  /\ snd (animate (cold_plot (false, true, true))) = Raise AttributeError.
Proof.
  split; [split; [| split] |]; run_plot; reflexivity.
Qed.

(** In the coefficient view with the spline option checked, a tick
    raises as long as no result has created the spline arrays. *)
Lemma plotCp_needs_result (s : state) :
  checkbox_tuple (self s) = (false, true, true) ->
  x_grid_interpolation (self s) = None ->
  raised (snd (animate s)).
Proof.
  intros Hbox Hgrid.
  unfold animate, st_bind, st_get. rewrite Hbox.
  cbv [plot_options_dict plotCp st_bind st_get st_lift st_modify].
  cbn [self set_checkboxes set_art fst snd].
  destruct (attr (x_coordinates_top (self s))) as [xt | e];
    [| eexists; reflexivity].
  destruct (Np.bool_index (pressure_array (self s)) (mask_top (self s)))
    as [pt | e]; [| eexists; reflexivity].
  destruct (attr (x_coordinates_bottom (self s))) as [xb | e];
    [| eexists; reflexivity].
  destruct (Np.bool_index (pressure_array (self s)) (mask_bottom (self s)))
    as [pb | e]; [| eexists; reflexivity].
  rewrite Hbox, Hgrid. cbn. eexists. reflexivity.
Qed.

(** *** The coefficient view *)

(** [0.5 * self.velocity**2 * self.density] *)
Definition denominator_cp (s : state) : R :=
  0.5 * velocity (self s) ^ 2 * density (self s).

(** C8, as amended: a tick of the coefficient view that ends normally
    shows the tap pressures of both surfaces divided by
    [0.5 * velocity^2 * density], computed from the velocity and density
    the worker holds at that tick; with the spline option checked it shows
    both spline arrays divided by the same number; and when it refreshes
    the LCDs (spline option not checked) the lift is displayed as it is,
    not divided. *)
Theorem coefficient_view_divides_pressures
    (s s' : state) (line_box : bool) :
  checkbox_tuple (self s) = (false, line_box, true) ->
  animate s = (s', Ok tt) ->
  (exists x_top p_top x_bottom p_bottom,
     x_coordinates_top (self s) = Some x_top
     /\ Np.bool_index (pressure_array (self s)) (mask_top (self s)) = Ok p_top
     /\ x_coordinates_bottom (self s) = Some x_bottom
     /\ Np.bool_index (pressure_array (self s)) (mask_bottom (self s))
        = Ok p_bottom
     /\ line_pressures_top (art s')
        = (x_top, map (fun p => p / denominator_cp s) p_top)
     /\ line_pressures_bottom (art s')
        = (x_bottom, map (fun p => p / denominator_cp s) p_bottom))
  /\ (line_box = true ->
      exists x_grid s_top s_bottom,
        x_grid_interpolation (self s) = Some x_grid
        /\ spline_top (self s) = Some s_top
        /\ spline_bottom (self s) = Some s_bottom
        /\ line_spline_top (art s')
           = (x_grid, map (fun p => p / denominator_cp s) s_top)
        /\ line_spline_bottom (art s')
           = (x_grid, map (fun p => p / denominator_cp s) s_bottom))
  /\ (line_box = false ->
      lift_top_lcd (lcd s') = lift (self s)
      /\ lift_bottom_lcd (lcd s') = lift (self s)).
Proof.
  intros Hbox Hrun.
  unfold animate, st_bind, st_get in Hrun. rewrite Hbox in Hrun.
  assert (Hcp : plotCp s = (s', Ok tt))
    by (destruct line_box; exact Hrun).
  clear Hrun.
  cbv [plotCp st_bind st_get st_lift st_modify updateDynamicLCDs] in Hcp.
  cbn [self set_checkboxes set_art fst snd] in Hcp.
  destruct (x_coordinates_top (self s)) as [xt |]; [| discriminate].
  cbn [attr] in Hcp.
  destruct (Np.bool_index (pressure_array (self s)) (mask_top (self s)))
    as [pt | e]; [| discriminate].
  destruct (x_coordinates_bottom (self s)) as [xb |]; [| discriminate].
  cbn [attr] in Hcp.
  destruct (Np.bool_index (pressure_array (self s)) (mask_bottom (self s)))
    as [pb | e]; [| discriminate].
  rewrite Hbox in Hcp. cbn [fst snd] in Hcp.
  destruct line_box.
  - destruct (x_grid_interpolation (self s)) as [g |]; [| discriminate].
    destruct (spline_top (self s)) as [st |]; [| discriminate].
    destruct (spline_bottom (self s)) as [sb |]; [| discriminate].
    cbn [attr] in Hcp.
    destruct (wing_outline (wing_sign (self s)) (y_wing_scale_cp (self s))
                (x_wing_interpolation_top (self s)) (y_wing_top (self s)))
      as [wt | e]; [| discriminate].
    destruct (wing_outline (wing_sign (self s)) (y_wing_scale_cp (self s))
                (x_wing_interpolation_bottom (self s)) (y_wing_bottom (self s)))
      as [wb | e]; [| discriminate].
    injection Hcp as <-.
    split; [| split].
    + exists xt, pt, xb, pb. repeat split; reflexivity.
    + intros _. exists g, st, sb. repeat split; reflexivity.
    + discriminate.
  - injection Hcp as <-.
    split; [| split].
    + exists xt, pt, xb, pb. repeat split; reflexivity.
    + discriminate.
    + intros _. split; reflexivity.
Qed.

(** A plot worker in the coefficient view, spline option not checked,
    with velocity 2, density 1 and lift 4. *)
Definition cp_plot : state :=
  set_self (fun a =>
    {| angle := angle a; velocity := 2; lift := 4;
       pressure_array := pressure_array a;
       mask_top := mask_top a; mask_bottom := mask_bottom a;
       checkbox_tuple := checkbox_tuple a;
       temperature := 21; p_amb := 98; humidity := 40; density := 1;
       y_wing_scale_pressures := y_wing_scale_pressures a;
       y_wing_scale_cp := y_wing_scale_cp a;
       wing_sign := wing_sign a;
       x_wing_interpolation_top := x_wing_interpolation_top a;
       x_wing_interpolation_bottom := x_wing_interpolation_bottom a;
       y_wing_top := y_wing_top a; y_wing_bottom := y_wing_bottom a;
       lift_data_available := lift_data_available a;
       x_coordinates := x_coordinates a;
       x_coordinates_top := x_coordinates_top a;
       x_coordinates_bottom := x_coordinates_bottom a;
       x_grid_interpolation := x_grid_interpolation a;
       spline_top := spline_top a; spline_bottom := spline_bottom a |})
    (cold_plot (false, false, true)).

Lemma animate_cp_plot :
  snd (animate cp_plot) = Ok tt
  /\ lift_top_lcd (lcd (fst (animate cp_plot))) = 4
  /\ denominator_cp cp_plot = 2.
Proof.
  split; [| split].
  - unfold cp_plot. run_plot. reflexivity.
  - unfold cp_plot. run_plot. reflexivity.
  - unfold denominator_cp, cp_plot. cbn. lra.
Qed.

Lemma coefficient_view_divides_pressures_witness :
  checkbox_tuple (self cp_plot) = (false, false, true)
  /\ animate cp_plot = (fst (animate cp_plot), Ok tt)
  /\ lift_top_lcd (lcd (fst (animate cp_plot))) = lift (self cp_plot).
Proof.
  assert (Hbox : checkbox_tuple (self cp_plot) = (false, false, true))
    by reflexivity.
  assert (Hrun : animate cp_plot = (fst (animate cp_plot), Ok tt)).
  { destruct animate_cp_plot as [H _].
    destruct (animate cp_plot) as [s' r]. cbn [snd fst] in *.
    rewrite H. reflexivity. }
  split; [exact Hbox | split; [exact Hrun |]].
  exact (proj1 (proj2 (proj2 (coefficient_view_divides_pressures
                                cp_plot _ false Hbox Hrun)) eq_refl)).
Defined.

(** C8, as stated, fails for the lift: in the coefficient view with
    velocity 2, density 1 and lift 4 the denominator is 2, and the tick
    displays the lift 4, not 4 / 2. *)
Lemma coefficient_view_shows_raw_lift :
  snd (animate cp_plot) = Ok tt
  /\ lift_top_lcd (lcd (fst (animate cp_plot)))
     <> lift (self cp_plot) / denominator_cp cp_plot.
Proof.
  destruct animate_cp_plot as [Hok [Hlcd Hden]].
  split; [exact Hok |].
  rewrite Hlcd, Hden.
  replace (lift (self cp_plot)) with 4 by reflexivity.
  lra.
Qed.

End PlotFacts.

(** ** The setup action *)

Module SetUpFacts.
Import SetUpWindow.

(** *** The duplicate test *)

Lemma occurs_In (x : R) (l : list R) : occurs x l = true <-> In x l.
Proof.
  induction l as [| y l IH]; simpl.
  - split; [discriminate | contradiction].
  - rewrite orb_true_iff, Reqb_spec, IH. split; intros [H | H]; auto.
Qed.

Lemma occurs_not_In (x : R) (l : list R) : occurs x l = false <-> ~ In x l.
Proof.
  rewrite <- occurs_In. destruct (occurs x l); split; intros H.
  - discriminate.
  - exfalso. apply H. reflexivity.
  - intros H'. discriminate.
  - reflexivity.
Qed.

(** An index is listed by [first_occurrences] when its value has not been
    seen and does not occur earlier in the array. *)
Lemma first_occurrences_In (a : list R) :
  forall (seen : list R) (i j : nat),
    In j (first_occurrences seen i a)
    <-> exists k, j = (i + k)%nat /\ (k < length a)%nat
                  /\ ~ In (nth k a 0) seen
                  /\ ~ In (nth k a 0) (firstn k a).
Proof.
  induction a as [| x a IH]; intros seen i j.
  - simpl. split; [contradiction |]. intros [k [_ [Hk _]]]. lia.
  - cbn [first_occurrences].
    destruct (occurs x seen) eqn:Hx.
    + apply occurs_In in Hx. rewrite IH. split.
      * intros [k [-> [Hk [Hs Hf]]]]. exists (S k).
        cbn [nth firstn length]. repeat split; try lia; try assumption.
        intros [He | Hin]; [| contradiction].
        apply Hs. rewrite <- He. exact Hx.
      * intros [[| k] [-> [Hk [Hs Hf]]]]; cbn [nth firstn length] in *.
        -- contradiction.
        -- exists k. repeat split; try lia; try assumption.
           intros Hin. apply Hf. right. exact Hin.
    + apply occurs_not_In in Hx. cbn [In]. rewrite IH. split.
      * intros [<- | [k [-> [Hk [Hs Hf]]]]].
        -- exists 0%nat. cbn [nth firstn length].
           repeat split; try lia; try assumption. intros [].
        -- exists (S k). cbn [nth firstn length].
           repeat split; try lia.
           ++ intros Hin. apply Hs. right. exact Hin.
           ++ intros [He | Hin]; [| contradiction].
              apply Hs. left. exact He.
      * intros [[| k] [-> [Hk [Hs Hf]]]]; cbn [nth firstn length] in *.
        -- left. lia.
        -- right. exists k. repeat split; try lia.
           ++ intros [He | Hin]; [apply Hf; left; exact He | contradiction].
           ++ intros Hin. apply Hf. right. exact Hin.
Qed.

Lemma duplicate_indices_In (l : list R) (j : nat) :
  In j (duplicate_indices l)
  <-> (j < length l)%nat /\ In (nth j l 0) (firstn j l).
Proof.
  unfold duplicate_indices, setdiff_arange, unique_indices.
  rewrite filter_In, in_seq, negb_true_iff.
  split.
  - intros [[_ Hj] Hex]. split; [lia |].
    apply occurs_In. destruct (occurs (nth j l 0) (firstn j l)) eqn:Ho;
      [reflexivity |].
    apply occurs_not_In in Ho.
    assert (Hin : In j (first_occurrences [] 0 l)).
    { apply first_occurrences_In. exists j.
      repeat split; try lia; try assumption. intros []. }
    assert (Htrue : existsb (Nat.eqb j) (first_occurrences [] 0 l) = true).
    { apply existsb_exists. exists j. split; [exact Hin |].
      apply Nat.eqb_refl. }
    congruence.
  - intros [Hj Hin]. split; [lia |].
    destruct (existsb (Nat.eqb j) (first_occurrences [] 0 l)) eqn:Hex;
      [| reflexivity].
    apply existsb_exists in Hex. destruct Hex as [j' [Hin' Heq]].
    apply Nat.eqb_eq in Heq. subst j'.
    apply first_occurrences_In in Hin'.
    destruct Hin' as [k [Hk [_ [_ Hf]]]]. simpl in Hk. subst k.
    contradiction.
Qed.

Lemma In_firstn_nth (l : list R) (j : nat) (x : R) :
  In x (firstn j l) -> exists i, (i < j)%nat /\ (i < length l)%nat
                                 /\ nth i l 0 = x.
Proof.
  revert j. induction l as [| y l IH]; intros [| j] H; simpl in H;
    try contradiction.
  destruct H as [-> | H].
  - exists 0%nat. simpl. repeat split; lia.
  - destruct (IH j H) as [i [Hi [Hl Hn]]].
    exists (S i). simpl. repeat split; try lia. exact Hn.
Qed.

Lemma nth_In_firstn (l : list R) (i j : nat) :
  (i < j)%nat -> (j <= length l)%nat -> In (nth i l 0) (firstn j l).
Proof.
  revert i j. induction l as [| y l IH]; intros i j Hij Hj; simpl in Hj.
  - lia.
  - destruct j as [| j]; [lia |]. destruct i as [| i]; simpl.
    + left. reflexivity.
    + right. apply IH; lia.
Qed.

(** [duplicate_indices(...).any()] is the test for a repeated value: index
    0 is never a duplicate, so a non-empty array of duplicate indices has
    an entry that is not zero. *)
Lemma any_duplicate_indices (l : list R) :
  any (duplicate_indices l) = false <-> NoDup l.
Proof.
  split.
  - intros Hany. apply (NoDup_nth l 0).
    assert (Hfree : forall j, (j < length l)%nat ->
                              ~ In (nth j l 0) (firstn j l)).
    { intros j Hj Hin.
      assert (Hd : In j (duplicate_indices l))
        by (apply duplicate_indices_In; split; assumption).
      destruct j as [| j]; [simpl in Hin; contradiction |].
      assert (Ht : any (duplicate_indices l) = true).
      { unfold any. apply existsb_exists. exists (S j).
        split; [exact Hd | reflexivity]. }
      congruence. }
    intros i j Hi Hj Heq.
    destruct (Nat.lt_trichotomy i j) as [Hlt | [He | Hgt]]; [| exact He |].
    + exfalso. apply (Hfree j Hj). rewrite <- Heq.
      apply nth_In_firstn; lia.
    + exfalso. apply (Hfree i Hi). rewrite Heq.
      apply nth_In_firstn; lia.
  - intros Hnd.
    destruct (any (duplicate_indices l)) eqn:Hany; [| reflexivity].
    exfalso. unfold any in Hany. apply existsb_exists in Hany.
    destruct Hany as [j [Hd _]].
    apply duplicate_indices_In in Hd. destruct Hd as [Hj Hin].
    destruct (In_firstn_nth l j _ Hin) as [i [Hij [Hi Heq]]].
    assert (i = j) by (apply (proj1 (NoDup_nth l 0) Hnd); assumption).
    lia.
Qed.

(** *** The gate of [setUp] *)

(** The three invariants of a configuration. *)
Definition valid_configuration (mask_top mask_bottom : list bool)
    (coordinates : list R) : Prop :=
  (forall i, nth i mask_top false && nth i mask_bottom false = false)
  /\ (2 <= count mask_top)%nat
  /\ (2 <= count mask_bottom)%nat
  /\ exists top bottom,
       Np.bool_index coordinates mask_top = Ok top
       /\ Np.bool_index coordinates mask_bottom = Ok bottom
       /\ NoDup top /\ NoDup bottom.

Definition no_update (l : list signal) : Prop :=
  forall m_top m_bottom x, ~ In (update_sig m_top m_bottom x) l.

Lemma masks_disjoint (status : list bool) :
  forall (colors m_top m_bottom : list bool),
    bitwise_and status colors = Ok m_top ->
    bitwise_and status (invert colors) = Ok m_bottom ->
    forall i, nth i m_top false && nth i m_bottom false = false.
Proof.
  induction status as [| u status IH]; intros [| c colors] mt mb Ht Hb i;
    simpl in Ht, Hb; try discriminate.
  - injection Ht as <-. destruct i; reflexivity.
  - destruct (bitwise_and status colors) as [rt | e] eqn:Et;
      [| discriminate].
    destruct (bitwise_and status (invert colors)) as [rb | e] eqn:Eb;
      [| discriminate].
    cbn [bind] in Ht, Hb. injection Ht as <-. injection Hb as <-.
    destruct i as [| i]; cbn [nth].
    + destruct u, c; reflexivity.
    + exact (IH colors rt rb Et Eb i).
Qed.

Section Gate.

Variable decode : string -> res string.
Variable fromstring : string -> list R.
Variable open_port : string -> N -> res Serial.port.

Lemma bind_keeps_emitted {A B : Type} (m : stm state A)
    (k : A -> stm state B) :
  (forall s, emitted (fst (m s)) = emitted s) ->
  (forall a s, emitted (fst (k a s)) = emitted s) ->
  forall s, emitted (fst (st_bind m k s)) = emitted s.
Proof.
  intros Hm Hk s. unfold st_bind. specialize (Hm s).
  destruct (m s) as [s1 [a | e]]; cbn [fst] in *.
  - rewrite Hk. exact Hm.
  - exact Hm.
Qed.

Lemma read_status_emitted (s : state) :
  emitted (fst (read_status s)) = emitted s.
Proof.
  unfold read_status.
  destruct (assign_all (checkbox_list s) (x_coordinates_status s)).
  reflexivity.
Qed.

Lemma read_coordinates_emitted (s : state) :
  emitted (fst (read_coordinates s)) = emitted s.
Proof.
  unfold read_coordinates.
  destruct (assign_all (spinbox_list s) (x_coordinates s)).
  reflexivity.
Qed.

Lemma read_colors_emitted (s : state) :
  emitted (fst (read_colors s)) = emitted s.
Proof.
  unfold read_colors.
  destruct (assign_all (checkbox_color_list s) (color_code s)).
  reflexivity.
Qed.

Lemma read_widgets_emitted (s : state) :
  emitted (fst (read_widgets s)) = emitted s.
Proof.
  unfold read_widgets.
  apply bind_keeps_emitted; [reflexivity |]. intros s0 s1.
  apply bind_keeps_emitted; [reflexivity |]. intros _ s2.
  apply bind_keeps_emitted; [apply read_status_emitted |]. intros _ s3.
  apply bind_keeps_emitted; [apply read_coordinates_emitted |]. intros _ s4.
  apply read_colors_emitted.
Qed.

Lemma connect_devices_emitted (s : state) :
  exists l,
    emitted (fst (connect_devices decode fromstring open_port s))
    = emitted s ++ l
    /\ no_update l.
Proof.
  unfold connect_devices, st_try, st_bind, st_get, st_lift, st_ret.
  destruct (SerialDevices.init (open_port (pressure_port s) (baud_rate s))
              (pressure_port s) (expected_shape_pressure s)) as [pd | e].
  2: { exists [switch_plot_button_sig false]. split; [reflexivity |].
       intros mt mb x [H | []]. discriminate. }
  destruct (SerialDevices.init (open_port (density_port s) (baud_rate s))
              (density_port s) (expected_shape_density s)) as [dd | e].
  2: { exists [switch_plot_button_sig false]. split; [reflexivity |].
       intros mt mb x [H | []]. discriminate. }
  destruct (SerialDevices.getNewData decode fromstring pd) as [pd' r1].
  destruct r1 as [v1 | e1].
  - destruct (SerialDevices.getNewData decode fromstring dd) as [dd' r2].
    destruct r2 as [v2 | e2].
    + exists [send_serial_connections_sig pd' dd';
              switch_plot_button_sig true].
      split; [cbn; rewrite <- app_assoc; reflexivity |].
      intros mt mb x [H | [H | []]]; discriminate.
    + exists [send_serial_connections_sig pd' dd';
              switch_plot_button_sig true; switch_plot_button_sig false].
      split; [cbn; rewrite <- !app_assoc; reflexivity |].
      intros mt mb x [H | [H | [H | []]]]; discriminate.
  - exists [send_serial_connections_sig pd' dd;
            switch_plot_button_sig true; switch_plot_button_sig false].
    split; [cbn; rewrite <- !app_assoc; reflexivity |].
    intros mt mb x [H | [H | [H | []]]]; discriminate.
Qed.

(** What [validate] emits: an [update_sig] only for a candidate that
    satisfies the three invariants, and none for a candidate with too few
    taps or with a repeated coordinate on a surface. *)
Lemma validate_emitted (s : state) :
  exists l,
    emitted (fst (validate decode fromstring open_port s)) = emitted s ++ l
    /\ (forall m_top m_bottom x,
          In (update_sig m_top m_bottom x) l ->
          valid_configuration m_top m_bottom x)
    /\ (forall m_top m_bottom top bottom,
          bitwise_and (x_coordinates_status s) (color_code s) = Ok m_top ->
          bitwise_and (x_coordinates_status s) (invert (color_code s))
          = Ok m_bottom ->
          Np.bool_index (x_coordinates s) m_top = Ok top ->
          Np.bool_index (x_coordinates s) m_bottom = Ok bottom ->
          (count m_top < 2)%nat \/ (count m_bottom < 2)%nat
          \/ ~ NoDup top \/ ~ NoDup bottom ->
          no_update l).
Proof.
  unfold validate, st_bind at 1, st_get.
  unfold st_bind at 1, st_lift at 1.
  destruct (bitwise_and (x_coordinates_status s) (color_code s))
    as [mt | e] eqn:Emt.
  2: { exists []. rewrite app_nil_r. split; [reflexivity |].
       split; [intros ? ? ? [] | discriminate]. }
  unfold st_bind at 1, st_lift at 1.
  destruct (bitwise_and (x_coordinates_status s) (invert (color_code s)))
    as [mb | e] eqn:Emb.
  2: { exists []. rewrite app_nil_r. split; [reflexivity |].
       split; [intros ? ? ? [] | discriminate]. }
  unfold st_bind at 1, st_lift at 1.
  destruct (Np.bool_index (x_coordinates s) mt) as [ct | e] eqn:Ect.
  2: { exists []. rewrite app_nil_r. split; [reflexivity |].
       split; [intros ? ? ? [] |].
       intros m1 m2 t1 t2 H1 _ H3. injection H1 as <-. congruence. }
  unfold st_bind at 1, st_lift at 1.
  destruct (Np.bool_index (x_coordinates s) mb) as [cb | e] eqn:Ecb.
  2: { exists []. rewrite app_nil_r. split; [reflexivity |].
       split; [intros ? ? ? [] |].
       intros m1 m2 t1 t2 _ H2 _ H4. injection H2 as <-. congruence. }
  destruct (any (duplicate_indices ct)) eqn:Hdt;
    destruct (any (duplicate_indices cb)) eqn:Hdb;
    destruct ((count mt <? 2)%nat) eqn:Hnt;
    destruct ((count mb <? 2)%nat) eqn:Hnb;
    cbn [negb orb andb];
    try (eexists;
         split;
         [ unfold st_bind, showWarning, emit, st_modify, st_ret;
           cbn [fst snd emitted]; rewrite <- ?app_assoc; reflexivity
         | split;
           [ intros m1 m2 x Hin; cbn in Hin;
             repeat (destruct Hin as [Hin | Hin]; [discriminate |]);
             destruct Hin
           | intros m1 m2 t1 t2 _ _ _ _ _ m3 m4 x Hin; cbn in Hin;
             repeat (destruct Hin as [Hin | Hin]; [discriminate |]);
             destruct Hin ]]).
  (* the candidate passes *)
  assert (Hvalid : valid_configuration mt mb (x_coordinates s)).
  { split; [exact (masks_disjoint _ _ _ _ Emt Emb) |].
    apply Nat.ltb_ge in Hnt. apply Nat.ltb_ge in Hnb.
    split; [exact Hnt | split; [exact Hnb |]].
    exists ct, cb. repeat split; try assumption;
      apply any_duplicate_indices; assumption. }
  assert (Hreject :
    forall m1 m2 top bottom,
      Ok mt = Ok m1 -> Ok mb = Ok m2 ->
      Np.bool_index (x_coordinates s) m1 = Ok top ->
      Np.bool_index (x_coordinates s) m2 = Ok bottom ->
      (count m1 < 2)%nat \/ (count m2 < 2)%nat
      \/ ~ NoDup top \/ ~ NoDup bottom -> False).
  { intros m1 m2 top bottom H1 H2 Ht Hb Hbad.
    injection H1 as <-. injection H2 as <-.
    rewrite Ect in Ht. rewrite Ecb in Hb.
    injection Ht as <-. injection Hb as <-.
    apply Nat.ltb_ge in Hnt. apply Nat.ltb_ge in Hnb.
    apply any_duplicate_indices in Hdt. apply any_duplicate_indices in Hdb.
    destruct Hbad as [H | [H | [H | H]]]; try lia; contradiction. }
  destruct (demo_mode s) eqn:Hdemo.
  - exists [update_sig mt mb (x_coordinates s); path_name_sig (path s);
            switch_plot_button_sig true].
    split.
    + unfold st_bind, emit, st_modify, st_ret.
      cbn [fst snd emitted]. rewrite <- !app_assoc. reflexivity.
    + split.
      * intros m1 m2 x [H | [H | [H | []]]]; try discriminate.
        injection H as <- <- <-. exact Hvalid.
      * intros m1 m2 t1 t2 H1 H2 H3 H4 Hbad.
        destruct (Hreject m1 m2 t1 t2 H1 H2 H3 H4 Hbad).
  - destruct (connect_devices_emitted
                (fst ((emit (update_sig mt mb (x_coordinates s)) >>>
                       emit (path_name_sig (path s))) s)))
      as [l [Hl Hno]].
    exists ([update_sig mt mb (x_coordinates s); path_name_sig (path s)]
            ++ l).
    split.
    + unfold st_bind at 1, st_ret at 1. unfold st_bind at 1, st_ret at 1.
      unfold st_bind at 1. unfold emit at 1, st_modify at 1.
      unfold st_bind at 1. unfold emit at 1, st_modify at 1.
      unfold st_bind, emit, st_modify in Hl. cbn [fst] in Hl.
      match goal with
      | |- context [connect_devices _ _ _ ?t] =>
          destruct (connect_devices decode fromstring open_port t)
            as [s3 [[] | e3]]
      end; cbn [fst] in *; rewrite Hl; cbn [emitted];
        rewrite <- !app_assoc; reflexivity.
    + split.
      * intros m1 m2 x [H | [H | H]]; try discriminate.
        -- injection H as <- <- <-. exact Hvalid.
        -- destruct (Hno _ _ _ H).
      * intros m1 m2 t1 t2 H1 H2 H3 H4 Hbad.
        destruct (Hreject m1 m2 t1 t2 H1 H2 H3 H4 Hbad).
Qed.

(** X19: the setup action as a whole: every [update_sig] it emits carries a
    configuration that satisfies the three invariants, and a candidate that
    has too few taps or a repeated coordinate on a surface is not sent. *)
Lemma setUp_gate (s : state) :
  let s1 := fst (read_widgets s) in
  exists l,
    emitted (fst (setUp decode fromstring open_port s)) = emitted s ++ l
    /\ (forall m_top m_bottom x,
          In (update_sig m_top m_bottom x) l ->
          valid_configuration m_top m_bottom x)
    /\ (forall m_top m_bottom top bottom,
          bitwise_and (x_coordinates_status s1) (color_code s1) = Ok m_top ->
          bitwise_and (x_coordinates_status s1) (invert (color_code s1))
          = Ok m_bottom ->
          Np.bool_index (x_coordinates s1) m_top = Ok top ->
          Np.bool_index (x_coordinates s1) m_bottom = Ok bottom ->
          (count m_top < 2)%nat \/ (count m_bottom < 2)%nat
          \/ ~ NoDup top \/ ~ NoDup bottom ->
          no_update l).
Proof.
  intros s1. unfold setUp, st_bind at 1.
  pose proof (read_widgets_emitted s) as Hread. fold s1 in Hread.
  unfold s1 in *. clear s1.
  destruct (read_widgets s) as [s1 [[] | e]]; cbn [fst] in *.
  - destruct (validate_emitted s1) as [l [Hl [Hvalid Hreject]]].
    exists l. rewrite <- Hread. split; [| split; assumption].
    unfold st_bind.
    destruct (validate decode fromstring open_port s1) as [s2 [[] | e]];
      cbn [fst] in *; exact Hl.
  - exists []. rewrite app_nil_r. split; [exact Hread |].
    split; [intros ? ? ? [] |]. intros ? ? ? ? _ _ _ _ _ ? ? ? [].
Qed.

End Gate.

(** *** Two setups in a row *)

(** The setup window as the user confirms it the first time: taps 0 to 3 on
    the top surface and taps 4 to 7 on the bottom surface, at the
    coordinates 0.1, 0.3, 0.6 and 0.9 on both; demo mode. *)
Definition first_window : state :=
  {| x_coordinates_status := repeat false 16;
     x_coordinates := repeat 0 16;
     color_code := repeat false 16;
     pressure_port := "/dev/ttyACM0"; density_port := "/dev/ttyACM1";
     baud_rate := 19200%N;
     expected_shape_pressure := 16; expected_shape_density := 4;
     demo_mode := true; path := "Data/run.csv";
     checkbox_list :=
       [true; true; true; true; true; true; true; true;
        false; false; false; false; false; false; false; false];
     spinbox_list := DataFacts.tap_coordinates;
     checkbox_color_list := DataFacts.taps_top;
     pressure_line_edit := "/dev/ttyACM0";
     density_line_edit := "/dev/ttyACM1";
     emitted := []; warnings := []; logged := []; visible := true |}.

Definition first_system : Main.system :=
  {| Main.setup_window := first_window;
     Main.data_worker :=
       Data.set_self
         (fun a => Data.with_surfaces None None
                     (Data.with_setup None None None a))
         (DataFacts.bench 1 []);
     Main.plot_worker := PlotFacts.cold_plot (false, false, false);
     Main.calculations_worker :=
       Calculations.set_setup None None None None None
         CalculationsFacts.two_surface_state;
     Main.show_plot_button := false |}.

(** The user opens the window again and changes the spin boxes. *)
Definition edit_spinboxes (values : list R) (s : state) : state :=
  {| x_coordinates_status := x_coordinates_status s;
     x_coordinates := x_coordinates s; color_code := color_code s;
     pressure_port := pressure_port s; density_port := density_port s;
     baud_rate := baud_rate s;
     expected_shape_pressure := expected_shape_pressure s;
     expected_shape_density := expected_shape_density s;
     demo_mode := demo_mode s; path := path s;
     checkbox_list := checkbox_list s; spinbox_list := values;
     checkbox_color_list := checkbox_color_list s;
     pressure_line_edit := pressure_line_edit s;
     density_line_edit := density_line_edit s;
     emitted := emitted s; warnings := warnings s;
     logged := logged s; visible := true |}.

Definition edit_window (f : state -> state) (sys : Main.system)
  : Main.system :=
  {| Main.setup_window := f (Main.setup_window sys);
     Main.data_worker := Main.data_worker sys;
     Main.plot_worker := Main.plot_worker sys;
     Main.calculations_worker := Main.calculations_worker sys;
     Main.show_plot_button := Main.show_plot_button sys |}.

(** The coordinate of tap 1 set to 0.1, the coordinate of tap 0. *)
Definition duplicate_coordinates : list R :=
  [0.1; 0.1; 0.6; 0.9; 0.1; 0.3; 0.6; 0.9; 0; 0; 0; 0; 0; 0; 0; 0].

Lemma distinct_coordinates : NoDup [0.1; 0.3; 0.6; 0.9].
Proof.
  repeat constructor; simpl; intros H;
    repeat (destruct H as [H | H]; [lra |]); exact H.
Qed.

Lemma repeated_coordinates : ~ NoDup [0.1; 0.1; 0.6; 0.9].
Proof.
  intros H. inversion H as [| x l Hin _]. apply Hin. left. reflexivity.
Qed.

Lemma any_distinct : any (duplicate_indices [0.1; 0.3; 0.6; 0.9]) = false.
Proof. apply any_duplicate_indices, distinct_coordinates. Qed.

Lemma any_repeated : any (duplicate_indices [0.1; 0.1; 0.6; 0.9]) = true.
Proof.
  destruct (any (duplicate_indices [0.1; 0.1; 0.6; 0.9])) eqn:H;
    [reflexivity |].
  apply any_duplicate_indices in H. destruct (repeated_coordinates H).
Qed.

Ltac run_setup :=
  repeat (progress
            (lazy -[any duplicate_indices
                    Q2R IZR INR Rplus Rmult Rminus Rdiv Ropp Rinv];
             rewrite ?any_distinct, ?any_repeated)).

(** The window after the first setup: accepted, three signals emitted. *)
Definition accepted_window : state :=
  {| x_coordinates_status :=
       [true; true; true; true; true; true; true; true;
        false; false; false; false; false; false; false; false];
     x_coordinates := DataFacts.tap_coordinates;
     color_code := DataFacts.taps_top;
     pressure_port := "/dev/ttyACM0"; density_port := "/dev/ttyACM1";
     baud_rate := 19200%N;
     expected_shape_pressure := 16; expected_shape_density := 4;
     demo_mode := true; path := "Data/run.csv";
     checkbox_list :=
       [true; true; true; true; true; true; true; true;
        false; false; false; false; false; false; false; false];
     spinbox_list := DataFacts.tap_coordinates;
     checkbox_color_list := DataFacts.taps_top;
     pressure_line_edit := "/dev/ttyACM0";
     density_line_edit := "/dev/ttyACM1";
     emitted :=
       [update_sig DataFacts.taps_top DataFacts.taps_bottom
          DataFacts.tap_coordinates;
        path_name_sig "Data/run.csv";
        switch_plot_button_sig true];
     warnings := []; logged := []; visible := false |}.

(** The window after the second setup: rejected with a warning, the plot
    button switched off, no [update_sig]; the array [x_coordinates] holds
    the rejected coordinates. *)
Definition rejected_window : state :=
  {| x_coordinates_status :=
       [true; true; true; true; true; true; true; true;
        false; false; false; false; false; false; false; false];
     x_coordinates := duplicate_coordinates;
     color_code := DataFacts.taps_top;
     pressure_port := "/dev/ttyACM0"; density_port := "/dev/ttyACM1";
     baud_rate := 19200%N;
     expected_shape_pressure := 16; expected_shape_density := 4;
     demo_mode := true; path := "Data/run.csv";
     checkbox_list :=
       [true; true; true; true; true; true; true; true;
        false; false; false; false; false; false; false; false];
     spinbox_list := duplicate_coordinates;
     checkbox_color_list := DataFacts.taps_top;
     pressure_line_edit := "/dev/ttyACM0";
     density_line_edit := "/dev/ttyACM1";
     emitted :=
       [update_sig DataFacts.taps_top DataFacts.taps_bottom
          DataFacts.tap_coordinates;
        path_name_sig "Data/run.csv";
        switch_plot_button_sig true;
        switch_plot_button_sig false];
     warnings := ["Please check for duplicates."%string];
     logged := []; visible := false |}.

Section WithRuntime.

Variable decode : string -> res string.
Variable fromstring : string -> list R.
Variable open_port : string -> N -> res Serial.port.

Lemma first_setUp :
  setUp decode fromstring open_port first_window = (accepted_window, Ok tt).
Proof. run_setup. reflexivity. Qed.

Lemma second_setUp :
  setUp decode fromstring open_port
    (edit_spinboxes duplicate_coordinates accepted_window)
  = (rejected_window, Ok tt).
Proof. run_setup. reflexivity. Qed.

Definition second_system : Main.system :=
  edit_window (edit_spinboxes duplicate_coordinates)
    (Main.setUp decode fromstring open_port first_system).

Definition third_system : Main.system :=
  Main.setUp decode fromstring open_port second_system.

Lemma first_setup_delivered :
  Main.setUp decode fromstring open_port first_system
  = fold_left Main.deliver (emitted accepted_window)
      (Main.share_x_coordinates DataFacts.tap_coordinates
         (edit_window (fun _ => accepted_window) first_system)).
Proof.
  unfold Main.setUp.
  change (Main.setup_window first_system) with first_window.
  rewrite first_setUp. reflexivity.
Qed.

Lemma second_system_window :
  Main.setup_window second_system
  = edit_spinboxes duplicate_coordinates accepted_window.
Proof.
  unfold second_system. rewrite first_setup_delivered. reflexivity.
Qed.

Lemma second_system_data :
  Data.x_coordinates (Data.self (Main.data_worker second_system))
  = Some DataFacts.tap_coordinates
  /\ Data.mask_top (Data.self (Main.data_worker second_system))
     = Some DataFacts.taps_top
  /\ Data.mask_bottom (Data.self (Main.data_worker second_system))
     = Some DataFacts.taps_bottom.
Proof.
  unfold second_system. rewrite first_setup_delivered.
  split; [| split]; reflexivity.
Qed.

(** A rejected setup, seen from the system: the only signal is the one
    that switches the plot button off, and the workers that hold the array
    [x_coordinates] see the rejected coordinates in it. *)
Lemma second_setup_delivered (sys : Main.system) :
  Main.setup_window sys
  = edit_spinboxes duplicate_coordinates accepted_window ->
  let sys' := Main.setUp decode fromstring open_port sys in
  skipn (length (emitted (Main.setup_window sys)))
    (emitted (Main.setup_window sys'))
  = [switch_plot_button_sig false]
  /\ Data.x_coordinates (Data.self (Main.data_worker sys'))
     = Main.rebind duplicate_coordinates
         (Data.x_coordinates (Data.self (Main.data_worker sys)))
  /\ Data.mask_top (Data.self (Main.data_worker sys'))
     = Data.mask_top (Data.self (Main.data_worker sys))
  /\ Data.mask_bottom (Data.self (Main.data_worker sys'))
     = Data.mask_bottom (Data.self (Main.data_worker sys)).
Proof.
  intros Hw sys'. unfold sys', Main.setUp.
  rewrite Hw, second_setUp.
  split; [| split; [| split]]; reflexivity.
Qed.

(** C9: a first setup with distinct coordinates is accepted; the user
    then sets the coordinate of tap 1 to that of tap 0 and confirms
    again.  The second setup is rejected (a warning, the plot button off,
    no [update_sig]), and yet the data worker now holds the rejected
    coordinates, because [setUp] assigned them to the array it had handed
    out before it tested them: under the top mask of the data worker, taps
    0 and 1 share the coordinate 0.1. *)
Theorem rejected_coordinates_reach_data_worker :
  skipn (length (emitted (Main.setup_window second_system)))
    (emitted (Main.setup_window third_system))
  = [switch_plot_button_sig false]
  /\ Data.x_coordinates (Data.self (Main.data_worker second_system))
     = Some DataFacts.tap_coordinates
  /\ Data.x_coordinates (Data.self (Main.data_worker third_system))
     = Some duplicate_coordinates
  /\ Data.mask_top (Data.self (Main.data_worker third_system))
     = Some DataFacts.taps_top
  /\ Np.bool_index duplicate_coordinates DataFacts.taps_top
     = Ok [0.1; 0.1; 0.6; 0.9]
  /\ ~ NoDup [0.1; 0.1; 0.6; 0.9].
Proof.
  destruct second_system_data as [Hx [Hm _]].
  pose proof (second_setup_delivered second_system second_system_window)
    as Hthird.
  cbv zeta in Hthird. destruct Hthird as [Hsig [Hx' [Hm' _]]].
  unfold third_system.
  rewrite Hx in Hx'. rewrite Hm in Hm'.
  split; [exact Hsig |].
  split; [exact Hx |].
  split; [exact Hx' |].
  split; [exact Hm' |].
  split; [reflexivity | exact repeated_coordinates].
Qed.

End WithRuntime.

End SetUpFacts.

(** ** A failing cycle, concretely *)

Module CycleExample.
Import Calculations.

(** A calculation worker whose top mask selects a single tap: the
    boundary extension of the top surface reads [pressures_top[-2]] and
    raises [IndexError]. *)
Definition one_tap_state : state :=
  set_setup
    (Some [true; false; false; false; false; false; false; false;
           false; false; false; false; false; false; false; false])
    (Some [false; false; false; true; true; true; false; false;
           false; false; false; false; false; false; false; false])
    (Some [0.1; 0.3; 0.6; 0.1; 0.3; 0.6; 0; 0; 0; 0; 0; 0; 0; 0; 0; 0])
    (Some [0.1]) (Some [0.1; 0.3; 0.6])
    CalculationsFacts.two_surface_state.

Definition one_tap_system : Main.system :=
  {| Main.setup_window := SetUpFacts.accepted_window;
     Main.data_worker := DataFacts.bench 1 [];
     Main.plot_worker := PlotFacts.cold_plot (false, true, false);
     Main.calculations_worker := one_tap_state;
     Main.show_plot_button := true |}.

Lemma one_tap_knots : knots one_tap_state = Raise IndexError.
Proof.
  unfold one_tap_state, CalculationsFacts.two_surface_state, set_setup.
  np_eval. reflexivity.
Qed.

Lemma one_tap_pipeline (interpolator : list R -> list R -> res (R -> R)) :
  snd (pipeline interpolator one_tap_state) = Raise IndexError.
Proof.
  unfold pipeline, st_bind, st_get, st_lift, pressure_stage.
  rewrite one_tap_knots. reflexivity.
Qed.

Lemma failed_cycle_keeps_last_result_witness :
  snd (pipeline (fun _ _ => Raise ValueError)
         (Main.calculations_worker one_tap_system)) = Raise IndexError
  /\ logged (Main.calculations_worker
               (Main.calculation_cycle (fun _ _ => Raise ValueError)
                  one_tap_system))
     = logged one_tap_state ++ [IndexError]
  /\ Main.plot_worker
       (Main.calculation_cycle (fun _ _ => Raise ValueError) one_tap_system)
     = Main.plot_worker one_tap_system.
Proof.
  pose proof (one_tap_pipeline (fun _ _ => Raise ValueError)) as Hraise.
  change one_tap_state with (Main.calculations_worker one_tap_system)
    in Hraise at 1.
  pose proof (CycleFacts.failed_cycle_keeps_last_result
                (fun _ _ => Raise ValueError) one_tap_system IndexError
                Hraise) as H.
  cbv zeta in H. destruct H as [_ [Hlog [_ [Hplot _]]]].
  split; [exact Hraise | split; [exact Hlog | exact Hplot]].
Defined.

End CycleExample.

(** ** The knots handed to the interpolator *)

Module KnotFacts.
Import Calculations.

(** *** The order of [np.lexsort] *)

Lemma Rleb_spec (x y : R) : Rleb x y = true <-> x <= y.
Proof.
  unfold Rleb. destruct (Rle_dec x y); split; intros; auto; discriminate.
Qed.

Lemma key_le_spec (a b : R * R) :
  Np.key_le a b = true
  <-> fst a < fst b \/ (fst a = fst b /\ snd a <= snd b).
Proof.
  unfold Np.key_le.
  rewrite orb_true_iff, andb_true_iff, Rltb_spec, Reqb_spec, Rleb_spec.
  reflexivity.
Qed.

Lemma key_le_total (a b : R * R) :
  Np.key_le a b = false -> Np.key_le b a = true.
Proof.
  intros H. apply key_le_spec.
  destruct (Rtotal_order (fst a) (fst b)) as [Hlt | [He | Hgt]].
  - assert (Ht : Np.key_le a b = true) by (apply key_le_spec; left; exact Hlt).
    congruence.
  - destruct (Rle_dec (snd a) (snd b)) as [Hle | Hnle].
    + assert (Ht : Np.key_le a b = true)
        by (apply key_le_spec; right; split; assumption).
      congruence.
    + right. split; [symmetry; exact He | lra].
  - left. exact Hgt.
Qed.

Lemma key_le_trans (a b c : R * R) :
  Np.key_le a b = true -> Np.key_le b c = true -> Np.key_le a c = true.
Proof.
  rewrite !key_le_spec. intros [H1 | [H1 H1']] [H2 | [H2 H2']].
  - left. lra.
  - left. lra.
  - left. lra.
  - right. split; [congruence | lra].
Qed.

Section Insertion.

Variable key : nat -> R * R.

Definition by_key (i j : nat) : Prop := Np.key_le (key i) (key j) = true.

Lemma insert_index_perm (i : nat) (l : list nat) :
  Permutation (Np.insert_index key i l) (i :: l).
Proof.
  induction l as [| j l IH]; simpl.
  - apply Permutation_refl.
  - destruct (Np.key_le (key i) (key j)).
    + apply Permutation_refl.
    + apply perm_trans with (j :: i :: l).
      * apply perm_skip. exact IH.
      * apply perm_swap.
Qed.

Lemma insert_index_sorted (i : nat) (l : list nat) :
  StronglySorted by_key l -> StronglySorted by_key (Np.insert_index key i l).
Proof.
  induction l as [| j l IH]; intros Hs; simpl.
  - constructor; constructor.
  - inversion Hs as [| j' l' Hl Hj]; subst.
    destruct (Np.key_le (key i) (key j)) eqn:Hij.
    + constructor; [exact Hs |].
      constructor; [exact Hij |].
      rewrite Forall_forall in *. intros k Hk.
      apply (key_le_trans _ (key j)); [exact Hij | exact (Hj k Hk)].
    + constructor; [apply IH; exact Hl |].
      rewrite Forall_forall in *. intros k Hk.
      apply (Permutation_in _ (insert_index_perm i l)) in Hk.
      destruct Hk as [<- | Hk].
      * apply key_le_total. exact Hij.
      * exact (Hj k Hk).
Qed.

Lemma sort_indices (l : list nat) :
  Permutation (fold_right (Np.insert_index key) [] l) l
  /\ StronglySorted by_key (fold_right (Np.insert_index key) [] l).
Proof.
  induction l as [| i l [IHp IHs]]; simpl.
  - split; constructor.
  - split.
    + apply perm_trans with (i :: fold_right (Np.insert_index key) [] l).
      * apply insert_index_perm.
      * apply perm_skip. exact IHp.
    + apply insert_index_sorted. exact IHs.
Qed.

End Insertion.

Lemma take_map (a : list R) (idx : list nat) :
  Forall (fun i => (i < length a)%nat) idx ->
  Np.take a idx = Ok (map (fun i => nth i a 0) idx).
Proof.
  induction idx as [| i idx IH]; intros H; simpl.
  - reflexivity.
  - inversion H as [| i' idx' Hi Hidx]; subst.
    unfold Np.getitem.
    rewrite (nth_error_nth' a 0 Hi). cbn [bind].
    rewrite (IH Hidx). reflexivity.
Qed.

Lemma combine_as_map (x p : list R) :
  length p = length x ->
  combine x p = map (fun i => (nth i x 0, nth i p 0)) (seq 0 (length x)).
Proof.
  revert p. induction x as [| u x IH]; intros [| v p] H; simpl in H;
    try discriminate; try reflexivity.
  cbn [length seq map combine nth]. f_equal.
  rewrite <- seq_shift, map_map. apply IH. lia.
Qed.

Lemma combine_maps (f g : nat -> R) (l : list nat) :
  combine (map f l) (map g l) = map (fun i => (f i, g i)) l.
Proof.
  induction l as [| i l IH]; simpl; [reflexivity | rewrite IH; reflexivity].
Qed.

Lemma sorted_map_fst (key : nat -> R * R) (l : list nat) :
  StronglySorted (by_key key) l ->
  StronglySorted Rle (map (fun i => fst (key i)) l).
Proof.
  induction 1 as [| i l Hs IH Hi]; simpl; constructor.
  - exact IH.
  - rewrite Forall_forall in *. intros u Hu.
    apply in_map_iff in Hu. destruct Hu as [j [<- Hj]].
    specialize (Hi j Hj). unfold by_key in Hi.
    apply key_le_spec in Hi. lra.
Qed.

(** The result of [sort_surface] on arrays of one length, spelled out. *)
Lemma sort_surface_returns (x p : list R) :
  length p = length x ->
  exists idx,
    sort_surface x p
    = Ok (map (fun i => nth i x 0) idx, map (fun i => nth i p 0) idx)
    /\ Permutation idx (seq 0 (length x))
    /\ StronglySorted (by_key (fun i => (nth i x 0, nth i p 0))) idx.
Proof.
  intros Hlen.
  destruct (sort_indices (fun i => (nth i x 0, nth i p 0)) (seq 0 (length x)))
    as [Hperm Hsorted].
  exists (fold_right (Np.insert_index (fun i => (nth i x 0, nth i p 0))) []
            (seq 0 (length x))).
  split; [| split; assumption].
  unfold sort_surface, Np.lexsort.
  rewrite Hlen, Nat.eqb_refl. cbn [bind].
  assert (Hin : Forall (fun i => (i < length x)%nat)
                  (fold_right
                     (Np.insert_index (fun i => (nth i x 0, nth i p 0))) []
                     (seq 0 (length x)))).
  { rewrite Forall_forall. intros i Hi.
    apply (Permutation_in _ Hperm) in Hi. apply in_seq in Hi. lia. }
  rewrite (take_map x _ Hin). cbn [bind].
  rewrite take_map by (rewrite Hlen; exact Hin).
  reflexivity.
Qed.

(** X1: on a surface with as many pressures as coordinates,
    [sort_surface] returns the coordinates in ascending order, and every
    pressure stays with its coordinate: the pairs (coordinate, pressure)
    of the result are the pairs of the input, rearranged. *)
Theorem sort_surface_sorts_pairs (x p : list R) :
  length p = length x ->
  exists x' p',
    sort_surface x p = Ok (x', p')
    /\ Permutation (combine x' p') (combine x p)
    /\ StronglySorted Rle x'
    /\ length x' = length x /\ length p' = length x.
Proof.
  intros Hlen.
  destruct (sort_surface_returns x p Hlen) as [idx [Hs [Hperm Hsorted]]].
  exists (map (fun i => nth i x 0) idx), (map (fun i => nth i p 0) idx).
  split; [exact Hs |].
  split; [| split; [| split]].
  - rewrite combine_maps, (combine_as_map x p Hlen).
    apply Permutation_map. exact Hperm.
  - exact (sorted_map_fst _ idx Hsorted).
  - rewrite length_map, (Permutation_length Hperm). apply length_seq.
  - rewrite length_map, (Permutation_length Hperm). apply length_seq.
Qed.

Lemma sort_surface_sorts_pairs_witness :
  exists x' p',
    sort_surface [0.6; 0.1; 0.3] [1; 5; 3] = Ok (x', p')
    /\ Permutation (combine x' p') (combine [0.6; 0.1; 0.3] [1; 5; 3])
    /\ StronglySorted Rle x'
    /\ length x' = length [0.6; 0.1; 0.3]
    /\ length p' = length [0.6; 0.1; 0.3].
Proof.
  apply (sort_surface_sorts_pairs [0.6; 0.1; 0.3] [1; 5; 3]). reflexivity.
Defined.


(** *** Boundary extension of sorted surfaces *)

Lemma bool_index_length {A : Type} (a : list A) :
  forall (m : list bool) (r : list A),
    Np.bool_index a m = Ok r ->
    length a = length m /\ length r = SetUpWindow.count m.
Proof.
  induction a as [| v a IH]; intros [| b m] r H; simpl in H;
    try discriminate.
  - injection H as <-. split; reflexivity.
  - destruct (Np.bool_index a m) as [r' | e] eqn:E; [| discriminate].
    cbn [bind] in H. injection H as <-.
    destruct (IH m r' E) as [Hl Hc].
    unfold SetUpWindow.count in *. split; [simpl; lia |].
    destruct b; simpl; lia.
Qed.

Lemma bool_index_returns {A : Type} (a : list A) :
  forall m : list bool,
    length a = length m -> exists r, Np.bool_index a m = Ok r.
Proof.
  induction a as [| v a IH]; intros [| b m] H; simpl in H; try discriminate.
  - exists []. reflexivity.
  - destruct (IH m) as [r Hr]; [lia |].
    simpl. rewrite Hr. cbn [bind]. eexists. reflexivity.
Qed.

Lemma sorted_distinct (l : list R) :
  StronglySorted Rle l -> NoDup l -> StronglySorted Rlt l.
Proof.
  induction 1 as [| u l Hs IH Hu]; intros Hnd; constructor.
  - apply IH. inversion Hnd. assumption.
  - inversion Hnd as [| u' l' Hnin Hnd']; subst.
    rewrite Forall_forall in *. intros v Hv.
    specialize (Hu v Hv).
    destruct (Req_dec u v) as [-> | Hne]; [contradiction | lra].
Qed.

Lemma sorted_snoc (l : list R) (a : R) :
  StronglySorted Rlt l -> (forall u, In u l -> u < a) ->
  StronglySorted Rlt (l ++ [a]).
Proof.
  induction 1 as [| u l Hs IH Hu]; intros Hlt; simpl.
  - constructor; constructor.
  - constructor.
    + apply IH. intros v Hv. apply Hlt. right. exact Hv.
    + apply Forall_app. split; [exact Hu |].
      constructor; [| constructor]. apply Hlt. left. reflexivity.
Qed.

Lemma sorted_last_bound (xs : list R) (x_last : R) :
  StronglySorted Rlt (xs ++ [x_last]) ->
  forall u, In u (xs ++ [x_last]) -> u <= x_last.
Proof.
  induction xs as [| v xs IH]; simpl; intros Hs u Hu.
  - destruct Hu as [<- | []]. lra.
  - inversion Hs as [| v' l' Hs' Hv]; subst.
    destruct Hu as [<- | Hu].
    + rewrite Forall_forall in Hv.
      assert (v < x_last) by (apply Hv, in_or_app; right; left; reflexivity).
      lra.
    + exact (IH Hs' u Hu).
Qed.

Lemma ends_with_one {A : Type} (l : list A) :
  (1 <= length l)%nat -> exists l' a, l = l' ++ [a].
Proof.
  intros H. destruct l as [| x l]; [simpl in H; lia |].
  destruct (exists_last (l := x :: l)) as [l' [a Ha]]; [discriminate |].
  exists l', a. exact Ha.
Qed.

Lemma ends_with_two {A : Type} (l : list A) :
  (2 <= length l)%nat -> exists l' b a, l = l' ++ [b; a].
Proof.
  intros H.
  destruct (ends_with_one l) as [l1 [a ->]]; [lia |].
  rewrite length_app in H. simpl in H.
  destruct (ends_with_one l1) as [l2 [b ->]]; [lia |].
  exists l2, b, a. rewrite <- app_assoc. reflexivity.
Qed.

(** What the interpolator needs of the knots of one surface, and what the
    boundary extension adds: strictly increasing abscissae, one pressure
    per abscissa, a first abscissa of at most 1e-5 and a last one of at
    least 0.99. *)
Definition spanning (kx kp : list R) : Prop :=
  StronglySorted Rlt kx
  /\ length kp = length kx
  /\ (2 <= length kx)%nat
  /\ hd 0 kx <= 0.00001
  /\ 0.99 <= last kx 0.

Definition anchored (kx kp : list R) : Prop :=
  StronglySorted Rlt kx
  /\ length kp = length kx
  /\ (2 <= length kx)%nat
  /\ 0.99 <= last kx 0.

Lemma trailing_anchored (x p x' p' : list R) :
  StronglySorted Rlt x -> length p = length x -> (2 <= length x)%nat ->
  (x' = x /\ p' = p /\ 0.99 <= last x 0)
  \/ (exists v, x' = x ++ [1] /\ p' = p ++ [v] /\ last x 0 < 0.99) ->
  anchored x' p'.
Proof.
  intros Hs Hl Hn [[-> [-> Hlast]] | [v [-> [-> Hlast]]]].
  - repeat split; assumption.
  - destruct (ends_with_one x) as [xs [x_last Hx]]; [lia |].
    subst x. rewrite last_last in Hlast.
    split; [| split; [| split]].
    + apply sorted_snoc; [exact Hs |].
      intros u Hu. pose proof (sorted_last_bound xs x_last Hs u Hu). lra.
    + rewrite !length_app in *. simpl in *. lia.
    + rewrite !length_app in *. simpl in *. lia.
    + rewrite last_last. lra.
Qed.

Lemma extend_trailing_top_anchored (x p : list R) :
  StronglySorted Rlt x -> length p = length x -> (2 <= length x)%nat ->
  exists x' p', extend_trailing_top x p = Ok (x', p') /\ anchored x' p'.
Proof.
  intros Hs Hl Hn.
  destruct (ends_with_one x) as [xs [x_last Hx]]; [lia |].
  destruct (ends_with_two p) as [ps [p2 [p1 Hp]]]; [lia |].
  destruct (Rlt_dec x_last 0.99) as [Hlt | Hge].
  - exists (x ++ [1]), (p ++ [p1]). split.
    + subst x p.
      apply CalculationsFacts.extend_trailing_top_appends. exact Hlt.
    + apply (trailing_anchored x p); try assumption.
      right. exists p1. repeat split. subst x. rewrite last_last. exact Hlt.
  - exists x, p. split.
    + subst x.
      apply CalculationsFacts.extend_trailing_top_keeps. lra.
    + apply (trailing_anchored x p); try assumption.
      left. repeat split. subst x. rewrite last_last. lra.
Qed.

Lemma extend_trailing_bottom_anchored (x_self x p : list R) :
  (2 <= length x_self)%nat ->
  StronglySorted Rlt x -> length p = length x -> (2 <= length x)%nat ->
  exists x' p',
    extend_trailing_bottom x_self x p = Ok (x', p') /\ anchored x' p'.
Proof.
  intros Hself Hs Hl Hn.
  destruct (ends_with_one x) as [xs [x_last Hx]]; [lia |].
  destruct (ends_with_two p) as [ps [p2 [p1 Hp]]]; [lia |].
  destruct (ends_with_two x_self) as [cs [c2 [c1 Hc]]]; [lia |].
  destruct (Rlt_dec x_last 0.99) as [Hlt | Hge].
  - exists (x ++ [1]), (p ++ [p2 + (p1 - p2) / (c1 - c2) * (1 - c2)]). split.
    + subst x p x_self.
      apply CalculationsFacts.extend_trailing_bottom_appends. exact Hlt.
    + apply (trailing_anchored x p); try assumption.
      right. eexists. repeat split. subst x. rewrite last_last. exact Hlt.
  - exists x, p. split.
    + subst x. unfold extend_trailing_bottom.
      rewrite getitem_neg_last. cbn [bind].
      rewrite Rltb_false by lra. reflexivity.
    + apply (trailing_anchored x p); try assumption.
      left. repeat split. subst x. rewrite last_last. lra.
Qed.

Lemma extend_leading_spanning (x p : list R) :
  anchored x p ->
  exists x' p', extend_leading x p = Ok (x', p') /\ spanning x' p'.
Proof.
  intros [Hs [Hl [Hn Hlast]]].
  destruct x as [| x0 xs]; [simpl in Hn; lia |].
  destruct (Rlt_dec 0.00001 x0) as [Hgt | Hle].
  - exists (0 :: x0 :: xs), (0 :: p). split.
    + apply CalculationsFacts.extend_leading_prepends. exact Hgt.
    + split; [| split; [| split; [| split]]].
      * constructor; [exact Hs |].
        inversion Hs as [| u l Hs' Hu]; subst.
        constructor; [lra |].
        rewrite Forall_forall in *. intros v Hv. specialize (Hu v Hv). lra.
      * simpl in *. lia.
      * simpl in *. lia.
      * simpl. lra.
      * exact Hlast.
  - exists (x0 :: xs), p. split.
    + apply CalculationsFacts.extend_leading_keeps. lra.
    + split; [| split; [| split; [| split]]]; try assumption.
      simpl. lra.
Qed.

Lemma boundary_extension_spanning (x_self x_top p_top x_bottom p_bottom : list R) :
  (2 <= length x_self)%nat ->
  StronglySorted Rlt x_top -> length p_top = length x_top ->
  (2 <= length x_top)%nat ->
  StronglySorted Rlt x_bottom -> length p_bottom = length x_bottom ->
  (2 <= length x_bottom)%nat ->
  exists kxt kpt kxb kpb,
    boundary_extension x_self x_top p_top x_bottom p_bottom
    = Ok ((kxt, kpt), (kxb, kpb))
    /\ spanning kxt kpt /\ spanning kxb kpb.
Proof.
  intros Hself Hst Hlt Hnt Hsb Hlb Hnb.
  destruct (extend_trailing_top_anchored x_top p_top Hst Hlt Hnt)
    as [xt1 [pt1 [Et1 Ht1]]].
  destruct (extend_trailing_bottom_anchored x_self x_bottom p_bottom
              Hself Hsb Hlb Hnb) as [xb1 [pb1 [Eb1 Hb1]]].
  destruct (extend_leading_spanning xt1 pt1 Ht1) as [xt2 [pt2 [Et2 Ht2]]].
  destruct (extend_leading_spanning xb1 pb1 Hb1) as [xb2 [pb2 [Eb2 Hb2]]].
  exists xt2, pt2, xb2, pb2.
  split; [| split; assumption].
  unfold boundary_extension.
  rewrite Et1. cbn [bind]. rewrite Eb1. cbn [bind].
  rewrite Et2. cbn [bind]. rewrite Eb2. reflexivity.
Qed.

Lemma sort_surface_increasing (x p : list R) :
  length p = length x -> NoDup x ->
  exists x' p',
    sort_surface x p = Ok (x', p')
    /\ StronglySorted Rlt x'
    /\ length x' = length x /\ length p' = length x.
Proof.
  intros Hlen Hnd.
  destruct (sort_surface_returns x p Hlen) as [idx [Hs [Hperm Hsorted]]].
  exists (map (fun i => nth i x 0) idx), (map (fun i => nth i p 0) idx).
  split; [exact Hs |].
  split; [| split].
  - apply sorted_distinct.
    + exact (sorted_map_fst _ idx Hsorted).
    + apply (Permutation_NoDup (l := x)); [| exact Hnd].
      rewrite (DataFacts.list_as_map_nth x) at 1.
      apply Permutation_map, Permutation_sym. exact Hperm.
  - rewrite length_map, (Permutation_length Hperm). apply length_seq.
  - rewrite length_map, (Permutation_length Hperm). apply length_seq.
Qed.

(** The knots of a worker whose two surfaces have at least two taps each,
    at distinct coordinates. *)
Lemma knots_returns (s : state) (m_top m_bottom : list bool)
    (x_top x_bottom : list R) :
  mask_top s = Some m_top -> mask_bottom s = Some m_bottom ->
  x_coordinates_top s = Some x_top ->
  x_coordinates_bottom s = Some x_bottom ->
  length (pressure_array s) = length m_top ->
  length (pressure_array s) = length m_bottom ->
  length x_top = SetUpWindow.count m_top ->
  length x_bottom = SetUpWindow.count m_bottom ->
  (2 <= length x_top)%nat -> (2 <= length x_bottom)%nat ->
  NoDup x_top -> NoDup x_bottom ->
  exists kxt kpt kxb kpb,
    knots s = Ok ((kxt, kpt), (kxb, kpb))
    /\ spanning kxt kpt /\ spanning kxb kpb.
Proof.
  intros Hmt Hmb Hxt Hxb Hlt Hlb Hct Hcb Hnt Hnb Hdt Hdb.
  destruct (bool_index_returns (pressure_array s) m_top Hlt) as [pt Ept].
  destruct (bool_index_returns (pressure_array s) m_bottom Hlb) as [pb Epb].
  destruct (bool_index_length _ _ _ Ept) as [_ Hpt].
  destruct (bool_index_length _ _ _ Epb) as [_ Hpb].
  destruct (sort_surface_increasing x_top pt) as [xt' [pt' [Est [Hst [Hxl Hpl]]]]];
    [congruence | exact Hdt |].
  destruct (sort_surface_increasing x_bottom pb)
    as [xb' [pb' [Esb [Hsb [Hxl' Hpl']]]]]; [congruence | exact Hdb |].
  destruct (boundary_extension_spanning x_bottom xt' pt' xb' pb')
    as [kxt [kpt [kxb [kpb [Eb [Ht Hb]]]]]];
    try assumption; try congruence; try lia.
  exists kxt, kpt, kxb, kpb. split; [| split; assumption].
  unfold knots. rewrite Hmt, Hmb, Hxt, Hxb. cbn [attr bind].
  rewrite Ept. cbn [bind]. rewrite Epb. cbn [bind].
  rewrite Est. cbn [bind]. rewrite Esb. cbn [bind]. exact Eb.
Qed.

(** X2: a configuration that passed the validation of the setup window
    (two or more taps on each surface, no coordinate twice on a surface),
    once received by a calculation worker whose pressure array has one
    entry per tap, always gives knots: on both surfaces the abscissae
    handed to the interpolator are strictly increasing, there is one
    pressure per abscissa, the first abscissa is at most 1e-5 and the last
    at least 0.99. *)
Theorem accepted_setup_gives_increasing_knots
    (c : state) (m_top m_bottom : list bool) (x : list R) :
  SetUpFacts.valid_configuration m_top m_bottom x ->
  length (pressure_array c) = length x ->
  let c' := fst (updateSetupData m_top m_bottom x c) in
  snd (updateSetupData m_top m_bottom x c) = Ok tt
  /\ exists kxt kpt kxb kpb,
       knots c' = Ok ((kxt, kpt), (kxb, kpb))
       /\ spanning kxt kpt /\ spanning kxb kpb.
Proof.
  intros [_ [Hnt [Hnb [top [bottom [Et [Eb [Hdt Hdb]]]]]]]] Hlen c'.
  destruct (bool_index_length _ _ _ Et) as [Hlt Hct].
  destruct (bool_index_length _ _ _ Eb) as [Hlb Hcb].
  assert (Hrun :
    updateSetupData m_top m_bottom x c
    = (set_setup (Some m_top) (Some m_bottom) (Some x)
         (Some top) (Some bottom) c, Ok tt)).
  { unfold updateSetupData, st_bind, st_modify, st_lift.
    rewrite Et, Eb. reflexivity. }
  unfold c'. rewrite Hrun. cbn [fst snd].
  split; [reflexivity |].
  apply (knots_returns _ m_top m_bottom top bottom);
    try reflexivity; cbn [pressure_array set_setup]; try congruence; try lia.
Qed.

Lemma accepted_setup_gives_increasing_knots_witness :
  exists kxt kpt kxb kpb,
    knots (fst (updateSetupData DataFacts.taps_top DataFacts.taps_bottom
                  DataFacts.tap_coordinates
                  CalculationsFacts.two_surface_state))
    = Ok ((kxt, kpt), (kxb, kpb))
    /\ spanning kxt kpt /\ spanning kxb kpb.
Proof.
  refine (proj2 (accepted_setup_gives_increasing_knots
                   CalculationsFacts.two_surface_state
                   DataFacts.taps_top DataFacts.taps_bottom
                   DataFacts.tap_coordinates _ _)).
  - split; [| split; [| split]].
    + intros i. do 16 (destruct i as [| i]; [reflexivity |]).
      destruct i; reflexivity.
    + vm_compute. lia.
    + vm_compute. lia.
    + exists [0.1; 0.3; 0.6; 0.9], [0.1; 0.3; 0.6; 0.9].
      repeat split; try reflexivity; exact SetUpFacts.distinct_coordinates.
  - reflexivity.
Defined.

End KnotFacts.

(** ** A calculation cycle that succeeds *)

Module ResultFacts.
Import Calculations.

Section WithInterpolator.

Variable Akima1DInterpolator : list R -> list R -> res (R -> R).

(** X3: a calculation requested before any setup data has arrived (the
    worker has no attribute [mask_top] yet) does not raise: the
    [AttributeError] is caught and logged, nothing is sent, and nothing
    else changes in the worker. *)
Theorem calculation_before_setup_is_logged (s : state) :
  mask_top s = None ->
  calculateLiftAndSplines Akima1DInterpolator s
  = (log_error AttributeError s, Ok tt)
  /\ sent (log_error AttributeError s) = sent s
  /\ logged (log_error AttributeError s) = logged s ++ [AttributeError].
Proof.
  intros Hmask.
  assert (Hknots : knots s = Raise AttributeError).
  { unfold knots. rewrite Hmask. reflexivity. }
  split; [| split; reflexivity].
  unfold calculateLiftAndSplines, st_try, pipeline, st_bind, st_get,
    st_lift, pressure_stage.
  rewrite Hknots. reflexivity.
Qed.

(** The state a successful run of the pipeline leaves, and the tuple it
    sends. *)
Lemma pipeline_success (s : state) (g it ib yt yb xt xb : list R) (l : R) :
  pressure_stage Akima1DInterpolator s = Ok (g, it, ib) ->
  wing_stage Akima1DInterpolator (set_splines it ib s) it ib
  = Ok (l, (yt, yb), (xt, xb)) ->
  pipeline Akima1DInterpolator s
  = (emit {| r_lift := l;
             r_spline_top := it;
             r_spline_bottom := ib;
             r_x_grid_interpolation := g;
             r_y_wing_top := yt;
             r_y_wing_bottom := yb;
             r_x_wing_interpolation_top := xt;
             r_x_wing_interpolation_bottom := xb;
             r_lift_data_available := true |}
       (set_lift l (set_splines it ib s)), Ok tt).
Proof.
  intros Hp Hw.
  unfold pipeline, st_bind, st_get, st_lift, st_modify.
  rewrite Hp, Hw. reflexivity.
Qed.

Lemma pressure_stage_grid (s : state) (g it ib : list R) :
  pressure_stage Akima1DInterpolator s = Ok (g, it, ib) ->
  g = Np.linspace 0 1 (number_of_interpolated_points s).
Proof.
  unfold pressure_stage. intros H.
  destruct (knots s) as [[[xt pt] [xb pb]] | e]; [| discriminate].
  cbn [bind] in H.
  destruct (Akima1DInterpolator xt pt) as [ft | e]; [| discriminate].
  cbn [bind] in H.
  destruct (Akima1DInterpolator xb pb) as [fb | e]; [| discriminate].
  cbn [bind] in H. injection H as <- _ _. reflexivity.
Qed.

Lemma wing_stage_lengths (s : state) (it ib yt yb xt xb : list R) (l : R) :
  wing_stage Akima1DInterpolator s it ib = Ok (l, (yt, yb), (xt, xb)) ->
  length yt = number_of_interpolated_points s
  /\ length yb = number_of_interpolated_points s
  /\ length xt = number_of_interpolated_points s
  /\ length xb = number_of_interpolated_points s.
Proof.
  unfold wing_stage. intros H.
  destruct (Np.getitem (x_wing_top s) 0) as [t0 | e]; [| discriminate].
  cbn [bind] in H.
  destruct (Np.getitem_neg (x_wing_top s) 1) as [t1 | e]; [| discriminate].
  cbn [bind] in H.
  destruct (Np.getitem (x_wing_bottom s) 0) as [b0 | e]; [| discriminate].
  cbn [bind] in H.
  destruct (Np.getitem_neg (x_wing_bottom s) 1) as [b1 | e];
    [| discriminate].
  cbn [bind] in H.
  destruct (Akima1DInterpolator (x_wing_top s) (y_wing_top s))
    as [gt | e]; [| discriminate].
  cbn [bind] in H.
  destruct (Akima1DInterpolator (x_wing_bottom s) (y_wing_bottom s))
    as [gb | e]; [| discriminate].
  cbn [bind] in H.
  match type of H with
  | bind ?m _ = _ => destruct m as [l' | e]; [| discriminate]
  end.
  cbn [bind] in H. injection H as _ <- <- <- <-.
  rewrite !length_map, !CycleFacts.length_linspace.
  repeat split; reflexivity.
Qed.

(** X4: when the pipeline runs to its end, the cycle sends exactly one
    tuple and logs nothing.  The tuple carries the lift and the two spline
    arrays the worker now holds and the flag [lift_data_available = True];
    all seven arrays have [number_of_interpolated_points] entries.  The
    plot worker and the data worker have both received it: the plot worker
    holds the new lift, the new arrays and the flag, the data worker the
    new lift. *)
Theorem successful_cycle_delivers_result (sys : Main.system) :
  snd (pipeline Akima1DInterpolator (Main.calculations_worker sys)) = Ok tt ->
  let sys' := Main.calculation_cycle Akima1DInterpolator sys in
  let c := Main.calculations_worker sys in
  let c' := Main.calculations_worker sys' in
  let n := number_of_interpolated_points c in
  exists t,
    sent c' = sent c ++ [t]
    /\ logged c' = logged c
    /\ lift c' = Some (r_lift t)
    /\ spline_top c' = r_spline_top t
    /\ spline_bottom c' = r_spline_bottom t
    /\ r_lift_data_available t = true
    /\ (length (r_spline_top t) = n /\ length (r_spline_bottom t) = n
        /\ length (r_x_grid_interpolation t) = n
        /\ length (r_y_wing_top t) = n /\ length (r_y_wing_bottom t) = n
        /\ length (r_x_wing_interpolation_top t) = n
        /\ length (r_x_wing_interpolation_bottom t) = n)
    /\ Main.plot_worker sys'
       = Plot.updateLiftAndSplines t (Main.plot_worker sys)
    /\ Plot.lift (Plot.self (Main.plot_worker sys')) = r_lift t
    /\ Plot.lift_data_available (Plot.self (Main.plot_worker sys')) = true
    /\ Data.lift (Data.self (Main.data_worker sys')) = r_lift t.
Proof.
  intros Hok sys' c c' n.
  destruct (CycleFacts.pipeline_returns Akima1DInterpolator c Hok)
    as [g [it [ib [Hp [[[l [yt yb]] [xt xb]] Hw]]]]].
  pose proof (pipeline_success c g it ib yt yb xt xb l Hp Hw) as Hrun.
  destruct (CycleFacts.pressure_stage_lengths Akima1DInterpolator c g it ib Hp)
    as [Hit Hib].
  pose proof (pressure_stage_grid c g it ib Hp) as Hg.
  destruct (wing_stage_lengths _ it ib yt yb xt xb l Hw)
    as [Hyt [Hyb [Hxt Hxb]]].
  cbn [number_of_interpolated_points set_splines] in Hyt, Hyb, Hxt, Hxb.
  eexists.
  unfold c', sys', Main.calculation_cycle.
  fold c. unfold calculateLiftAndSplines, st_try. rewrite Hrun.
  cbn [fst sent emit set_lift set_splines].
  rewrite skipn_app, skipn_all, Nat.sub_diag. cbn [app skipn fold_left].
  cbn [Main.calculations_worker Main.plot_worker Main.data_worker
         Main.deliver_result
         sent logged lift spline_top spline_bottom emit set_lift set_splines
         r_lift r_spline_top r_spline_bottom r_lift_data_available
         r_x_grid_interpolation r_y_wing_top r_y_wing_bottom
         r_x_wing_interpolation_top r_x_wing_interpolation_bottom].
  split; [reflexivity |]. split; [reflexivity |]. split; [reflexivity |].
  split; [reflexivity |]. split; [reflexivity |]. split; [reflexivity |].
  split.
  { unfold n. repeat split; try assumption.
    rewrite Hg. apply CycleFacts.length_linspace. }
  split; [reflexivity |]. split; [reflexivity |].
  split; reflexivity.
Qed.

(** *** When the pipeline cannot fail *)

(** An interpolator that accepts every set of knots with strictly
    increasing abscissae, one ordinate per abscissa and two knots at
    least. *)
Definition accepts_increasing_knots : Prop :=
  forall x y : list R,
    StronglySorted Rlt x -> length y = length x -> (2 <= length x)%nat ->
    returned (Akima1DInterpolator x y).

Lemma getitem_first (l : list R) :
  (1 <= length l)%nat -> Np.getitem l 0 = Ok (hd 0 l).
Proof.
  destruct l; simpl; intros H; [lia | reflexivity].
Qed.

Lemma getitem_neg_1 (l : list R) :
  (1 <= length l)%nat -> Np.getitem_neg l 1 = Ok (last l 0).
Proof.
  intros H. destruct (KnotFacts.ends_with_one l H) as [l' [a ->]].
  rewrite getitem_neg_last, last_last. reflexivity.
Qed.

Lemma pressure_stage_returns (s : state) (kxt kpt kxb kpb : list R) :
  accepts_increasing_knots ->
  knots s = Ok ((kxt, kpt), (kxb, kpb)) ->
  KnotFacts.spanning kxt kpt -> KnotFacts.spanning kxb kpb ->
  returned (pressure_stage Akima1DInterpolator s).
Proof.
  intros HA Hk [Hst [Hlt [Hnt _]]] [Hsb [Hlb [Hnb _]]].
  unfold pressure_stage. rewrite Hk. cbn [bind].
  destruct (HA kxt kpt Hst Hlt Hnt) as [ft ->]. cbn [bind].
  destruct (HA kxb kpb Hsb Hlb Hnb) as [fb ->]. cbn [bind].
  eexists. reflexivity.
Qed.

Lemma wing_stage_returns_increasing (s : state) (it ib : list R) :
  accepts_increasing_knots ->
  StronglySorted Rlt (x_wing_top s) ->
  length (y_wing_top s) = length (x_wing_top s) ->
  (2 <= length (x_wing_top s))%nat ->
  StronglySorted Rlt (x_wing_bottom s) ->
  length (y_wing_bottom s) = length (x_wing_bottom s) ->
  (2 <= length (x_wing_bottom s))%nat ->
  length it = number_of_interpolated_points s ->
  length ib = number_of_interpolated_points s ->
  returned (wing_stage Akima1DInterpolator s it ib).
Proof.
  intros HA Hst Hlt Hnt Hsb Hlb Hnb Hit Hib.
  unfold wing_stage.
  rewrite (getitem_first (x_wing_top s)) by lia. cbn [bind].
  rewrite (getitem_neg_1 (x_wing_top s)) by lia. cbn [bind].
  rewrite (getitem_first (x_wing_bottom s)) by lia. cbn [bind].
  rewrite (getitem_neg_1 (x_wing_bottom s)) by lia. cbn [bind].
  destruct (HA _ _ Hst Hlt Hnt) as [gt ->]. cbn [bind].
  destruct (HA _ _ Hsb Hlb Hnb) as [gb ->]. cbn [bind].
  rewrite CalculationsFacts.calculate_lift_returns
    by (rewrite ?length_map, ?CycleFacts.length_linspace; congruence).
  cbn [bind]. eexists. reflexivity.
Qed.

Lemma pipeline_returns_when (s : state) (kxt kpt kxb kpb : list R) :
  accepts_increasing_knots ->
  knots s = Ok ((kxt, kpt), (kxb, kpb)) ->
  KnotFacts.spanning kxt kpt -> KnotFacts.spanning kxb kpb ->
  StronglySorted Rlt (x_wing_top s) ->
  length (y_wing_top s) = length (x_wing_top s) ->
  (2 <= length (x_wing_top s))%nat ->
  StronglySorted Rlt (x_wing_bottom s) ->
  length (y_wing_bottom s) = length (x_wing_bottom s) ->
  (2 <= length (x_wing_bottom s))%nat ->
  snd (pipeline Akima1DInterpolator s) = Ok tt.
Proof.
  intros HA Hk Hkt Hkb Hst Hlt Hnt Hsb Hlb Hnb.
  destruct (pressure_stage_returns s kxt kpt kxb kpb HA Hk Hkt Hkb)
    as [[[g it] ib] Hp].
  destruct (CycleFacts.pressure_stage_lengths Akima1DInterpolator s g it ib Hp)
    as [Hit Hib].
  destruct (wing_stage_returns_increasing (set_splines it ib s) it ib HA)
    as [[[l [yt yb]] [xt xb]] Hw]; try assumption.
  rewrite (pipeline_success s g it ib yt yb xt xb l Hp Hw). reflexivity.
Qed.

(** X5: after a setup that passed the validation of the setup window, on a
    wing whose two outline curves have strictly increasing abscissae (as
    the profile reader checks) with one ordinate each, and with a pressure
    reading that has one entry per tap, a calculation cycle cannot fail
    before or after the interpolator: if the interpolator accepts every
    strictly increasing set of knots, the cycle sends a result and logs
    nothing. *)
Theorem cycle_after_accepted_setup_sends_result
    (c : state) (m_top m_bottom : list bool) (x : list R) :
  accepts_increasing_knots ->
  SetUpFacts.valid_configuration m_top m_bottom x ->
  length (pressure_array c) = length x ->
  StronglySorted Rlt (x_wing_top c) ->
  length (y_wing_top c) = length (x_wing_top c) ->
  (2 <= length (x_wing_top c))%nat ->
  StronglySorted Rlt (x_wing_bottom c) ->
  length (y_wing_bottom c) = length (x_wing_bottom c) ->
  (2 <= length (x_wing_bottom c))%nat ->
  let c1 := fst (updateSetupData m_top m_bottom x c) in
  let c2 := fst (calculateLiftAndSplines Akima1DInterpolator c1) in
  logged c2 = logged c
  /\ exists t, sent c2 = sent c ++ [t] /\ lift c2 = Some (r_lift t).
Proof.
  intros HA [_ [Hnt [Hnb [top [bottom [Et [Eb [Hdt Hdb]]]]]]]] Hlen
    Hst Hlt Hwt Hsb Hlb Hwb c1 c2.
  destruct (KnotFacts.bool_index_length _ _ _ Et) as [Hmt Hct].
  destruct (KnotFacts.bool_index_length _ _ _ Eb) as [Hmb Hcb].
  assert (Hc1 : c1 = set_setup (Some m_top) (Some m_bottom) (Some x)
                       (Some top) (Some bottom) c).
  { unfold c1, updateSetupData, st_bind, st_modify, st_lift.
    rewrite Et, Eb. reflexivity. }
  destruct (KnotFacts.knots_returns c1 m_top m_bottom top bottom)
    as [kxt [kpt [kxb [kpb [Hk [Hkt Hkb]]]]]];
    try (rewrite Hc1; reflexivity);
    try (rewrite Hc1; cbn [pressure_array set_setup]; congruence);
    try congruence; try lia.
  assert (Hok : snd (pipeline Akima1DInterpolator c1) = Ok tt).
  { apply (pipeline_returns_when c1 kxt kpt kxb kpb); try assumption;
      rewrite Hc1; assumption. }
  destruct (CycleFacts.pipeline_returns Akima1DInterpolator c1 Hok)
    as [g [it [ib [Hp [[[l [yt yb]] [xt xb]] Hw]]]]].
  pose proof (pipeline_success c1 g it ib yt yb xt xb l Hp Hw) as Hrun.
  unfold c2, calculateLiftAndSplines, st_try. rewrite Hrun.
  cbn [fst logged sent lift emit set_lift set_splines].
  rewrite Hc1. cbn [logged sent set_setup].
  split; [reflexivity |].
  eexists. split; reflexivity.
Qed.

End WithInterpolator.

(** *** A concrete cycle *)

(** An interpolator that answers every set of knots with the constant
    function zero, and the system around the worker of
    [two_surface_state]. *)
Definition flat_interpolator (x y : list R) : res (R -> R) := Ok (fun _ => 0).

Definition two_surface_system : Main.system :=
  {| Main.setup_window := SetUpFacts.accepted_window;
     Main.data_worker := DataFacts.bench 1 [];
     Main.plot_worker := PlotFacts.cold_plot (false, true, false);
     Main.calculations_worker := CalculationsFacts.two_surface_state;
     Main.show_plot_button := true |}.

Lemma flat_interpolator_accepts : accepts_increasing_knots flat_interpolator.
Proof. intros x y _ _ _. eexists. reflexivity. Qed.

Lemma sorted_pair : StronglySorted Rlt [0; 1].
Proof.
  repeat constructor. lra.
Qed.

Lemma two_surface_pipeline :
  snd (pipeline flat_interpolator CalculationsFacts.two_surface_state) = Ok tt.
Proof.
  destruct (KnotFacts.knots_returns CalculationsFacts.two_surface_state
              [true; true; true; false; false; false; false; false;
               false; false; false; false; false; false; false; false]
              [false; false; false; true; true; true; false; false;
               false; false; false; false; false; false; false; false]
              [0.1; 0.3; 0.6] [0.1; 0.3; 0.6])
    as [kxt [kpt [kxb [kpb [Hk [Hkt Hkb]]]]]];
    try reflexivity; try (vm_compute; lia);
    try (repeat constructor; simpl; intros H;
         repeat (destruct H as [H | H]; [lra |]); exact H).
  apply (pipeline_returns_when flat_interpolator _ kxt kpt kxb kpb);
    try assumption; try reflexivity; try (vm_compute; lia);
    try exact sorted_pair.
  exact flat_interpolator_accepts.
Qed.

Lemma calculation_before_setup_is_logged_witness :
  calculateLiftAndSplines flat_interpolator
    (set_setup None None None None None CalculationsFacts.two_surface_state)
  = (log_error AttributeError
       (set_setup None None None None None
          CalculationsFacts.two_surface_state), Ok tt).
Proof.
  exact (proj1 (calculation_before_setup_is_logged flat_interpolator
                  (set_setup None None None None None
                     CalculationsFacts.two_surface_state) eq_refl)).
Defined.

Lemma successful_cycle_delivers_result_witness :
  exists t,
    sent (Main.calculations_worker
            (Main.calculation_cycle flat_interpolator two_surface_system))
    = [t]
    /\ Plot.lift_data_available
         (Plot.self (Main.plot_worker
            (Main.calculation_cycle flat_interpolator two_surface_system)))
       = true.
Proof.
  destruct (successful_cycle_delivers_result flat_interpolator
              two_surface_system two_surface_pipeline)
    as [t [Hsent [_ [_ [_ [_ [_ [_ [_ [_ [Hflag _]]]]]]]]]]].
  exists t. split; [exact Hsent | exact Hflag].
Defined.

Lemma cycle_after_accepted_setup_sends_result_witness :
  exists t,
    sent (fst (calculateLiftAndSplines flat_interpolator
                 (fst (updateSetupData DataFacts.taps_top
                         DataFacts.taps_bottom DataFacts.tap_coordinates
                         CalculationsFacts.two_surface_state))))
    = [] ++ [t].
Proof.
  destruct (cycle_after_accepted_setup_sends_result flat_interpolator
              CalculationsFacts.two_surface_state
              DataFacts.taps_top DataFacts.taps_bottom
              DataFacts.tap_coordinates flat_interpolator_accepts)
    as [_ [t [Hsent _]]].
  - split; [| split; [| split]].
    + intros i. do 16 (destruct i as [| i]; [reflexivity |]).
      destruct i; reflexivity.
    + vm_compute. lia.
    + vm_compute. lia.
    + exists [0.1; 0.3; 0.6; 0.9], [0.1; 0.3; 0.6; 0.9].
      repeat split; try reflexivity; exact SetUpFacts.distinct_coordinates.
  - reflexivity.
  - exact sorted_pair.
  - reflexivity.
  - vm_compute. lia.
  - exact sorted_pair.
  - reflexivity.
  - vm_compute. lia.
  - exists t. exact Hsent.
Defined.

End ResultFacts.

(** ** The lift in closed form *)

Module LiftFacts.
Import Calculations.

Lemma cos_atan_pos (z : R) : 0 < cos (atan z).
Proof.
  destruct (atan_bound z) as [Hlo Hhi].
  apply cos_gt_0; lra.
Qed.

(** The sum, over the panels of one surface, of the pressure at the right
    end of the panel times the chordwise length of the panel. *)
Definition pressure_moment (chord_length : R) (x p : list R) : R :=
  Np.sum (map (fun i =>
                 nth (S i) p 0 * ((nth (S i) x 0 - nth i x 0) * chord_length))
            (seq 0 (length x - 1))).

Lemma sum_map_scale (k : R) (f g : nat -> R) (l : list nat) :
  (forall i, f i = k * g i) ->
  Np.sum (map f l) = k * Np.sum (map g l).
Proof.
  intros H. induction l as [| i l IH]; unfold Np.sum in *; simpl.
  - lra.
  - rewrite IH, H. lra.
Qed.

(** In a panel the inclination cancels: the area carries [1 / cos alpha],
    the normal component [cos alpha], and [cos (atan z)] is never zero. *)
Lemma spec_surface_flat (sgn w c : R) (x y p : list R) :
  spec_surface sgn w c x y p = sgn * w * pressure_moment c x p.
Proof.
  unfold spec_surface, pressure_moment.
  apply sum_map_scale. intros i. unfold spec_panel.
  pose proof (cos_atan_pos
                ((nth (S i) y 0 - nth i y 0)
                 / ((nth (S i) x 0 - nth i x 0) * c))) as Hcos.
  cbv zeta. field. lra.
Qed.

(** X6: in exact arithmetic the lift that [calculateLiftAndSplines]
    computes does not depend on the ordinates of the wing curves.  On
    arrays sampled on one grid per surface it is the width times the
    difference of two sums, one per surface, of the interpolated pressure
    at the right end of each panel times the chordwise length of the
    panel, times the cosine of the angle of attack: the inclination of a
    panel enters the area and the normal component and cancels. *)
Theorem lift_ignores_wing_ordinates
    (w c angle : R) (xt yt xb yb pt pb : list R) :
  length yt = length xt -> length pt = length xt ->
  length yb = length xb -> length pb = length xb ->
  calculate_lift w c angle xt yt xb yb pt pb
  = Ok (w * (pressure_moment c xt pt - pressure_moment c xb pb)
        * cos (Np.deg2rad angle))
  /\ forall yt' yb' : list R,
       length yt' = length xt -> length yb' = length xb ->
       calculate_lift w c angle xt yt' xb yb' pt pb
       = calculate_lift w c angle xt yt xb yb pt pb.
Proof.
  intros Hyt Hpt Hyb Hpb.
  assert (Hclosed : forall yt' yb' : list R,
    length yt' = length xt -> length yb' = length xb ->
    calculate_lift w c angle xt yt' xb yb' pt pb
    = Ok (w * (pressure_moment c xt pt - pressure_moment c xb pb)
          * cos (Np.deg2rad angle))).
  { intros yt' yb' Hyt' Hyb'.
    rewrite CalculationsFacts.calculate_lift_returns by assumption.
    rewrite (CalculationsFacts.code_terms_sum (fun a => -1 * cos a) (-1) w c)
      by auto.
    rewrite (CalculationsFacts.code_terms_sum cos 1 w c)
      by (auto; intros; ring).
    rewrite !spec_surface_flat. f_equal. ring. }
  split.
  - apply Hclosed; assumption.
  - intros yt' yb' Hyt' Hyb'.
    rewrite (Hclosed yt' yb' Hyt' Hyb'), (Hclosed yt yb Hyt Hyb).
    reflexivity.
Qed.

Lemma lift_ignores_wing_ordinates_witness :
  calculate_lift 1 1 0 [0; 1] [0; 5] [0; 1] [0; -3] [0; 1] [0; 0]
  = calculate_lift 1 1 0 [0; 1] [0; 0] [0; 1] [0; 0] [0; 1] [0; 0].
Proof.
  apply (proj2 (lift_ignores_wing_ordinates 1 1 0
                  [0; 1] [0; 0] [0; 1] [0; 0] [0; 1] [0; 0]
                  eq_refl eq_refl eq_refl eq_refl));
    reflexivity.
Defined.

End LiftFacts.

(** ** Opening a device and querying it *)

Module ConnectionFacts.
Import SerialDevices.

(** X7: [Device.__init__] either returns a device that is marked as
    connected, carries the port name and the arity it was given and holds
    an open port from which exactly one line, the answer to the command
    [Rate 0], has been read; or it raises the one exception
    [Exception("ERROR connecting devices.")], which happens exactly when
    the port could not be opened or is not open. *)
Theorem init_connects_or_raises
    (opened : res Serial.port) (port_name : string) (shape : nat) :
  match init opened port_name shape with
  | Ok d =>
      connection_established d = true
      /\ device_port d = port_name
      /\ expected_shape d = shape
      /\ Serial.is_open (ser_dev d) = true
      /\ exists p,
           opened = Ok p /\ Serial.is_open p = true
           /\ Serial.incoming (ser_dev d) = tl (Serial.incoming p)
  | Raise e =>
      e = Exception_ "ERROR connecting devices."
      /\ (raised opened
          \/ exists p, opened = Ok p /\ Serial.is_open p = false)
  end.
Proof.
  destruct opened as [[o inc] | e0].
  - destruct o.
    + destruct inc as [| line rest];
        (repeat split; try reflexivity;
         eexists; repeat split; reflexivity).
    + split; [reflexivity |]. right. eexists. split; reflexivity.
  - split; [reflexivity |]. left. exists e0. reflexivity.
Qed.

Lemma init_returns_connected
    (opened : res Serial.port) (port_name : string) (shape : nat)
    (d : Device) :
  init opened port_name shape = Ok d ->
  connection_established d = true /\ expected_shape d = shape.
Proof.
  unfold init. intros H.
  match type of H with
  | match ?m with _ => _ end = _ => destruct m as [p | e]
  end; [| discriminate].
  injection H as <-. split; reflexivity.
Qed.

Section WithParser.

Variable decode : string -> res string.
Variable fromstring : string -> list R.

(** The three outcomes of a query: an array of the declared arity,
    Python's [None] from a device that is not connected, or the one
    exception of [getNewData]. *)
Definition answer_of_arity (shape : nat) (r : res (option (list R))) : Prop :=
  match r with
  | Ok (Some a) => length a = shape
  | Ok None => False
  | Raise e => e = Exception_ "ERROR in method getNewData."
  end.

Lemma getNewData_outcome (d : Device) :
  let d' := fst (getNewData decode fromstring d) in
  connection_established d' = connection_established d
  /\ expected_shape d' = expected_shape d
  /\ device_port d' = device_port d
  /\ match snd (getNewData decode fromstring d) with
     | Ok (Some a) =>
         connection_established d = true
         /\ length a = expected_shape d
         /\ Serial.is_open (ser_dev d) = true
         /\ Serial.is_open (ser_dev d') = true
     | Ok None => connection_established d = false /\ d' = d
     | Raise e => e = Exception_ "ERROR in method getNewData."
     end.
Proof.
  destruct d as [c name shape [o inc]].
  destruct c; [| repeat split; reflexivity].
  destruct o;
    [| rewrite SerialDevicesFacts.getNewData_closed by reflexivity;
       repeat split; reflexivity].
  unfold getNewData, st_try, st_bind, st_get, on_port, st_zoom, st_lift,
    st_ret, st_raise, Serial.reset_input_buffer, Serial.write,
    Serial.readline, Serial.close, Serial.guard_open, st_bind, st_modify.
  cbn [connection_established ser_dev set_ser_dev Serial.is_open
         Serial.incoming expected_shape device_port fst snd].
  destruct inc as [| line rest];
    cbn [connection_established ser_dev set_ser_dev Serial.is_open
           Serial.incoming expected_shape device_port fst snd].
  - destruct (decode EmptyString) as [text | e];
      cbn [connection_established ser_dev set_ser_dev Serial.is_open
             Serial.incoming expected_shape device_port fst snd];
      [| repeat split; reflexivity].
    destruct (Nat.eqb_spec (length (fromstring text)) shape) as [He | Hne];
      cbn [connection_established ser_dev set_ser_dev Serial.is_open
             Serial.incoming expected_shape device_port fst snd];
      repeat split; try reflexivity; assumption.
  - destruct (decode line) as [text | e];
      cbn [connection_established ser_dev set_ser_dev Serial.is_open
             Serial.incoming expected_shape device_port fst snd];
      [| repeat split; reflexivity].
    destruct (Nat.eqb_spec (length (fromstring text)) shape) as [He | Hne];
      cbn [connection_established ser_dev set_ser_dev Serial.is_open
             Serial.incoming expected_shape device_port fst snd];
      repeat split; try reflexivity; assumption.
Qed.

Lemma poll_answers (shape : nat) (n : nat) :
  forall d : Device,
    connection_established d = true -> expected_shape d = shape ->
    Forall (answer_of_arity shape) (fst (SerialDevicesFacts.poll decode fromstring n d)).
Proof.
  induction n as [| n IH]; intros d Hc Hs; cbn [SerialDevicesFacts.poll].
  - constructor.
  - pose proof (getNewData_outcome d) as Hout. cbv zeta in Hout.
    destruct (getNewData decode fromstring d) as [d1 r].
    cbn [fst snd] in Hout. destruct Hout as [Hc1 [Hs1 [_ Hr]]].
    specialize (IH d1).
    destruct (SerialDevicesFacts.poll decode fromstring n d1) as [rs d2].
    cbn [fst] in *. constructor.
    + destruct r as [[a |] | e]; cbn [answer_of_arity].
      * destruct Hr as [_ [Hl _]]. congruence.
      * destruct Hr as [Hf _]. congruence.
      * exact Hr.
    + apply IH; congruence.
Qed.

(** X8: a device that [Device.__init__] has returned never answers
    [None]: however often it is queried, and whatever the instrument
    sends, every query either returns an array of exactly the arity the
    device was constructed with or raises
    [Exception("ERROR in method getNewData.")]. *)
Theorem constructed_device_answers_or_raises
    (opened : res Serial.port) (port_name : string) (shape : nat)
    (d : Device) (n : nat) :
  init opened port_name shape = Ok d ->
  Forall (answer_of_arity shape)
    (fst (SerialDevicesFacts.poll decode fromstring n d)).
Proof.
  intros Hinit.
  destruct (init_returns_connected opened port_name shape d Hinit)
    as [Hc Hs].
  apply poll_answers; assumption.
Qed.

End WithParser.

(** A port on which the instrument acknowledges the rate command and then
    answers two queries, the second time with one number too few. *)
Definition fresh_port : Serial.port :=
  {| Serial.is_open := true;
     Serial.incoming :=
       ["ok"%string;
        ("21" ++ SerialDevicesFacts.tab ++ "98" ++ SerialDevicesFacts.tab
         ++ "40" ++ SerialDevicesFacts.tab ++ "1")%string;
        ("21" ++ SerialDevicesFacts.tab ++ "98" ++ SerialDevicesFacts.tab
         ++ "40")%string] |}.

Definition density_sensor : Device :=
  {| connection_established := true;
     device_port := "/dev/ttyACM1";
     expected_shape := 4;
     ser_dev := {| Serial.is_open := true;
                   Serial.incoming := tl (Serial.incoming fresh_port) |} |}.

Lemma constructed_device_answers_or_raises_witness :
  init (Ok fresh_port) "/dev/ttyACM1" 4 = Ok density_sensor
  /\ Forall (answer_of_arity 4)
       (fst (SerialDevicesFacts.poll Ok SerialDevicesFacts.unsigned_fromstring
               3 density_sensor)).
Proof.
  split; [reflexivity |].
  apply (constructed_device_answers_or_raises
           Ok SerialDevicesFacts.unsigned_fromstring
           (Ok fresh_port) "/dev/ttyACM1" 4 density_sensor 3).
  reflexivity.
Defined.

End ConnectionFacts.

(** ** The acquisition loop and the save action *)

Module AcquisitionFacts.
Import Data.

(** *** What acquisition leaves alone *)

(** The attributes that only the slots of the worker assign. *)
Definition settings (a : attrs) :=
  (path a, number_of_measurements a, header a, lift a,
   (angle a, velocity a, width a),
   (demo_mode a, demo_pressure a, demo_density a,
    demo_pressure_factor a, demo_density_factor a),
   (mask_top a, mask_bottom a, x_coordinates a,
    x_coordinates_top a, x_coordinates_bottom a)).

(** From [w] to [w1] no file is written, no setting changes, the signals
    and the log only grow, and the surroundings allow the same files to be
    created. *)
Definition frame (w w1 : world) : Prop :=
  files w1 = files w
  /\ now_time w1 = now_time w
  /\ total_time_measurements w1 = total_time_measurements w
  /\ settings (self w1) = settings (self w)
  /\ (exists l, emitted w1 = emitted w ++ l)
  /\ (exists l, logged w1 = logged w ++ l)
  /\ creatable w1 = creatable w.

Lemma frame_refl (w : world) : frame w w.
Proof.
  repeat split; try reflexivity; exists []; rewrite app_nil_r; reflexivity.
Qed.

Lemma frame_trans (w w1 w2 : world) : frame w w1 -> frame w1 w2 -> frame w w2.
Proof.
  intros [Hf [Hn [Ht [Hs [[l He] [[l' Hl] Hc]]]]]]
         [Hf2 [Hn2 [Ht2 [Hs2 [[l2 He2] [[l2' Hl2] Hc2]]]]]].
  repeat split; try congruence.
  - exists (l ++ l2). rewrite He2, He, app_assoc. reflexivity.
  - exists (l' ++ l2'). rewrite Hl2, Hl, app_assoc. reflexivity.
Qed.

(** A step is tidy when it stays inside the frame and logs nothing unless
    it raises. *)
Definition tidy {A : Type} (m : stm world A) : Prop :=
  forall w,
    frame w (fst (m w))
    /\ (forall a, snd (m w) = Ok a -> logged (fst (m w)) = logged w).

Lemma tidy_ret {A : Type} (a : A) : tidy (st_ret a).
Proof. intros w. split; [apply frame_refl | reflexivity]. Qed.

Lemma tidy_get : tidy (@st_get world).
Proof. intros w. split; [apply frame_refl | reflexivity]. Qed.

Lemma tidy_lift {A : Type} (r : res A) : tidy (st_lift r).
Proof. intros w. split; [apply frame_refl | reflexivity]. Qed.

Lemma tidy_raise {A : Type} (e : exn) : tidy (@st_raise world A e).
Proof. intros w. split; [apply frame_refl | reflexivity]. Qed.

Lemma tidy_bind {A B : Type} (m : stm world A) (k : A -> stm world B) :
  tidy m -> (forall a, tidy (k a)) -> tidy (st_bind m k).
Proof.
  intros Hm Hk w. unfold st_bind.
  destruct (Hm w) as [Hf Hq].
  destruct (m w) as [w1 [a | e]]; cbn [fst snd] in *.
  - destruct (Hk a w1) as [Hf1 Hq1]. split.
    + exact (frame_trans _ _ _ Hf Hf1).
    + intros b Hb. rewrite (Hq1 b Hb). exact (Hq a eq_refl).
  - split; [exact Hf | discriminate].
Qed.

Lemma tidy_emit (sg : signal) : tidy (emit sg).
Proof.
  intros w. split; [| reflexivity].
  repeat split; try reflexivity.
  - exists [sg]. reflexivity.
  - exists []. rewrite app_nil_r. reflexivity.
Qed.

Lemma tidy_next_draw : tidy next_draw.
Proof.
  intros w. split; [| reflexivity].
  repeat split; try reflexivity; exists []; rewrite app_nil_r; reflexivity.
Qed.

Lemma tidy_modify (f : attrs -> attrs) :
  (forall a, settings (f a) = settings a) ->
  tidy (st_modify (set_self f)).
Proof.
  intros Hf w. split; [| reflexivity].
  repeat split; try reflexivity; try apply Hf;
    exists []; rewrite app_nil_r; reflexivity.
Qed.

(** A handler that logs the exception and raises another one. *)
Lemma tidy_try_reraise {A : Type} (body : stm world A) (e' : exn) :
  tidy body ->
  tidy (st_try body (fun err => log_error err >>> st_raise e')).
Proof.
  intros Hb w. unfold st_try.
  destruct (Hb w) as [Hf Hq].
  destruct (body w) as [w1 [a | e]]; cbn [fst snd] in *.
  - split; [exact Hf | intros b _; exact (Hq a eq_refl)].
  - split; [| discriminate].
    apply (frame_trans _ _ _ Hf).
    repeat split; try reflexivity.
    + exists []. rewrite app_nil_r. reflexivity.
    + exists [e]. reflexivity.
Qed.

Section WithParser.

Variable decode : string -> res string.
Variable fromstring : string -> list R.

Lemma tidy_query_pressure : tidy (query_pressure decode fromstring).
Proof.
  unfold query_pressure.
  apply tidy_bind; [apply tidy_get |]. intros w0.
  apply tidy_bind; [apply tidy_lift |]. intros dev.
  destruct (SerialDevices.getNewData decode fromstring dev) as [dev' r].
  apply tidy_bind; [apply tidy_modify; reflexivity |]. intros _.
  apply tidy_bind; [apply tidy_lift |]. intros data.
  apply tidy_modify. reflexivity.
Qed.

Lemma tidy_query_density : tidy (query_density decode fromstring).
Proof.
  unfold query_density.
  apply tidy_bind; [apply tidy_get |]. intros w0.
  apply tidy_bind; [apply tidy_lift |]. intros dev.
  destruct (SerialDevices.getNewData decode fromstring dev) as [dev' r].
  apply tidy_bind; [apply tidy_modify; reflexivity |]. intros _.
  apply tidy_bind; [apply tidy_lift |]. intros data.
  apply tidy_modify. reflexivity.
Qed.

Lemma tidy_readData : tidy (readData decode fromstring).
Proof.
  unfold readData. apply tidy_try_reraise.
  apply tidy_bind; [apply tidy_get |]. intros w0.
  destruct (demo_mode (self w0)).
  - apply tidy_bind; [apply tidy_emit |]. intros _.
    apply tidy_bind; [apply tidy_next_draw |]. intros [r16 r4].
    apply tidy_bind; [apply tidy_lift |]. intros p.
    apply tidy_bind; [apply tidy_modify; reflexivity |]. intros _.
    apply tidy_bind; [apply tidy_lift |]. intros d.
    apply tidy_modify. reflexivity.
  - apply tidy_bind; [apply tidy_query_pressure |]. intros _.
    apply tidy_query_density.
Qed.

Lemma tidy_sendData : tidy sendData.
Proof.
  unfold sendData.
  apply tidy_bind; [apply tidy_get |]. intros w0. apply tidy_emit.
Qed.

Lemma tidy_acquire (rounds : nat) : tidy (acquire decode fromstring rounds).
Proof.
  induction rounds as [| k IH]; cbn [acquire].
  - apply tidy_ret.
  - apply tidy_bind; [apply tidy_readData |]. intros _.
    apply tidy_bind; [apply tidy_sendData |]. intros _.
    apply tidy_bind; [apply tidy_emit |]. intros _.
    exact IH.
Qed.

Lemma tidy_measure (n : nat) : tidy (measure decode fromstring n).
Proof.
  induction n as [| k IH]; cbn [measure].
  - apply tidy_ret.
  - apply tidy_bind; [apply tidy_emit |]. intros _.
    apply tidy_bind; [apply tidy_readData |]. intros _.
    apply tidy_bind; [apply tidy_sendData |]. intros _.
    apply tidy_bind; [apply tidy_get |]. intros w0.
    apply tidy_bind; [apply tidy_lift |]. intros p.
    apply tidy_bind; [apply tidy_lift |]. intros row_p.
    apply tidy_bind; [apply tidy_lift |]. intros d.
    apply tidy_bind; [apply tidy_lift |]. intros row_d.
    apply tidy_bind; [exact IH |]. intros [[ps ds] ls].
    apply tidy_ret.
Qed.

Lemma tidy_averaged : tidy (averaged decode fromstring).
Proof.
  unfold averaged.
  apply tidy_bind; [apply tidy_get |]. intros w0.
  apply tidy_bind; [apply tidy_measure |]. intros [[ps ds] ls].
  apply tidy_ret.
Qed.

(** *** The exceptions of the loop *)

Definition readData_error : exn := Exception_ "ERROR in method readData.".

Lemma readData_raises (w : world) (e : exn) :
  snd (readData decode fromstring w) = Raise e -> e = readData_error.
Proof.
  unfold readData, st_try.
  match goal with
  | |- context [match ?b w with _ => _ end] => destruct (b w) as [w1 [[] | e0]]
  end; cbn [snd].
  - discriminate.
  - unfold st_bind, log_error, st_modify, st_raise. cbn [snd].
    intros H. injection H as <-. reflexivity.
Qed.

Lemma acquire_raises (rounds : nat) :
  forall (w : world) (e : exn),
    snd (acquire decode fromstring rounds w) = Raise e -> e = readData_error.
Proof.
  induction rounds as [| k IH]; intros w e; cbn [acquire].
  - discriminate.
  - unfold st_bind at 1.
    pose proof (readData_raises w) as Hr.
    destruct (readData decode fromstring w) as [w1 [[] | e1]];
      cbn [snd] in *.
    + unfold st_bind at 1. unfold sendData, st_bind at 1, st_get, emit,
        st_modify. cbn [fst snd].
      unfold st_bind at 1. cbn [fst snd].
      apply IH.
    + intros H. injection H as <-. apply Hr. reflexivity.
Qed.


(** What [readDataLoop] emits when a reading has failed. *)
Definition loop_failure_signals : list signal :=
  [update_info_label_sig
     "There was an Error getting new Data from devices! Close window and rerun setup!"
     "red";
   switch_plot_button_sig false;
   switch_save_button_sig false].

Lemma readDataLoop_unfolded (rounds : nat) (w : world) :
  readDataLoop decode fromstring rounds w
  = match acquire decode fromstring rounds (set_self (with_stop_flag false) w)
    with
    | (w1, Ok _) => (set_self (with_stop_flag true) w1, Ok tt)
    | (w1, Raise e) =>
        (fst (log_error e
                (fst (emit (switch_save_button_sig false)
                        (fst (emit (switch_plot_button_sig false)
                                (fst (emit (update_info_label_sig
                                              "There was an Error getting new Data from devices! Close window and rerun setup!"
                                              "red") w1))))))),
         Ok tt)
    end.
Proof.
  unfold readDataLoop, st_try, st_bind, st_modify.
  destruct (acquire decode fromstring rounds
              (set_self (with_stop_flag false) w)) as [w1 [[] | e]];
    reflexivity.
Qed.

(** X9: [readDataLoop] never lets an exception escape and never writes a
    file.  Either all its rounds succeed, and then nothing is logged; or a
    reading fails, and then the last three signals of the loop turn the
    info label red and switch the plot button and the save button off, and
    the last entry of the log is the exception of [readData]. *)
Theorem readDataLoop_never_raises (rounds : nat) (w : world) :
  let w' := fst (readDataLoop decode fromstring rounds w) in
  snd (readDataLoop decode fromstring rounds w) = Ok tt
  /\ files w' = files w
  /\ ((logged w' = logged w /\ stop_flag (self w') = true)
      \/ (exists l l',
            emitted w' = emitted w ++ l ++ loop_failure_signals
            /\ logged w' = logged w ++ l' ++ [readData_error])).
Proof.
  intros w'. unfold w'. rewrite readDataLoop_unfolded.
  destruct (tidy_acquire rounds (set_self (with_stop_flag false) w))
    as [[Hf [_ [_ [_ [[l He] [[l' Hl] _]]]]]] Hq].
  pose proof (acquire_raises rounds (set_self (with_stop_flag false) w))
    as Hr.
  destruct (acquire decode fromstring rounds
              (set_self (with_stop_flag false) w)) as [w1 [[] | e]];
    cbn [fst snd] in *.
  - split; [reflexivity |]. split; [exact Hf |].
    left. split; [exact (Hq tt eq_refl) | reflexivity].
  - split; [reflexivity |]. split; [exact Hf |].
    right. exists l, l'. rewrite (Hr e eq_refl).
    unfold emit, log_error, st_modify. cbn [fst emitted logged].
    rewrite He, Hl. unfold loop_failure_signals.
    rewrite <- !app_assoc. split; reflexivity.
Qed.

(** *** Demo mode *)

Lemma zip_with_bounds (f : R) (d r : list R) :
  0 <= f -> (forall u, In u r -> 0 <= u < 1) ->
  Forall2 (fun base p => base <= p <= base + f)
    (firstn (length r) d) (Np.zip_with Rplus d (Np.scale_r r f)).
Proof.
  intros Hf. revert r. induction d as [| b d IH]; intros [| u r] Hr;
    simpl; try constructor.
  - assert (0 <= u < 1) by (apply Hr; left; reflexivity).
    split; nra.
  - apply IH. intros v Hv. apply Hr. right. exact Hv.
Qed.

(** X10: in demo mode [readData] reads no device (it works without any):
    it announces the demo mode, and the pressure and environment arrays
    it stores are the demo arrays plus the next random draws scaled by
    the two factors; with draws in [0, 1) and a factor that is not
    negative, every stored pressure lies between its demo value and that
    value plus the factor.  Nothing is logged. *)
Theorem readData_demo_mode (w : world) (r16 r4 : list R) :
  demo_mode (self w) = true ->
  random_draws w (draws w) = (r16, r4) ->
  length r16 = length (demo_pressure (self w)) ->
  length r4 = length (demo_density (self w)) ->
  let w1 := fst (readData decode fromstring w) in
  let p := Np.zip_with Rplus (demo_pressure (self w))
             (Np.scale_r r16 (demo_pressure_factor (self w))) in
  let d := Np.zip_with Rplus (demo_density (self w))
             (Np.scale_r r4 (demo_density_factor (self w))) in
  snd (readData decode fromstring w) = Ok tt
  /\ pressure_array (self w1) = Some p
  /\ density_array (self w1) = Some d
  /\ pressure_device (self w1) = pressure_device (self w)
  /\ density_device (self w1) = density_device (self w)
  /\ emitted w1 = emitted w ++ [update_demo_label_sig "DEMO MODE!"]
  /\ logged w1 = logged w
  /\ (0 <= demo_pressure_factor (self w) ->
      (forall u, In u r16 -> 0 <= u < 1) ->
      Forall2 (fun base v => base <= v <= base + demo_pressure_factor (self w))
        (demo_pressure (self w)) p).
Proof.
  intros Hdemo Hdraw H16 H4 w1 p d.
  assert (Hrun :
    readData decode fromstring w
    = (set_self (with_density_array (Some d))
         (set_self (with_pressure_array (Some p))
            (fst (next_draw
                    (fst (emit (update_demo_label_sig "DEMO MODE!") w))))),
       Ok tt)).
  { unfold readData, st_try, st_bind at 1, st_get. rewrite Hdemo.
    unfold st_bind at 1. unfold emit at 1, st_modify at 1.
    unfold st_bind at 1. unfold next_draw at 1. cbn [random_draws draws].
    rewrite Hdraw.
    unfold st_bind at 1, st_lift at 1.
    rewrite CalculationsFacts.ew2_same_length
      by (rewrite CalculationsFacts.length_scale_r; congruence).
    unfold st_bind at 1, st_modify at 1.
    unfold st_bind at 1, st_lift at 1.
    rewrite CalculationsFacts.ew2_same_length
      by (rewrite CalculationsFacts.length_scale_r; congruence).
    reflexivity. }
  unfold w1. rewrite Hrun. cbn [fst snd].
  split; [reflexivity |]. split; [reflexivity |]. split; [reflexivity |].
  split; [reflexivity |]. split; [reflexivity |]. split; [reflexivity |].
  split; [reflexivity |].
  intros Hfactor Hdraws.
  pose proof (zip_with_bounds (demo_pressure_factor (self w))
                (demo_pressure (self w)) r16 Hfactor Hdraws) as Hb.
  rewrite H16, firstn_all in Hb. exact Hb.
Qed.

(** *** Saving *)

Variable float_repr : R -> string.

(** [append_record] writes at most one file, as its last step. *)
Lemma append_record_outcome (row : list Pandas.cell) (w : world) :
  match snd (append_record float_repr row w) with
  | Ok _ =>
      exists p content,
        path (self w) = Some p
        /\ fst (append_record float_repr row w) = store p content w
  | Raise _ => fst (append_record float_repr row w) = w
  end.
Proof.
  unfold append_record, st_bind, st_get, st_lift.
  destruct (path (self w)) as [p |]; cbn [attr]; [| reflexivity].
  destruct (lookup p (files w)) as [content |] eqn:Hfile.
  - destruct (Pandas.read_csv content) as [df_old | e]; [| reflexivity].
    destruct (Pandas.one_row (header (self w)) row) as [df_new | e];
      [| reflexivity].
    destruct (Pandas.concat df_old df_new) as [df_write | e];
      [| reflexivity].
    unfold write_file. rewrite Hfile.
    cbn [snd fst]. eexists. eexists. split; reflexivity.
  - destruct (Pandas.one_row (header (self w)) row) as [df_new | e];
      [| reflexivity].
    unfold write_file. rewrite Hfile.
    destruct (creatable w p); cbn [snd fst]; [| reflexivity].
    eexists. eexists. split; reflexivity.
Qed.

Lemma save_unfolded (w : world) :
  save decode fromstring float_repr w
  = match averaged decode fromstring w with
    | (w1, Ok (pressures_mean, density_mean, lift_mean)) =>
        match record w1 pressures_mean density_mean lift_mean with
        | Ok row =>
            match append_record float_repr row w1 with
            | (w2, Ok _) =>
                match path (self w2) with
                | Some p =>
                    (fst (emit (update_info_label_sig
                                  (now_time w2 ++ " : Data saved in " ++ p)
                                  "default") w2), Ok tt)
                | None =>
                    (fst (log_error AttributeError
                            (fst (emit (update_info_label_sig
                                          "ERROR in method saveData" "red")
                                    w2))), Ok tt)
                end
            | (w2, Raise e) =>
                (fst (log_error e
                        (fst (emit (update_info_label_sig
                                      "ERROR in method saveData" "red")
                                w2))), Ok tt)
            end
        | Raise e =>
            (fst (log_error e
                    (fst (emit (update_info_label_sig
                                  "ERROR in method saveData" "red") w1))),
             Ok tt)
        end
    | (w1, Raise e) =>
        (fst (log_error e
                (fst (emit (update_info_label_sig
                              "ERROR in method saveData" "red") w1))),
         Ok tt)
    end.
Proof.
  unfold save, st_try, st_bind at 1.
  destruct (averaged decode fromstring w) as [w1 [[[pm dm] lm] | e]];
    [| reflexivity].
  unfold st_bind at 1, st_get at 1. unfold st_bind at 1, st_lift at 1.
  destruct (record w1 pm dm lm) as [row | e]; [| reflexivity].
  unfold st_bind at 1.
  destruct (append_record float_repr row w1) as [w2 [[] | e]];
    [| reflexivity].
  unfold st_bind at 1, st_get at 1. unfold st_bind at 1, st_lift at 1.
  destruct (path (self w2)) as [p |]; reflexivity.
Qed.

(** X11: the [try] block of [saveData] never lets an exception escape,
    and what it tells the user agrees with what it did to the files.
    Either it writes exactly one file, the one at the path of the worker,
    its last signal announces "Data saved in" that path in the default
    colour, and nothing is logged; or it writes no file at all, its last
    signal is the red "ERROR in method saveData", and the exception is the
    last entry of the log. *)
Theorem save_writes_iff_announced (w : world) :
  let w' := fst (save decode fromstring float_repr w) in
  snd (save decode fromstring float_repr w) = Ok tt
  /\ ((exists p content l,
         path (self w) = Some p
         /\ files w' = (p, content) :: files w
         /\ emitted w'
            = emitted w ++ l
              ++ [update_info_label_sig
                    (now_time w ++ " : Data saved in " ++ p) "default"]
         /\ logged w' = logged w)
      \/ (exists l l' err,
            files w' = files w
            /\ emitted w'
               = emitted w ++ l
                 ++ [update_info_label_sig "ERROR in method saveData" "red"]
            /\ logged w' = logged w ++ l' ++ [err])).
Proof.
  intros w'. unfold w'. rewrite save_unfolded.
  destruct (tidy_averaged w)
    as [[Hf [Hn [_ [Hs [[l He] [[l' Hl] _]]]]]] Hq].
  assert (Hfail : forall e,
    let w2 := fst (log_error e
                     (fst (emit (update_info_label_sig
                                   "ERROR in method saveData" "red")
                             (fst (averaged decode fromstring w))))) in
    exists l l' err,
      files w2 = files w
      /\ emitted w2
         = emitted w ++ l
           ++ [update_info_label_sig "ERROR in method saveData" "red"]
      /\ logged w2 = logged w ++ l' ++ [err]).
  { intros e. exists l, l', e.
    unfold emit, log_error, st_modify. cbn [fst files emitted logged].
    rewrite Hf, He, Hl, <- !app_assoc. repeat split; reflexivity. }
  destruct (averaged decode fromstring w) as [w1 [[[pm dm] lm] | e]];
    cbn [fst snd] in *.
  2: { split; [reflexivity |]. right. exact (Hfail e). }
  destruct (record w1 pm dm lm) as [row | e].
  2: { split; [reflexivity |]. right. exact (Hfail e). }
  pose proof (append_record_outcome row w1) as Ha.
  destruct (append_record float_repr row w1) as [w2 [[] | e]];
    cbn [fst snd] in Ha.
  - destruct Ha as [p [content [Hp ->]]].
    unfold store. cbn [fst self]. rewrite Hp.
    split; [reflexivity |].
    left. exists p, content, l.
    unfold emit, st_modify. cbn [fst files emitted logged now_time self].
    assert (Hpath : path (self w) = Some p)
      by (unfold settings in Hs; congruence).
    rewrite Hf, He, Hn, <- !app_assoc.
    split; [exact Hpath |]. split; [reflexivity |].
    split; [reflexivity |]. exact (Hq _ eq_refl).
  - subst w2. split; [reflexivity |]. right. exact (Hfail e).
Qed.

End WithParser.

(** *** Concrete runs *)

Definition demo_defaults : Defaults.t :=
  {| Defaults.PRESSURE_ARRAY := repeat 0 16;
     Defaults.ANGLE := 5; Defaults.VELOCITY := 10; Defaults.WIDTH := 0.4;
     Defaults.CHORD_LENGTH := 0.2; Defaults.LIFT := 0;
     Defaults.PROFILE_NAME := "NACA";
     Defaults.X_WING_TOP := [0; 0.5; 1];
     Defaults.X_WING_BOTTOM := [0; 0.5; 1];
     Defaults.Y_WING_TOP := [0; 0.1; 0];
     Defaults.Y_WING_BOTTOM := [0; -0.1; 0];
     Defaults.NUM_INTERPOL_POINTS := 3;
     Defaults.NUM_OF_MEASSUREMENTS := 2;
     Defaults.HEADER := DataFacts.csv_header;
     Defaults.DEMO_MODE := true;
     Defaults.DEMO_PRESSURE := repeat 100 16;
     Defaults.DEMO_DENSITY := [21; 98; 40; 1];
     Defaults.DEMO_PRESSURE_FACTOR := 10;
     Defaults.DEMO_DENSITY_FACTOR := 0 |}.

(** The data worker right after [__init__], in demo mode, with a random
    generator that always draws one half, in surroundings where files can
    be created in the directory [Data]. *)
Definition demo_world : world :=
  {| self := init demo_defaults; files := []; emitted := []; logged := [];
     now_time := "12:30:00"; total_time_measurements := 1.5;
     random_draws := fun _ => (repeat 0.5 16, repeat 0.5 4); draws := 0;
     creatable := String.prefix "Data/" |}.

Lemma readData_demo_mode_witness :
  snd (readData Ok SerialDevicesFacts.unsigned_fromstring demo_world) = Ok tt
  /\ density_array
       (self (fst (readData Ok SerialDevicesFacts.unsigned_fromstring
                     demo_world)))
     = Some (Np.zip_with Rplus [21; 98; 40; 1]
               (Np.scale_r (repeat 0.5 4) 0)).
Proof.
  pose proof (readData_demo_mode Ok SerialDevicesFacts.unsigned_fromstring
                demo_world (repeat 0.5 16) (repeat 0.5 4)
                eq_refl eq_refl eq_refl eq_refl) as H.
  cbv zeta in H. destruct H as [Hok [_ [Hd _]]].
  split; [exact Hok | exact Hd].
Defined.

(** A row of as many cells as the header has names. *)
Definition sample_row : list Pandas.cell :=
  map Pandas.CStr DataFacts.csv_header.

Lemma append_record_creates_witness :
  lookup "Data/run.csv"
    (files (fst (append_record (fun _ => "0.0"%string) sample_row
                   (DataFacts.bench 1 []))))
  = Some [DataFacts.csv_header;
          map (Pandas.field (fun _ => "0.0"%string)) sample_row]
  /\ snd (append_record (fun _ => "0.0"%string) sample_row
            (updatePath "Results/run.csv" (DataFacts.bench 1 [])))
     = Raise OSError.
Proof.
  split.
  - exact (proj2 (proj1 (DataFacts.append_record_creates
                           (fun _ => "0.0"%string)
                           (DataFacts.bench 1 []) "Data/run.csv" sample_row
                           eq_refl eq_refl eq_refl) eq_refl)).
  - exact (proj1 (proj2 (DataFacts.append_record_creates
                           (fun _ => "0.0"%string)
                           (updatePath "Results/run.csv"
                              (DataFacts.bench 1 []))
                           "Results/run.csv" sample_row
                           eq_refl eq_refl eq_refl) eq_refl)).
Defined.


End AcquisitionFacts.

(** ** The row that a save records *)

Module RecordFacts.
Import Data.

Section WithParser.

Variable decode : string -> res string.
Variable fromstring : string -> list R.
Variable float_repr : R -> string.

(** The fields of the row that [saveData] writes for the means [d]
    (environment), [l] (lift) and [p] (pressures), in the order in which
    [pd.concat] puts the frames side by side: the time, the environment
    means, the angle, the velocity, the lift mean, the width, the number
    of measurements, the duration, the pressure means, the tap
    coordinates and the two masks. *)
Definition written_row (w : world) (d : list R) (l : R) (p x : list R)
    (m_top m_bottom : list bool) : list string :=
  [now_time w]
  ++ map float_repr d
  ++ [float_repr (angle (self w)); float_repr (velocity (self w));
      float_repr l; float_repr (width (self w));
      NilZero.string_of_int
        (Z.to_int (Z.of_nat (number_of_measurements (self w))));
      float_repr (total_time_measurements w)]
  ++ map float_repr p
  ++ map float_repr x
  ++ [mask_str m_top; mask_str m_bottom].

Lemma averaged_lengths (w w1 : world) (pm dm : list R) (lm : R) :
  averaged decode fromstring w = (w1, Ok (pm, dm, lm)) ->
  length pm = 16%nat /\ length dm = 4%nat.
Proof.
  unfold averaged, st_bind at 1, st_get at 1. unfold st_bind at 1.
  destruct (measure decode fromstring (number_of_measurements (self w)) w)
    as [w2 [[[ps ds] ls] | e]]; [| discriminate].
  unfold st_ret. intros H. injection H as _ <- <- _.
  unfold mean_axis0. rewrite !length_map, !length_seq. split; reflexivity.
Qed.

Lemma averaged_from_measure
    (w w1 : world) (ps ds : list (list R)) (ls : list R) :
  measure decode fromstring (number_of_measurements (self w)) w
  = (w1, Ok (ps, ds, ls)) ->
  averaged decode fromstring w
  = (w1, Ok (mean_axis0 (number_of_measurements (self w)) 16 ps,
             mean_axis0 (number_of_measurements (self w)) 4 ds,
             mean (number_of_measurements (self w)) ls)).
Proof.
  intros Hm. unfold averaged, st_bind, st_get. rewrite Hm. reflexivity.
Qed.

(** A save whose measurements return, on a worker that has its setup data
    and a header of [29 + n] columns for [n] tap coordinates, with a path
    that names no file yet and at which a file can be created: the file is
    created with the header and the row of the means, and the save is
    announced. *)
Lemma save_on_fresh_path
    (w w1 : world) (pm dm : list R) (lm : R)
    (p : string) (x : list R) (m_top m_bottom : list bool) :
  averaged decode fromstring w = (w1, Ok (pm, dm, lm)) ->
  path (self w) = Some p ->
  x_coordinates (self w) = Some x ->
  mask_top (self w) = Some m_top ->
  mask_bottom (self w) = Some m_bottom ->
  length (header (self w)) = (29 + length x)%nat ->
  lookup p (files w) = None ->
  creatable w p = true ->
  save decode fromstring float_repr w
  = (fst (emit (update_info_label_sig
                  (now_time w ++ " : Data saved in " ++ p) "default")
            (store p [header (self w);
                      written_row w dm lm pm x m_top m_bottom] w1)),
     Ok tt).
Proof.
  intros Hav Hpath Hx Hmt Hmb Hheader Hnone Hcreate.
  destruct (averaged_lengths w w1 pm dm lm Hav) as [Hpm Hdm].
  destruct (AcquisitionFacts.tidy_averaged decode fromstring w)
    as [[Hf [Hnow [Htime [Hset [_ [_ Hc]]]]]] _].
  rewrite AcquisitionFacts.save_unfolded. rewrite Hav in *.
  cbn [fst snd] in *.
  unfold AcquisitionFacts.settings in Hset.
  injection Hset as Hp1 Hn1 Hh1 _ Ha1 Hv1 Hw1 _ _ _ _ _ Hmt1 Hmb1 Hx1 _ _.
  unfold record. rewrite Hx1, Hx, Hmt1, Hmt, Hmb1, Hmb. cbn [attr bind].
  set (row := [Pandas.CStr (now_time w1)] ++ _).
  assert (Hrow : length (header (self w1)) = length row).
  { rewrite Hh1, Hheader. unfold row.
    rewrite !length_app, !length_map, Hpm, Hdm. simpl. lia. }
  assert (Hfields :
    map (Pandas.field float_repr) row
    = written_row w dm lm pm x m_top m_bottom).
  { unfold row, written_row.
    rewrite !map_app, !map_map. cbn [map Pandas.field].
    rewrite Hnow, Ha1, Hv1, Hw1, Hn1, Htime. reflexivity. }
  unfold append_record, st_bind at 1, st_get at 1.
  unfold st_bind at 1, st_lift at 1. rewrite Hp1, Hpath. cbn [attr].
  rewrite Hf, Hnone.
  unfold st_bind at 1, st_lift at 1.
  unfold Pandas.one_row. rewrite Hrow, Nat.eqb_refl.
  unfold write_file. rewrite Hf, Hnone, Hc, Hcreate.
  unfold store at 1. cbn [self path]. rewrite Hp1, Hpath.
  unfold Pandas.to_csv.
  cbn [Pandas.names Pandas.cols Pandas.nrows seq map].
  rewrite map_map. cbn [nth].
  change (map (fun c => Pandas.field float_repr c) row)
    with (map (Pandas.field float_repr) row).
  rewrite Hfields, Hh1. unfold store, emit, st_modify. cbn [fst now_time].
  rewrite Hnow. reflexivity.
Qed.

(** C5, as amended: when the [n >= 1] readings of the measuring loop are
    identical (pressures [p], environment values [d], lift [l]) and, for
    every value [v] of the reading, the multiples [v, 2v, ..., nv] are
    binary64 numbers, the three means are [p], [d] and [l] themselves, and
    the row that [saveData] writes holds these values.  With [n = 1] the
    condition only says that the values of the reading are binary64
    numbers, which the entries of a float64 array always are. *)
Theorem identical_readings_are_recorded
    (w w1 : world) (n : nat) (p d : list R) (l : R)
    (file : string) (x : list R) (m_top m_bottom : list bool) :
  number_of_measurements (self w) = n ->
  (1 <= n)%nat ->
  measure decode fromstring n w
  = (w1, Ok (repeat p n, repeat d n, repeat l n)) ->
  (forall v k, In v (l :: p ++ d) -> (1 <= k <= n)%nat ->
               Float64.representable (INR k * v)) ->
  path (self w) = Some file ->
  x_coordinates (self w) = Some x ->
  mask_top (self w) = Some m_top ->
  mask_bottom (self w) = Some m_bottom ->
  length (header (self w)) = (29 + length x)%nat ->
  lookup file (files w) = None ->
  creatable w file = true ->
  averaged decode fromstring w = (w1, Ok (p, d, l))
  /\ snd (save decode fromstring float_repr w) = Ok tt
  /\ lookup file (files (fst (save decode fromstring float_repr w)))
     = Some [header (self w); written_row w d l p x m_top m_bottom].
Proof.
  intros Hn Hpos Hm Hrep Hpath Hx Hmt Hmb Hheader Hnone Hcreate.
  pose proof (DataFacts.averaged_of_identical decode fromstring
                w w1 n p d l Hn Hpos Hm Hrep) as Hav.
  rewrite (save_on_fresh_path w w1 p d l file x m_top m_bottom
             Hav Hpath Hx Hmt Hmb Hheader Hnone Hcreate).
  split; [exact Hav |]. split; [reflexivity |].
  unfold emit, st_modify. cbn [fst files].
  apply DataFacts.lookup_written.
Qed.

End WithParser.

(** *** Concrete readings *)

Import Float64 Float64Facts.

(** The binary64 number nearest to 0.35, and the bench with a lift. *)
Definition d035 : R := 6305039478318694 * pow2 (-54).

Definition steady (n : nat) (l : R) : world :=
  set_self (with_lift l) (DataFacts.bench n []).

Lemma representable_product (k c : nat) :
  (Z.of_nat (k * c) < 2 ^ 53)%Z -> representable (INR k * INR c).
Proof.
  intros H. rewrite <- mult_INR, INR_IZR_INZ.
  apply representable_IZR. lia.
Qed.

Lemma representable_half : representable (1 / 2).
Proof.
  replace (1 / 2) with (IZR (2 ^ 52) * pow2 (-53)).
  - apply representable_grid; [lia | right; simpl; lia | simpl; lia].
  - pow2_literals. simpl. lra.
Qed.

Lemma representable_1 : representable 1.
Proof. apply (representable_IZR 1). simpl. lia. Qed.

Lemma identical_readings_are_recorded_witness :
  lookup "Data/run.csv"
    (files (fst (save Ok SerialDevicesFacts.unsigned_fromstring
                   (fun _ => "0.0"%string) (steady 2 (1 / 2)))))
  = Some [DataFacts.csv_header;
          written_row (fun _ => "0.0"%string) (steady 2 (1 / 2))
            DataFacts.density_read (1 / 2) DataFacts.pressures_read
            DataFacts.tap_coordinates
            DataFacts.taps_top DataFacts.taps_bottom].
Proof.
  refine (proj2 (proj2 (identical_readings_are_recorded
                          Ok SerialDevicesFacts.unsigned_fromstring
                          (fun _ => "0.0"%string) (steady 2 (1 / 2)) _ 2
                          DataFacts.pressures_read DataFacts.density_read
                          (1 / 2) "Data/run.csv" DataFacts.tap_coordinates
                          DataFacts.taps_top DataFacts.taps_bottom
                          eq_refl _ _ _ eq_refl eq_refl eq_refl eq_refl
                          eq_refl eq_refl eq_refl))).
  - lia.
  - vm_compute. reflexivity.
  - intros v k Hv Hk.
    assert (Hk12 : k = 1%nat \/ k = 2%nat) by lia.
    unfold DataFacts.pressures_read, DataFacts.density_read in Hv.
    cbn [map app In] in Hv.
    destruct Hv as [<- | Hv].
    + destruct Hk12 as [-> | ->].
      * replace (INR 1 * (1 / 2)) with (1 / 2) by (simpl; lra).
        exact representable_half.
      * replace (INR 2 * (1 / 2)) with 1 by (simpl; lra).
        exact representable_1.
    + repeat (destruct Hv as [<- | Hv];
              [destruct Hk12 as [-> | ->];
               apply representable_product; vm_compute; reflexivity |]).
      destruct Hv.
Defined.

(** Three readings of 0.35: the sum is rounded down at a tie, and the
    quotient is the binary64 number below 0.35. *)
Lemma round_d035 : round d035 = d035.
Proof. apply round_grid; [lia | right; simpl; lia | simpl; lia]. Qed.

Lemma d035_nearest : round 0.35 = d035.
Proof.
  unfold d035. apply round_nearest.
  - lia.
  - right. rewrite Rabs_pos_eq; pow2_literals; lra.
  - rewrite Rabs_pos_eq; pow2_literals; lra.
  - pow2_literals. apply Rabs_def1; lra.
Qed.

Lemma twice_d035 : add d035 d035 = 6305039478318694 * pow2 (-53).
Proof.
  unfold add.
  replace (d035 + d035) with (6305039478318694 * pow2 (-53))
    by (unfold d035; pow2_literals; lra).
  apply round_grid; [lia | right; simpl; lia | simpl; lia].
Qed.

Lemma thrice_d035 :
  add (add d035 d035) d035 = 4728779608739020 * pow2 (-52).
Proof.
  rewrite twice_d035. unfold add.
  rewrite (round_tie _ 4728779608739020 (-52)).
  - reflexivity.
  - lia.
  - right. unfold d035. rewrite Rabs_pos_eq; pow2_literals; lra.
  - unfold d035. rewrite Rabs_pos_eq; pow2_literals; lra.
  - unfold d035. pow2_literals. lra.
Qed.

Lemma third_of_thrice_d035 :
  div (4728779608739020 * pow2 (-52)) 3 = 6305039478318693 * pow2 (-54).
Proof.
  unfold div. apply round_nearest.
  - lia.
  - right. rewrite Rabs_pos_eq; pow2_literals; lra.
  - rewrite Rabs_pos_eq; pow2_literals; lra.
  - pow2_literals. apply Rabs_def1; lra.
Qed.

Lemma mean_of_three_d035 :
  mean 3 (repeat d035 3) = 6305039478318693 * pow2 (-54).
Proof.
  unfold mean, Np.add_reduce.
  cbn [repeat length Np.pairwise_sum Nat.ltb Nat.leb fold_left].
  assert (H0 : add 0 d035 = d035)
    by (unfold add; rewrite Rplus_0_l; apply round_d035).
  rewrite H0, thrice_d035.
  assert (H1 : add 0 (4728779608739020 * pow2 (-52))
               = 4728779608739020 * pow2 (-52)).
  { unfold add. rewrite Rplus_0_l.
    apply round_grid; [lia | right; simpl; lia | simpl; lia]. }
  rewrite H1.
  replace (INR 3) with 3 by (simpl; lra).
  apply third_of_thrice_d035.
Qed.

(** C5, as stated, fails: three identical readings whose lift is the
    float64 number 0.35 are averaged to the float64 number below it,
    0.3499999999999999. *)
Lemma three_readings_of_035_average_lower :
  round 0.35 = d035
  /\ exists w1 pm dm lm,
    measure Ok SerialDevicesFacts.unsigned_fromstring 3 (steady 3 d035)
    = (w1, Ok (repeat DataFacts.pressures_read 3,
               repeat DataFacts.density_read 3, repeat d035 3))
    /\ averaged Ok SerialDevicesFacts.unsigned_fromstring (steady 3 d035)
       = (w1, Ok (pm, dm, lm))
    /\ lm = 6305039478318693 * pow2 (-54)
    /\ lm <> d035.
Proof.
  assert (Hm :
    measure Ok SerialDevicesFacts.unsigned_fromstring 3 (steady 3 d035)
    = (fst (measure Ok SerialDevicesFacts.unsigned_fromstring 3
              (steady 3 d035)),
       Ok (repeat DataFacts.pressures_read 3,
           repeat DataFacts.density_read 3, repeat d035 3))).
  { vm_compute. reflexivity. }
  split; [exact d035_nearest |].
  exists (fst (measure Ok SerialDevicesFacts.unsigned_fromstring 3
                 (steady 3 d035))),
         (mean_axis0 3 16 (repeat DataFacts.pressures_read 3)),
         (mean_axis0 3 4 (repeat DataFacts.density_read 3)),
         (mean 3 (repeat d035 3)).
  split; [exact Hm |]. split.
  - exact (averaged_from_measure Ok SerialDevicesFacts.unsigned_fromstring
             (steady 3 d035) _ _ _ _ Hm).
  - rewrite mean_of_three_d035. split; [reflexivity |].
    unfold d035. pow2_literals. lra.
Qed.

End RecordFacts.

(** ** Saving with a scanner of another arity *)

Module SaveShapeFacts.
Import Data.

Lemma bind_returns {S A B : Type} (m : stm S A) (k : A -> stm S B)
    (s s1 : S) (a : A) :
  m s = (s1, Ok a) -> st_bind m k s = k a s1.
Proof. intros H. unfold st_bind. rewrite H. reflexivity. Qed.

Lemma bind_raises {S A B : Type} (m : stm S A) (k : A -> stm S B)
    (s : S) (e : exn) :
  snd (m s) = Raise e -> snd (st_bind m k s) = Raise e.
Proof.
  intros H. unfold st_bind. destruct (m s) as [s1 [a | e1]];
    cbn [snd] in *; [discriminate | injection H as ->; reflexivity].
Qed.

Lemma assign_row_rejects (n : nat) (v : list R) :
  length v <> n -> length v <> 1%nat -> assign_row n v = Raise ValueError.
Proof.
  intros Hn H1. unfold assign_row.
  destruct (Nat.eqb_spec (length v) n) as [He | _]; [contradiction |].
  destruct v as [| u [| u' v]]; try reflexivity.
  simpl in H1. contradiction.
Qed.

Section WithParser.

Variable decode : string -> res string.
Variable fromstring : string -> list R.

Lemma query_density_keeps_pressures (w : world) :
  snd (query_density decode fromstring w) = Ok tt ->
  pressure_array (self (fst (query_density decode fromstring w)))
  = pressure_array (self w).
Proof.
  unfold query_density, st_bind, st_get, st_lift, st_modify.
  destruct (attr (density_device (self w))) as [dev | e];
    [| discriminate].
  destruct (SerialDevices.getNewData decode fromstring dev) as [dev' r].
  destruct r as [data | e]; [| discriminate].
  reflexivity.
Qed.

Lemma query_pressure_stores (w : world)
    (dev dev' : SerialDevices.Device) (a : list R) :
  pressure_device (self w) = Some dev ->
  SerialDevices.getNewData decode fromstring dev = (dev', Ok (Some a)) ->
  snd (query_pressure decode fromstring w) = Ok tt
  /\ pressure_array (self (fst (query_pressure decode fromstring w)))
     = Some a.
Proof.
  intros Hdev Hget.
  unfold query_pressure, st_bind, st_get, st_lift, st_modify.
  rewrite Hdev. cbn [attr]. rewrite Hget. split; reflexivity.
Qed.

(** With a pressure scanner that answers with an array of neither 16
    entries nor one, the measuring loop of [saveData] raises in its first
    round. *)
Lemma measure_raises (k : nat) (w : world)
    (dev dev' : SerialDevices.Device) (a : list R) :
  demo_mode (self w) = false ->
  pressure_device (self w) = Some dev ->
  SerialDevices.getNewData decode fromstring dev = (dev', Ok (Some a)) ->
  length a <> 16%nat -> length a <> 1%nat ->
  raised (snd (measure decode fromstring (S k) w)).
Proof.
  intros Hdemo Hdev Hget H16 H1.
  cbn [measure].
  rewrite (bind_returns (emit calc_lift_splines_sig) _ w
             (fst (emit calc_lift_splines_sig w)) tt) by reflexivity.
  set (w0 := fst (emit calc_lift_splines_sig w)).
  assert (Hdemo0 : demo_mode (self w0) = false) by exact Hdemo.
  assert (Hdev0 : pressure_device (self w0) = Some dev) by exact Hdev.
  destruct (query_pressure_stores w0 dev dev' a Hdev0 Hget) as [Hq Hp].
  pose proof (query_density_keeps_pressures
                (fst (query_pressure decode fromstring w0))) as Hkeep.
  assert (Hbody :
    readData decode fromstring w0
    = match query_density decode fromstring
              (fst (query_pressure decode fromstring w0)) with
      | (w2, Ok _) => (w2, Ok tt)
      | (w2, Raise e) =>
          (fst (log_error e w2), Raise AcquisitionFacts.readData_error)
      end).
  { unfold readData, st_try, st_bind at 1, st_get at 1. rewrite Hdemo0.
    unfold st_bind at 1.
    destruct (query_pressure decode fromstring w0) as [w1 [[] | e]];
      cbn [snd fst] in *; [| discriminate].
    destruct (query_density decode fromstring w1) as [w2 [[] | e]];
      reflexivity. }
  destruct (query_density decode fromstring
              (fst (query_pressure decode fromstring w0)))
    as [w2 [[] | e]] eqn:Hd; cbn [fst snd] in *.
  - rewrite (bind_returns _ _ w0 w2 tt Hbody).
    rewrite (bind_returns sendData _ w2 (fst (sendData w2)) tt)
      by reflexivity.
    unfold st_bind at 1, st_get at 1.
    unfold st_bind at 1, st_lift at 1.
    replace (pressure_array (self (fst (sendData w2)))) with (Some a)
      by (rewrite <- Hp, <- (Hkeep eq_refl); reflexivity).
    cbn [attr].
    unfold st_bind at 1, st_lift at 1.
    rewrite (assign_row_rejects 16 a H16 H1).
    eexists. reflexivity.
  - exists AcquisitionFacts.readData_error.
    apply bind_raises. rewrite Hbody. reflexivity.
Qed.

Variable float_repr : R -> string.

(** X12: [saveData] stores every pressure reading in a row of 16
    entries, whatever arity the pressure device was set up with.  With a
    pressure scanner whose answer has neither 16 entries nor one, a save
    of one measurement or more writes no file, and its [try] block ends
    with the red "ERROR in method saveData". *)
Theorem save_needs_sixteen_pressures (w : world)
    (dev dev' : SerialDevices.Device) (a : list R) :
  (1 <= number_of_measurements (self w))%nat ->
  demo_mode (self w) = false ->
  pressure_device (self w) = Some dev ->
  SerialDevices.getNewData decode fromstring dev = (dev', Ok (Some a)) ->
  length a <> 16%nat -> length a <> 1%nat ->
  let w' := fst (save decode fromstring float_repr w) in
  files w' = files w
  /\ exists l,
       emitted w'
       = emitted w ++ l
         ++ [update_info_label_sig "ERROR in method saveData" "red"].
Proof.
  intros Hn Hdemo Hdev Hget H16 H1 w'.
  assert (Hraise : raised (snd (averaged decode fromstring w))).
  { unfold averaged, st_bind at 1, st_get at 1.
    destruct (number_of_measurements (self w)) as [| k]; [lia |].
    destruct (measure_raises k w dev dev' a Hdemo Hdev Hget H16 H1)
      as [e He].
    exists e. apply bind_raises. exact He. }
  destruct Hraise as [e He].
  destruct (AcquisitionFacts.tidy_averaged decode fromstring w)
    as [[Hf [_ [_ [_ [[l Hl] _]]]]] _].
  unfold w'. rewrite AcquisitionFacts.save_unfolded.
  destruct (averaged decode fromstring w) as [w1 [r | e1]];
    cbn [fst snd] in *; [discriminate |].
  unfold emit, log_error, st_modify. cbn [fst files emitted].
  split; [exact Hf |].
  exists l. rewrite Hl, <- app_assoc. reflexivity.
Qed.

End WithParser.

(** A data worker whose pressure scanner has three ports. *)
Definition three_port_world : world :=
  set_self
    (with_devices
       (Some (DataFacts.steady_device 3
                ("1" ++ SerialDevicesFacts.tab ++ "2"
                 ++ SerialDevicesFacts.tab ++ "3") 1))
       (Some (DataFacts.steady_device 4 DataFacts.density_line 1)))
    (DataFacts.bench 1 []).

Lemma save_needs_sixteen_pressures_witness :
  files (fst (save Ok SerialDevicesFacts.unsigned_fromstring
                (fun _ => "0.0"%string) three_port_world))
  = [].
Proof.
  refine (proj1 (save_needs_sixteen_pressures
                   Ok SerialDevicesFacts.unsigned_fromstring
                   (fun _ => "0.0"%string) three_port_world
                   (DataFacts.steady_device 3
                      ("1" ++ SerialDevicesFacts.tab ++ "2"
                       ++ SerialDevicesFacts.tab ++ "3") 1)
                   _ _ _ eq_refl eq_refl eq_refl _ _)).
  - vm_compute. lia.
  - vm_compute. discriminate.
  - vm_compute. discriminate.
Defined.

End SaveShapeFacts.

(** ** Saving in demo mode *)

Module DemoSaveFacts.
Import Data.

(** [np.random.random(16)] and [np.random.rand(4)] return 16 and 4
    numbers. *)
Definition well_drawn (w : world) : Prop :=
  forall k,
    length (fst (random_draws w k)) = 16%nat
    /\ length (snd (random_draws w k)) = 4%nat.

(** A worker in demo mode with 16 demo pressures and 4 demo environment
    values. *)
Definition ready (w : world) : Prop :=
  demo_mode (self w) = true
  /\ length (demo_pressure (self w)) = 16%nat
  /\ length (demo_density (self w)) = 4%nat
  /\ well_drawn w.

(** The two arrays hold a reading of 16 pressures and 4 environment
    values. *)
Definition holds_reading (w : world) : Prop :=
  exists p d,
    pressure_array (self w) = Some p /\ length p = 16%nat
    /\ density_array (self w) = Some d /\ length d = 4%nat.

(** From every world that satisfies [P] the step returns, with a value
    and a world that satisfy [Q]. *)
Definition succeeds {A : Type} (P : world -> Prop) (m : stm world A)
    (Q : A -> world -> Prop) : Prop :=
  forall w, P w -> exists a, snd (m w) = Ok a /\ Q a (fst (m w)).

Lemma succeeds_bind {A B : Type} (P : world -> Prop) (Q : A -> world -> Prop)
    (R : B -> world -> Prop) (m : stm world A) (k : A -> stm world B) :
  succeeds P m Q -> (forall a, succeeds (Q a) (k a) R) ->
  succeeds P (st_bind m k) R.
Proof.
  intros Hm Hk w HP. unfold st_bind.
  destruct (Hm w HP) as [a [Ha HQ]].
  destruct (m w) as [w1 [a1 | e]]; cbn [fst snd] in *; [| discriminate].
  injection Ha as ->. exact (Hk a w1 HQ).
Qed.

Lemma succeeds_emit (P : world -> Prop) (sg : signal) :
  (forall w, P w -> P (fst (emit sg w))) ->
  succeeds P (emit sg) (fun _ => P).
Proof. intros H w HP. exists tt. split; [reflexivity | exact (H w HP)]. Qed.

Lemma ready_emit (sg : signal) (w : world) :
  ready w -> ready (fst (emit sg w)).
Proof. intros H. exact H. Qed.

Lemma holds_reading_emit (sg : signal) (w : world) :
  holds_reading w -> holds_reading (fst (emit sg w)).
Proof. intros H. exact H. Qed.

Section WithParser.

Variable decode : string -> res string.
Variable fromstring : string -> list R.

Lemma readData_ready :
  succeeds ready (readData decode fromstring)
    (fun _ w => ready w /\ holds_reading w).
Proof.
  intros w [Hdemo [H16 [H4 Hdraws]]].
  destruct (Hdraws (draws w)) as [Hr16 Hr4].
  destruct (random_draws w (draws w)) as [r16 r4] eqn:Hdraw.
  cbn [fst snd] in Hr16, Hr4.
  assert (Hrun :
    readData decode fromstring w
    = (set_self
         (with_density_array
            (Some (Np.zip_with Rplus (demo_density (self w))
                     (Np.scale_r r4 (demo_density_factor (self w))))))
         (set_self
            (with_pressure_array
               (Some (Np.zip_with Rplus (demo_pressure (self w))
                        (Np.scale_r r16 (demo_pressure_factor (self w))))))
            (fst (next_draw
                    (fst (emit (update_demo_label_sig "DEMO MODE!") w))))),
       Ok tt)).
  { unfold readData, st_try, st_bind at 1, st_get. rewrite Hdemo.
    unfold st_bind at 1. unfold emit at 1, st_modify at 1.
    unfold st_bind at 1. unfold next_draw at 1. cbn [random_draws draws].
    rewrite Hdraw.
    unfold st_bind at 1, st_lift at 1.
    rewrite CalculationsFacts.ew2_same_length
      by (rewrite CalculationsFacts.length_scale_r; congruence).
    unfold st_bind at 1, st_modify at 1.
    unfold st_bind at 1, st_lift at 1.
    rewrite CalculationsFacts.ew2_same_length
      by (rewrite CalculationsFacts.length_scale_r; congruence).
    reflexivity. }
  exists tt. rewrite Hrun. cbn [fst snd]. split; [reflexivity |]. split.
  - repeat split; try assumption; apply Hdraws.
  - eexists. eexists. split; [reflexivity |]. split.
    + rewrite CalculationsFacts.length_zip_with
        by (rewrite CalculationsFacts.length_scale_r; congruence).
      exact H16.
    + split; [reflexivity |].
      rewrite CalculationsFacts.length_zip_with
        by (rewrite CalculationsFacts.length_scale_r; congruence).
      exact H4.
Qed.

Lemma sendData_ready :
  succeeds (fun w => ready w /\ holds_reading w) sendData
    (fun _ w => ready w /\ holds_reading w).
Proof. intros w H. exists tt. split; [reflexivity | exact H]. Qed.

(** In demo mode the measuring loop of [saveData] returns. *)
Lemma measure_ready (n : nat) :
  succeeds ready (measure decode fromstring n) (fun _ => ready).
Proof.
  induction n as [| k IH]; cbn [measure].
  - intros w H. eexists. split; [reflexivity | exact H].
  - eapply succeeds_bind.
    { apply succeeds_emit. intros w H. exact H. }
    intros u1. eapply succeeds_bind; [apply readData_ready |].
    intros u2. eapply succeeds_bind; [apply sendData_ready |].
    intros u3 w [Hready [p [d [Hp [Hlp [Hd Hld]]]]]].
    destruct (IH w Hready) as [[[ps ds] ls] [Hm Hq]].
    match goal with
    | |- exists a, snd (?m w) = Ok a /\ _ =>
        assert (Hrun :
          m w
          = match measure decode fromstring k w with
            | (w1, Ok (ps, ds, ls)) =>
                (w1, Ok (p :: ps, d :: ds, lift (self w) :: ls))
            | (w1, Raise e) => (w1, Raise e)
            end)
    end.
    { unfold st_bind, st_get, st_lift. rewrite Hp, Hd. cbn [attr].
      unfold assign_row. rewrite Hlp, Hld. cbn [Nat.eqb].
      destruct (measure decode fromstring k w) as [w1 [[[ps' ds'] ls'] | e]];
        reflexivity. }
    rewrite Hrun.
    destruct (measure decode fromstring k w) as [w1 [r | e]];
      cbn [fst snd] in *; [| discriminate].
    injection Hm as ->.
    eexists. split; [reflexivity | exact Hq].
Qed.

(** In demo mode the rounds of [readDataLoop] return. *)
Lemma acquire_ready (rounds : nat) :
  succeeds ready (acquire decode fromstring rounds) (fun _ => ready).
Proof.
  induction rounds as [| k IH]; cbn [acquire].
  - intros w H. exists tt. split; [reflexivity | exact H].
  - eapply succeeds_bind; [apply readData_ready |].
    intros u1. eapply succeeds_bind; [apply sendData_ready |].
    intros u2. eapply succeeds_bind.
    { apply (succeeds_emit (fun w => ready w /\ holds_reading w)).
      intros w H. exact H. }
    intros u3 w [H _]. exact (IH w H).
Qed.

Lemma averaged_ready :
  succeeds ready (averaged decode fromstring) (fun _ => ready).
Proof.
  intros w H.
  destruct (measure_ready (number_of_measurements (self w)) w H)
    as [[[ps ds] ls] [Hm Hq]].
  unfold averaged, st_bind, st_get, st_ret.
  destruct (measure decode fromstring (number_of_measurements (self w)) w)
    as [w2 [r | e]]; cbn [fst snd] in *; [| discriminate].
  injection Hm as ->. eexists. split; [reflexivity | exact Hq].
Qed.

Variable float_repr : R -> string.

(** X25: in demo mode, after a setup and with a path that names no file
    yet and at which a file can be created, [saveData] does what it
    announces.  With 16 demo pressures, 4 demo environment values and a
    header of [29 + n] columns for [n] tap coordinates, it never fails:
    it creates the file with the header and one row of as many fields,
    whose first field is the time, announces ["Data saved in"] the path,
    resumes the acquisition loop, which leaves the file alone, and logs
    nothing. *)
Theorem demo_saveData_creates_file
    (rounds : nat) (w : world) (p : string) (x : list R)
    (m_top m_bottom : list bool) :
  ready w ->
  path (self w) = Some p ->
  x_coordinates (self w) = Some x ->
  mask_top (self w) = Some m_top ->
  mask_bottom (self w) = Some m_bottom ->
  length (header (self w)) = (29 + length x)%nat ->
  lookup p (files w) = None ->
  creatable w p = true ->
  let w' := fst (saveData decode fromstring float_repr rounds w) in
  snd (saveData decode fromstring float_repr rounds w) = Ok tt
  /\ logged w' = logged w
  /\ (exists row,
        length row = length (header (self w))
        /\ hd EmptyString row = now_time w
        /\ files w' = (p, [header (self w); row]) :: files w)
  /\ (exists l l',
        emitted w'
        = emitted w ++ l
          ++ [update_info_label_sig
                (now_time w ++ " : Data saved in " ++ p) "default"]
          ++ l').
Proof.
  intros Hready Hpath Hx Hmt Hmb Hheader Hnone Hcreate w'.
  (* the measurements *)
  destruct (averaged_ready w Hready) as [[[pm dm] lm] [Hav Hready1]].
  destruct (AcquisitionFacts.tidy_averaged decode fromstring w)
    as [[Hf [_ [_ [_ [[l He] _]]]]] Hlog].
  destruct (averaged decode fromstring w) as [w1 r] eqn:Haveraged.
  cbn [fst snd] in *. subst r.
  specialize (Hlog _ eq_refl).
  destruct (RecordFacts.averaged_lengths decode fromstring w w1 pm dm lm
              Haveraged) as [Hpm Hdm].
  pose proof (RecordFacts.save_on_fresh_path decode fromstring float_repr
                w w1 pm dm lm p x m_top m_bottom
                Haveraged Hpath Hx Hmt Hmb Hheader Hnone Hcreate) as Hsave.
  set (row := RecordFacts.written_row float_repr w dm lm pm x m_top m_bottom)
    in *.
  set (w3 := fst (emit (update_info_label_sig
                          (now_time w ++ " : Data saved in " ++ p) "default")
                    (store p [header (self w); row] w1))) in *.
  assert (Hrow : length row = length (header (self w))).
  { unfold row, RecordFacts.written_row.
    rewrite Hheader, !length_app, !length_map, Hpm, Hdm. simpl. lia. }
  (* the loop is entered again *)
  assert (Hready4 : ready (set_self (with_stop_flag false) w3))
    by exact Hready1.
  destruct (acquire_ready rounds _ Hready4) as [[] [Hacq _]].
  destruct (AcquisitionFacts.tidy_acquire decode fromstring rounds
              (set_self (with_stop_flag false) w3))
    as [[Hf4 [_ [_ [_ [[l4 He4] _]]]]] Hlog4].
  unfold w', saveData, st_bind. rewrite Hsave.
  rewrite AcquisitionFacts.readDataLoop_unfolded.
  destruct (acquire decode fromstring rounds
              (set_self (with_stop_flag false) w3)) as [w5 [[] | e]];
    cbn [fst snd] in *; [| discriminate].
  subst w3. unfold set_self, emit, st_modify, store in *.
  cbn [fst logged files emitted] in *.
  split; [reflexivity |].
  split; [rewrite (Hlog4 tt eq_refl); exact Hlog |].
  split.
  - exists row. rewrite Hf4, Hf.
    split; [exact Hrow |]. split; reflexivity.
  - exists l, l4. rewrite He4, He, <- !app_assoc. reflexivity.
Qed.

End WithParser.

(** The demo worker after a setup of eight taps and the choice of a
    path. *)
Definition demo_saving_world : world :=
  updatePath "Data/demo.csv"
    (fst (updateSetupData DataFacts.taps_top DataFacts.taps_bottom
            DataFacts.tap_coordinates AcquisitionFacts.demo_world)).

Lemma demo_saveData_creates_file_witness :
  snd (saveData Ok SerialDevicesFacts.unsigned_fromstring
         (fun _ => "0.0"%string) 1 demo_saving_world)
  = Ok tt.
Proof.
  refine (proj1 (demo_saveData_creates_file
                   Ok SerialDevicesFacts.unsigned_fromstring
                   (fun _ => "0.0"%string) 1 demo_saving_world
                   "Data/demo.csv" DataFacts.tap_coordinates
                   DataFacts.taps_top DataFacts.taps_bottom
                   _ eq_refl eq_refl eq_refl eq_refl eq_refl eq_refl
                   eq_refl)).
  repeat split; reflexivity.
Defined.

End DemoSaveFacts.

(** ** The two views, before and after the first result *)

Module ViewFacts.
Import Plot.

(** X15: in the pressure view (pause and cp not checked), as long as no
    calculation result has arrived, a tick never raises once the setup
    data are there, whether the spline option is checked or not: it shows
    the tap pressures of both surfaces as they are, empties the two spline
    lines, leaves the wing lines alone, refreshes the LCDs with the values
    the worker holds and enables the check boxes. *)
Theorem pressure_view_before_first_result
    (s : state) (line_box : bool) (x_top x_bottom p_top p_bottom : list R) :
  checkbox_tuple (self s) = (false, line_box, false) ->
  lift_data_available (self s) = false ->
  x_coordinates_top (self s) = Some x_top ->
  x_coordinates_bottom (self s) = Some x_bottom ->
  Np.bool_index (pressure_array (self s)) (mask_top (self s)) = Ok p_top ->
  Np.bool_index (pressure_array (self s)) (mask_bottom (self s))
  = Ok p_bottom ->
  let s' := fst (animate s) in
  snd (animate s) = Ok tt
  /\ line_pressures_top (art s') = (x_top, p_top)
  /\ line_pressures_bottom (art s') = (x_bottom, p_bottom)
  /\ line_spline_top (art s') = ([], [])
  /\ line_spline_bottom (art s') = ([], [])
  /\ line_wing_top (art s') = line_wing_top (art s)
  /\ line_wing_bottom (art s') = line_wing_bottom (art s)
  /\ lift_top_lcd (lcd s') = lift (self s)
  /\ dens_lcd (lcd s') = density (self s)
  /\ checkboxes_enabled s' = true
  /\ self s' = self s.
Proof.
  intros Hbox Hflag Hxt Hxb Hpt Hpb s'.
  assert (Hrun : animate s = plotPressures s).
  { unfold animate, st_bind, st_get. rewrite Hbox.
    destruct line_box; reflexivity. }
  unfold s'. rewrite Hrun.
  cbv [plotPressures st_bind st_get st_lift st_modify updateDynamicLCDs].
  cbn [self set_checkboxes set_art fst snd].
  rewrite Hxt, Hxb, Hpt, Hpb. cbn [attr].
  rewrite Hbox, Hflag. cbn [fst snd]. rewrite andb_false_r.
  repeat split; reflexivity.
Qed.

(** The wing outline of a surface whose resampled abscissae are not
    empty. *)
Lemma wing_outline_returns (sign scale : R) (x y : list R) :
  x <> [] ->
  wing_outline sign scale x y
  = Ok (Np.div_scalar x (last x 0), Np.scale_r (Np.scale sign y) scale).
Proof.
  intros Hx. unfold wing_outline.
  rewrite ResultFacts.getitem_neg_1; [reflexivity |].
  destruct x; [contradiction | simpl; lia].
Qed.

(** A tick with the spline option checked, on a worker that holds a
    result. *)
Lemma spline_view_returns
    (s : state) (cp_box : bool)
    (x_top x_bottom p_top p_bottom x_grid s_top s_bottom : list R) :
  checkbox_tuple (self s) = (false, true, cp_box) ->
  x_coordinates_top (self s) = Some x_top ->
  x_coordinates_bottom (self s) = Some x_bottom ->
  Np.bool_index (pressure_array (self s)) (mask_top (self s)) = Ok p_top ->
  Np.bool_index (pressure_array (self s)) (mask_bottom (self s))
  = Ok p_bottom ->
  x_grid_interpolation (self s) = Some x_grid ->
  spline_top (self s) = Some s_top ->
  spline_bottom (self s) = Some s_bottom ->
  lift_data_available (self s) = true ->
  x_wing_interpolation_top (self s) <> [] ->
  x_wing_interpolation_bottom (self s) <> [] ->
  let s' := fst (animate s) in
  let shown (a : list R) :=
    if cp_box
    then Np.div_scalar a (0.5 * velocity (self s) ^ 2 * density (self s))
    else a in
  let scale :=
    if cp_box then y_wing_scale_cp (self s)
    else y_wing_scale_pressures (self s) in
  snd (animate s) = Ok tt
  /\ line_spline_top (art s') = (x_grid, shown s_top)
  /\ line_spline_bottom (art s') = (x_grid, shown s_bottom)
  /\ line_wing_top (art s')
     = (Np.div_scalar (x_wing_interpolation_top (self s))
          (last (x_wing_interpolation_top (self s)) 0),
        Np.scale_r (Np.scale (wing_sign (self s)) (y_wing_top (self s)))
          scale)
  /\ line_wing_bottom (art s')
     = (Np.div_scalar (x_wing_interpolation_bottom (self s))
          (last (x_wing_interpolation_bottom (self s)) 0),
        Np.scale_r (Np.scale (wing_sign (self s)) (y_wing_bottom (self s)))
          scale).
Proof.
  intros Hbox Hxt Hxb Hpt Hpb Hg Hst Hsb Hflag Hwt Hwb s' shown scale.
  unfold s', shown, scale. clear s' shown scale.
  assert (Hrun : animate s = if cp_box then plotCp s else plotPressures s).
  { unfold animate, st_bind, st_get. rewrite Hbox.
    destruct cp_box; reflexivity. }
  rewrite Hrun. clear Hrun.
  destruct cp_box.
  - cbv [plotCp st_bind st_get st_lift st_modify].
    cbn [self set_checkboxes set_art fst snd].
    rewrite Hxt, Hxb, Hpt, Hpb, Hg, Hst, Hsb. cbn [attr].
    rewrite Hbox. cbn [fst snd attr].
    rewrite (wing_outline_returns _ _ _ _ Hwt).
    rewrite (wing_outline_returns _ _ _ _ Hwb).
    repeat split; reflexivity.
  - cbv [plotPressures st_bind st_get st_lift st_modify updateDynamicLCDs].
    cbn [self set_checkboxes set_art fst snd].
    rewrite Hxt, Hxb, Hpt, Hpb, Hg, Hst, Hsb. cbn [attr].
    rewrite Hbox, Hflag. cbn [fst snd attr andb].
    rewrite (wing_outline_returns _ _ _ _ Hwt).
    rewrite (wing_outline_returns _ _ _ _ Hwb).
    repeat split; reflexivity.
Qed.

(** X16: once a calculation result has been delivered, a tick with the
    spline option checked never raises in either view, provided the setup
    data are there and the two resampled wing curves of the result are not
    empty.  The spline lines show the spline arrays of the result over its
    grid, divided by [0.5 * velocity^2 * density] in the coefficient view
    and as they are in the pressure view; each wing line shows the
    resampled abscissae divided by the last of them against the ordinates
    times the wing sign and the scale of the view. *)
Theorem spline_view_after_result
    (s : state) (t : Calculations.lift_and_splines) (cp_box : bool)
    (x_top x_bottom p_top p_bottom : list R) :
  checkbox_tuple (self s) = (false, true, cp_box) ->
  x_coordinates_top (self s) = Some x_top ->
  x_coordinates_bottom (self s) = Some x_bottom ->
  Np.bool_index (pressure_array (self s)) (mask_top (self s)) = Ok p_top ->
  Np.bool_index (pressure_array (self s)) (mask_bottom (self s))
  = Ok p_bottom ->
  Calculations.r_lift_data_available t = true ->
  Calculations.r_x_wing_interpolation_top t <> [] ->
  Calculations.r_x_wing_interpolation_bottom t <> [] ->
  let s' := fst (animate (updateLiftAndSplines t s)) in
  let shown (a : list R) :=
    if cp_box
    then Np.div_scalar a (0.5 * velocity (self s) ^ 2 * density (self s))
    else a in
  let scale :=
    if cp_box then y_wing_scale_cp (self s)
    else y_wing_scale_pressures (self s) in
  snd (animate (updateLiftAndSplines t s)) = Ok tt
  /\ line_spline_top (art s')
     = (Calculations.r_x_grid_interpolation t,
        shown (Calculations.r_spline_top t))
  /\ line_spline_bottom (art s')
     = (Calculations.r_x_grid_interpolation t,
        shown (Calculations.r_spline_bottom t))
  /\ line_wing_top (art s')
     = (Np.div_scalar (Calculations.r_x_wing_interpolation_top t)
          (last (Calculations.r_x_wing_interpolation_top t) 0),
        Np.scale_r
          (Np.scale (wing_sign (self s)) (Calculations.r_y_wing_top t))
          scale)
  /\ line_wing_bottom (art s')
     = (Np.div_scalar (Calculations.r_x_wing_interpolation_bottom t)
          (last (Calculations.r_x_wing_interpolation_bottom t) 0),
        Np.scale_r
          (Np.scale (wing_sign (self s)) (Calculations.r_y_wing_bottom t))
          scale).
Proof.
  intros Hbox Hxt Hxb Hpt Hpb Hflag Hwt Hwb.
  exact (spline_view_returns (updateLiftAndSplines t s) cp_box
           x_top x_bottom p_top p_bottom
           (Calculations.r_x_grid_interpolation t)
           (Calculations.r_spline_top t) (Calculations.r_spline_bottom t)
           Hbox Hxt Hxb Hpt Hpb eq_refl eq_refl eq_refl Hflag Hwt Hwb).
Qed.

(** A result with two-point wing curves. *)
(** In the coefficient view with the spline option checked a tick writes
    the lines only. *)
Lemma cp_spline_tick_keeps_displays (s s' : state) :
  checkbox_tuple (self s) = (false, true, true) ->
  animate s = (s', Ok tt) ->
  lcd s' = lcd s /\ self s' = self s.
Proof.
  intros Hbox Hrun.
  unfold animate, st_bind, st_get in Hrun. rewrite Hbox in Hrun.
  cbv [plot_options_dict plotCp st_bind st_get st_lift st_modify] in Hrun.
  cbn [self set_checkboxes set_art fst snd] in Hrun.
  destruct (x_coordinates_top (self s)) as [xt |]; [| discriminate].
  cbn [attr] in Hrun.
  destruct (Np.bool_index (pressure_array (self s)) (mask_top (self s)))
    as [pt | e]; [| discriminate].
  destruct (x_coordinates_bottom (self s)) as [xb |]; [| discriminate].
  cbn [attr] in Hrun.
  destruct (Np.bool_index (pressure_array (self s)) (mask_bottom (self s)))
    as [pb | e]; [| discriminate].
  rewrite Hbox in Hrun. cbn [fst snd] in Hrun.
  destruct (x_grid_interpolation (self s)) as [g |]; [| discriminate].
  destruct (spline_top (self s)) as [st |]; [| discriminate].
  destruct (spline_bottom (self s)) as [sb |]; [| discriminate].
  cbn [attr] in Hrun.
  destruct (wing_outline (wing_sign (self s)) (y_wing_scale_cp (self s))
              (x_wing_interpolation_top (self s)) (y_wing_top (self s)))
    as [wt | e]; [| discriminate].
  destruct (wing_outline (wing_sign (self s)) (y_wing_scale_cp (self s))
              (x_wing_interpolation_bottom (self s)) (y_wing_bottom (self s)))
    as [wb | e]; [| discriminate].
  injection Hrun as <-. split; reflexivity.
Qed.

(** X26: in the coefficient view with the spline option checked, a tick
    that ends normally does not refresh the numeric displays: [plotCp]
    calls [updateDynamicLCDs] in its [else] branch only.  After a new
    calculation result has been delivered the worker holds the new lift,
    and the LCDs still show what they showed before. *)
Theorem coefficient_view_with_splines_keeps_displays
    (s s' : state) (t : Calculations.lift_and_splines) :
  checkbox_tuple (self s) = (false, true, true) ->
  animate (updateLiftAndSplines t s) = (s', Ok tt) ->
  lcd s' = lcd s
  /\ lift (self s') = Calculations.r_lift t.
Proof.
  intros Hbox Hrun.
  destruct (cp_spline_tick_keeps_displays (updateLiftAndSplines t s) s'
              Hbox Hrun) as [Hlcd Hself].
  split; [exact Hlcd |]. rewrite Hself. reflexivity.
Qed.

Definition flat_result : Calculations.lift_and_splines :=
  {| Calculations.r_lift := 4;
     Calculations.r_spline_top := [1; 2];
     Calculations.r_spline_bottom := [3; 4];
     Calculations.r_x_grid_interpolation := [0; 1];
     Calculations.r_y_wing_top := [0; 0];
     Calculations.r_y_wing_bottom := [0; 0];
     Calculations.r_x_wing_interpolation_top := [0; 1];
     Calculations.r_x_wing_interpolation_bottom := [0; 1];
     Calculations.r_lift_data_available := true |}.

Lemma pressure_view_before_first_result_witness :
  snd (animate (PlotFacts.cold_plot (false, true, false))) = Ok tt
  /\ line_pressures_top
       (art (fst (animate (PlotFacts.cold_plot (false, true, false)))))
     = ([0.1; 0.3; 0.6; 0.9], [101; 102; 103; 104]).
Proof.
  pose proof (pressure_view_before_first_result
                (PlotFacts.cold_plot (false, true, false)) true
                [0.1; 0.3; 0.6; 0.9] [0.1; 0.3; 0.6; 0.9]
                [101; 102; 103; 104] [105; 106; 107; 108]
                eq_refl eq_refl eq_refl eq_refl eq_refl eq_refl) as H.
  cbv zeta in H. destruct H as [Hok [Hline _]].
  split; [exact Hok | exact Hline].
Defined.

Lemma spline_view_returns_cold :
  snd (animate (updateLiftAndSplines flat_result
                  (PlotFacts.cold_plot (false, true, true)))) = Ok tt.
Proof.
  refine (proj1 (spline_view_returns
                   (updateLiftAndSplines flat_result
                      (PlotFacts.cold_plot (false, true, true)))
                   true _ _ _ _ _ _ _
                   eq_refl eq_refl eq_refl eq_refl eq_refl eq_refl eq_refl
                   eq_refl eq_refl _ _)); discriminate.
Qed.

Lemma spline_view_after_result_witness :
  snd (animate (updateLiftAndSplines flat_result
                  (PlotFacts.cold_plot (false, true, true)))) = Ok tt.
Proof.
  refine (proj1 (spline_view_after_result
                   (PlotFacts.cold_plot (false, true, true)) flat_result true
                   [0.1; 0.3; 0.6; 0.9] [0.1; 0.3; 0.6; 0.9]
                   [101; 102; 103; 104] [105; 106; 107; 108]
                   eq_refl eq_refl eq_refl eq_refl eq_refl eq_refl _ _));
    discriminate.
Defined.

Lemma coefficient_view_with_splines_keeps_displays_witness :
  lift_top_lcd
    (lcd (fst (animate (updateLiftAndSplines flat_result
                          (PlotFacts.cold_plot (false, true, true))))))
  = lift_top_lcd (lcd (PlotFacts.cold_plot (false, true, true)))
  /\ lift (self (fst (animate (updateLiftAndSplines flat_result
                                 (PlotFacts.cold_plot (false, true, true))))))
     = 4.
Proof.
  assert (Hrun :
    animate (updateLiftAndSplines flat_result
               (PlotFacts.cold_plot (false, true, true)))
    = (fst (animate (updateLiftAndSplines flat_result
                       (PlotFacts.cold_plot (false, true, true)))),
       Ok tt)).
  { pose proof spline_view_returns_cold as H.
    destruct (animate (updateLiftAndSplines flat_result
                         (PlotFacts.cold_plot (false, true, true))))
      as [s' r].
    cbn [fst snd] in *. rewrite H. reflexivity. }
  destruct (coefficient_view_with_splines_keeps_displays
              (PlotFacts.cold_plot (false, true, true)) _ flat_result
              eq_refl Hrun) as [Hlcd Hlift].
  split; [rewrite Hlcd; reflexivity | exact Hlift].
Defined.

End ViewFacts.

(** ** The outcome of the setup action *)

Module SetUpOutcome.
Import SetUpWindow.

(** *** The masks *)

Lemma bitwise_and_returns (a : list bool) :
  forall b : list bool,
    length a = length b ->
    bitwise_and a b = Ok (map (fun uv => fst uv && snd uv) (combine a b)).
Proof.
  induction a as [| u a IH]; intros [| v b] H; simpl in H; try discriminate.
  - reflexivity.
  - cbn [bitwise_and]. rewrite IH by lia. reflexivity.
Qed.

(** X17: the two masks that [setUp] builds from the status boxes and the
    colour boxes split the active taps between the surfaces: with one
    colour box per status box both masks exist, no tap is in both, an
    inactive tap is in neither, every active tap is in exactly one (the
    top mask when its colour box is checked, the bottom mask otherwise),
    and the two counts add up to the number of active taps. *)
Theorem masks_split_active_taps (status colors : list bool) :
  length status = length colors ->
  exists m_top m_bottom,
    bitwise_and status colors = Ok m_top
    /\ bitwise_and status (invert colors) = Ok m_bottom
    /\ length m_top = length status /\ length m_bottom = length status
    /\ (forall i,
          nth i m_top false = nth i status false && nth i colors false
          /\ nth i m_bottom false
             = nth i status false && negb (nth i colors false))
    /\ (count m_top + count m_bottom = count status)%nat.
Proof.
  revert colors. induction status as [| u status IH];
    intros [| c colors] Hlen; simpl in Hlen; try discriminate.
  - exists [], []. repeat split; try reflexivity;
      destruct i; reflexivity.
  - destruct (IH colors) as [mt [mb [Ht [Hb [Hlt [Hlb [Hnth Hcount]]]]]]];
      [lia |].
    exists ((u && c) :: mt), ((u && negb c) :: mb).
    cbn [bitwise_and invert map]. unfold invert in Hb. rewrite Ht, Hb.
    cbn [bind].
    split; [reflexivity |]. split; [reflexivity |].
    split; [simpl; lia |]. split; [simpl; lia |].
    split.
    + intros [| i]; cbn [nth]; [split; reflexivity | apply Hnth].
    + unfold count in *. destruct u, c; simpl; lia.
Qed.

Lemma masks_split_active_taps_witness :
  exists m_top m_bottom,
    bitwise_and [true; true; false; true] [true; false; true; false]
    = Ok m_top
    /\ bitwise_and [true; true; false; true]
         (invert [true; false; true; false]) = Ok m_bottom
    /\ (count m_top + count m_bottom = 3)%nat.
Proof.
  destruct (masks_split_active_taps [true; true; false; true]
              [true; false; true; false] eq_refl)
    as [mt [mb [Ht [Hb [_ [_ [_ Hc]]]]]]].
  exists mt, mb. split; [exact Ht | split; [exact Hb | exact Hc]].
Defined.

(** *** The duplicate test *)

(** X18: the duplicate test of [setUp] on the coordinates of one surface
    ([np.unique] with [return_index], [np.setdiff1d] and [.any()]) fires
    exactly when two taps of the surface have the same coordinate.  It
    cannot miss a repetition because index 0, the one index [.any()]
    takes for false, is never the index of a repetition. *)
Theorem duplicate_test_finds_repetition (coordinates : list R) :
  any (duplicate_indices coordinates) = true
  <-> exists i j,
        (i < j)%nat /\ (j < length coordinates)%nat
        /\ nth i coordinates 0 = nth j coordinates 0.
Proof.
  split.
  - intros Hany. unfold any in Hany. apply existsb_exists in Hany.
    destruct Hany as [j [Hd _]].
    apply SetUpFacts.duplicate_indices_In in Hd. destruct Hd as [Hj Hin].
    destruct (SetUpFacts.In_firstn_nth coordinates j _ Hin)
      as [i [Hij [_ Heq]]].
    exists i, j. repeat split; assumption.
  - intros [i [j [Hij [Hj Heq]]]].
    unfold any. apply existsb_exists. exists j. split.
    + apply SetUpFacts.duplicate_indices_In. split; [exact Hj |].
      rewrite <- Heq. apply SetUpFacts.nth_In_firstn; lia.
    + destruct j; [lia | reflexivity].
Qed.


(** *** The plot button *)

(** The state of the plot button after the signals [l], when it was [b]
    before. *)
Definition button_after (b : bool) (l : list signal) : bool :=
  fold_left
    (fun b sg =>
       match sg with
       | switch_plot_button_sig status => status
       | _ => b
       end) l b.

Lemma deliver_button (l : list signal) :
  forall sys : Main.system,
    Main.show_plot_button (fold_left Main.deliver l sys)
    = button_after (Main.show_plot_button sys) l.
Proof.
  induction l as [| sg l IH]; intros sys; [reflexivity |].
  cbn [fold_left button_after]. rewrite IH.
  destruct sg; reflexivity.
Qed.

Lemma assign_all_matching {A : Type} (values array : list A) :
  length values = length array ->
  assign_all values array = (values, Ok tt).
Proof.
  intros H. unfold assign_all.
  rewrite H, Nat.leb_refl, skipn_all, app_nil_r. reflexivity.
Qed.

(** With one widget per array entry, the first steps of [setUp] copy the
    widgets into the attributes. *)
Lemma read_widgets_matching (s : state) :
  length (checkbox_list s) = length (x_coordinates_status s) ->
  length (spinbox_list s) = length (x_coordinates s) ->
  length (checkbox_color_list s) = length (color_code s) ->
  read_widgets s
  = (with_arrays (checkbox_list s) (spinbox_list s) (checkbox_color_list s)
       (with_ports (pressure_line_edit s) (density_line_edit s) s), Ok tt).
Proof.
  intros H1 H2 H3.
  unfold read_widgets, st_bind, st_get, st_modify,
    read_status, read_coordinates, read_colors.
  cbn [checkbox_list x_coordinates_status with_ports].
  rewrite (assign_all_matching _ _ H1).
  cbn [spinbox_list x_coordinates with_arrays with_ports].
  rewrite (assign_all_matching _ _ H2).
  cbn [checkbox_color_list color_code with_arrays with_ports
         x_coordinates_status x_coordinates].
  rewrite (assign_all_matching _ _ H3).
  reflexivity.
Qed.

Section WithRuntime.

Variable decode : string -> res string.
Variable fromstring : string -> list R.
Variable open_port : string -> N -> res Serial.port.

(** Whether both devices can be opened and both answer their first query
    with an array of their arity. *)
Definition devices_answer (s : state) : bool :=
  match SerialDevices.init (open_port (pressure_port s) (baud_rate s))
          (pressure_port s) (expected_shape_pressure s),
        SerialDevices.init (open_port (density_port s) (baud_rate s))
          (density_port s) (expected_shape_density s)
  with
  | Ok pressure_device, Ok density_device =>
      match snd (SerialDevices.getNewData decode fromstring pressure_device),
            snd (SerialDevices.getNewData decode fromstring density_device)
      with
      | Ok _, Ok _ => true
      | _, _ => false
      end
  | _, _ => false
  end.

Lemma connect_devices_button (s : state) :
  exists l,
    emitted (fst (connect_devices decode fromstring open_port s))
    = emitted s ++ l
    /\ forall b, button_after b l = devices_answer s.
Proof.
  unfold connect_devices, devices_answer, st_try, st_bind, st_get, st_lift,
    st_ret.
  destruct (SerialDevices.init (open_port (pressure_port s) (baud_rate s))
              (pressure_port s) (expected_shape_pressure s)) as [pd | e].
  2: { exists [switch_plot_button_sig false]. split; reflexivity. }
  destruct (SerialDevices.init (open_port (density_port s) (baud_rate s))
              (density_port s) (expected_shape_density s)) as [dd | e].
  2: { exists [switch_plot_button_sig false]. split; reflexivity. }
  destruct (SerialDevices.getNewData decode fromstring pd) as [pd' r1].
  destruct r1 as [v1 | e1]; cbn [snd].
  - destruct (SerialDevices.getNewData decode fromstring dd) as [dd' r2].
    destruct r2 as [v2 | e2]; cbn [snd].
    + exists [send_serial_connections_sig pd' dd';
              switch_plot_button_sig true].
      split; [cbn; rewrite <- app_assoc; reflexivity | reflexivity].
    + exists [send_serial_connections_sig pd' dd';
              switch_plot_button_sig true; switch_plot_button_sig false].
      split; [cbn; rewrite <- !app_assoc; reflexivity | reflexivity].
  - exists [send_serial_connections_sig pd' dd;
            switch_plot_button_sig true; switch_plot_button_sig false].
    split; [cbn; rewrite <- !app_assoc; reflexivity |].
    intros b.
    destruct (snd (SerialDevices.getNewData decode fromstring dd));
      reflexivity.
Qed.

(** The candidate passes the two tests of [validate]. *)
Definition passes (m_top m_bottom : list bool) (top bottom : list R) : bool :=
  negb ((count m_top <? 2)%nat || (count m_bottom <? 2)%nat)
  && negb (any (duplicate_indices top) || any (duplicate_indices bottom)).

Lemma validate_button (s : state) (m_top m_bottom : list bool)
    (top bottom : list R) :
  bitwise_and (x_coordinates_status s) (color_code s) = Ok m_top ->
  bitwise_and (x_coordinates_status s) (invert (color_code s))
  = Ok m_bottom ->
  Np.bool_index (x_coordinates s) m_top = Ok top ->
  Np.bool_index (x_coordinates s) m_bottom = Ok bottom ->
  exists l,
    emitted (fst (validate decode fromstring open_port s)) = emitted s ++ l
    /\ forall b,
         button_after b l
         = passes m_top m_bottom top bottom
           && (demo_mode s || devices_answer s).
Proof.
  intros Emt Emb Ect Ecb.
  unfold validate, st_bind at 1, st_get.
  unfold st_bind at 1, st_lift at 1. rewrite Emt.
  unfold st_bind at 1, st_lift at 1. rewrite Emb.
  unfold st_bind at 1, st_lift at 1. rewrite Ect.
  unfold st_bind at 1, st_lift at 1. rewrite Ecb.
  unfold passes. rewrite <- negb_orb.
  destruct ((count m_top <? 2)%nat || (count m_bottom <? 2)%nat);
    destruct (any (duplicate_indices top) || any (duplicate_indices bottom));
    cbn [negb andb].
  - exists [switch_plot_button_sig false; switch_plot_button_sig false].
    split; [| reflexivity].
    unfold st_bind, showWarning, emit, st_modify, st_ret.
    cbn [fst snd emitted]. rewrite <- !app_assoc. reflexivity.
  - exists [switch_plot_button_sig false].
    split; [| reflexivity].
    unfold st_bind, showWarning, emit, st_modify, st_ret.
    cbn [fst snd emitted]. rewrite <- ?app_assoc. reflexivity.
  - exists [switch_plot_button_sig false].
    split; [| reflexivity].
    unfold st_bind, showWarning, emit, st_modify, st_ret.
    cbn [fst snd emitted]. rewrite <- ?app_assoc. reflexivity.
  - destruct (demo_mode s) eqn:Hdemo; cbn [orb].
    + exists [update_sig m_top m_bottom (x_coordinates s);
              path_name_sig (path s); switch_plot_button_sig true].
      split; [| reflexivity].
      unfold st_bind, emit, st_modify, st_ret.
      cbn [fst snd emitted]. rewrite <- !app_assoc. reflexivity.
    + destruct (connect_devices_button
                  (fst ((emit (update_sig m_top m_bottom (x_coordinates s))
                         >>> emit (path_name_sig (path s))) s)))
        as [l [Hl Hb]].
      exists ([update_sig m_top m_bottom (x_coordinates s);
               path_name_sig (path s)] ++ l).
      split.
      * unfold st_bind at 1, st_ret at 1. unfold st_bind at 1, st_ret at 1.
        unfold st_bind at 1. unfold emit at 1, st_modify at 1.
        unfold st_bind at 1. unfold emit at 1, st_modify at 1.
        unfold st_bind, emit, st_modify in Hl. cbn [fst] in Hl.
        match goal with
        | |- context [connect_devices _ _ _ ?t] =>
            destruct (connect_devices decode fromstring open_port t)
              as [s3 [[] | e3]]
        end; cbn [fst] in *; rewrite Hl; cbn [emitted];
          rewrite <- !app_assoc; reflexivity.
      * intros b. cbn [app button_after fold_left].
        exact (Hb b).
Qed.

(** X20: what the setup action does to the plot button, when the window
    has one widget per array entry.  Let the masks be built from the
    status and colour boxes and let them select [top] and [bottom] from
    the spin boxes.  After [setUp] the button is enabled exactly when both
    surfaces have two taps or more, neither has a coordinate twice, and
    either the demo mode is on or both devices could be opened under the
    port names of the line edits and have answered their first query with
    an array of their arity.  The state of the button before does not
    matter. *)
Theorem setUp_decides_plot_button
    (sys : Main.system) (m_top m_bottom : list bool) (top bottom : list R) :
  let w := Main.setup_window sys in
  length (checkbox_list w) = length (x_coordinates_status w) ->
  length (spinbox_list w) = length (x_coordinates w) ->
  length (checkbox_color_list w) = length (color_code w) ->
  bitwise_and (checkbox_list w) (checkbox_color_list w) = Ok m_top ->
  bitwise_and (checkbox_list w) (invert (checkbox_color_list w))
  = Ok m_bottom ->
  Np.bool_index (spinbox_list w) m_top = Ok top ->
  Np.bool_index (spinbox_list w) m_bottom = Ok bottom ->
  Main.show_plot_button (Main.setUp decode fromstring open_port sys) = true
  <-> ((2 <= count m_top)%nat /\ (2 <= count m_bottom)%nat
       /\ NoDup top /\ NoDup bottom
       /\ (demo_mode w = true
           \/ devices_answer
                (with_ports (pressure_line_edit w) (density_line_edit w) w)
              = true)).
Proof.
  intros w H1 H2 H3 Emt Emb Ect Ecb.
  set (w1 := with_arrays (checkbox_list w) (spinbox_list w)
               (checkbox_color_list w)
               (with_ports (pressure_line_edit w) (density_line_edit w) w)).
  destruct (validate_button w1 m_top m_bottom top bottom Emt Emb Ect Ecb)
    as [l [Hl Hb]].
  assert (Hemitted :
    emitted (fst (setUp decode fromstring open_port w)) = emitted w ++ l).
  { unfold setUp, st_bind at 1.
    rewrite (read_widgets_matching w H1 H2 H3). fold w1.
    unfold st_bind.
    destruct (validate decode fromstring open_port w1) as [w2 [[] | e]];
      cbn [fst] in *; exact Hl. }
  assert (Hbutton :
    Main.show_plot_button (Main.setUp decode fromstring open_port sys)
    = passes m_top m_bottom top bottom
      && (demo_mode w1 || devices_answer w1)).
  { unfold Main.setUp. rewrite deliver_button. fold w.
    rewrite Hemitted, skipn_app, skipn_all, Nat.sub_diag.
    cbn [skipn app]. apply Hb. }
  rewrite Hbutton. unfold passes.
  rewrite !andb_true_iff, !negb_true_iff, !orb_false_iff, orb_true_iff,
    !Nat.ltb_ge, !SetUpFacts.any_duplicate_indices.
  change (demo_mode w1) with (demo_mode w).
  change (devices_answer w1)
    with (devices_answer
            (with_ports (pressure_line_edit w) (density_line_edit w) w)).
  tauto.
Qed.

End WithRuntime.

Lemma setUp_decides_plot_button_witness :
  Main.show_plot_button
    (Main.setUp Ok SerialDevicesFacts.unsigned_fromstring
       (fun _ _ => Raise PortNotOpenError) SetUpFacts.first_system) = true.
Proof.
  refine (proj2 (setUp_decides_plot_button
                   Ok SerialDevicesFacts.unsigned_fromstring
                   (fun _ _ => Raise PortNotOpenError)
                   SetUpFacts.first_system
                   DataFacts.taps_top DataFacts.taps_bottom
                   [0.1; 0.3; 0.6; 0.9] [0.1; 0.3; 0.6; 0.9]
                   eq_refl eq_refl eq_refl eq_refl eq_refl eq_refl eq_refl)
                _).
  split; [vm_compute; lia |]. split; [vm_compute; lia |].
  split; [exact SetUpFacts.distinct_coordinates |].
  split; [exact SetUpFacts.distinct_coordinates |].
  left. reflexivity.
Defined.

(** *** The file dialog *)

Lemma contains_csv_suffix (a : string) :
  contains ".csv" (a ++ ".csv") = true.
Proof.
  induction a as [| c a IH]; [reflexivity |].
  cbn [append contains]. rewrite IH. apply orb_true_r.
Qed.

(** X22: [openFileDialog] never raises and always sends the path the
    window then holds on [path_name_sig], also when the user has cancelled
    the dialog; a cancelled dialog leaves the path as it was.  After a
    confirmed dialog the path contains ".csv": it is the chosen name when
    that name contains ".csv" anywhere, and the chosen name followed by
    ".csv" otherwise. *)
Theorem openFileDialog_sends_csv_path (filename ok : string) (s : state) :
  let s' := fst (openFileDialog filename ok s) in
  snd (openFileDialog filename ok s) = Ok tt
  /\ emitted s' = emitted s ++ [path_name_sig (path s')]
  /\ (ok = EmptyString -> path s' = path s)
  /\ (ok <> EmptyString ->
      contains ".csv" (path s') = true
      /\ (contains ".csv" filename = true -> path s' = filename)
      /\ (contains ".csv" filename = false ->
          path s' = (filename ++ ".csv")%string)).
Proof.
  intros s'. unfold s'. unfold openFileDialog.
  destruct ok as [| c ok].
  - unfold st_bind, st_ret, st_get, emit, st_modify. cbn [fst snd emitted path].
    split; [reflexivity |]. split; [reflexivity |].
    split; [reflexivity |]. intros H. contradiction.
  - destruct (contains ".csv" filename) eqn:Hc;
      unfold st_bind, st_ret, st_get, emit, st_modify;
      cbn [fst snd emitted path with_path];
      (split; [reflexivity |]); (split; [reflexivity |]);
      (split; [discriminate |]); intros _.
    + split; [exact Hc |]. split; [reflexivity | discriminate].
    + split; [apply contains_csv_suffix |].
      split; [discriminate | reflexivity].
Qed.

End SetUpOutcome.

(** ** An accepted setup, seen from the workers *)

Module DeliveryFacts.
Import SetUpWindow.

(** The setup data the three workers hold: for the data worker also the
    path. *)
Definition data_setup (w : Data.world) :=
  (Data.mask_top (Data.self w), Data.mask_bottom (Data.self w),
   Data.x_coordinates (Data.self w),
   Data.x_coordinates_top (Data.self w),
   Data.x_coordinates_bottom (Data.self w),
   Data.path (Data.self w)).

Definition plot_setup (p : Plot.state) :=
  (Plot.mask_top (Plot.self p), Plot.mask_bottom (Plot.self p),
   Plot.x_coordinates (Plot.self p),
   Plot.x_coordinates_top (Plot.self p),
   Plot.x_coordinates_bottom (Plot.self p)).

Definition calculations_setup (c : Calculations.state) :=
  (Calculations.mask_top c, Calculations.mask_bottom c,
   Calculations.x_coordinates c,
   Calculations.x_coordinates_top c,
   Calculations.x_coordinates_bottom c).

Definition received (sys : Main.system) :=
  (data_setup (Main.data_worker sys),
   plot_setup (Main.plot_worker sys),
   calculations_setup (Main.calculations_worker sys)).

(** The signals of the device check. *)
Definition device_signal (sg : signal) : Prop :=
  match sg with
  | send_serial_connections_sig _ _ => True
  | switch_plot_button_sig _ => True
  | _ => False
  end.

Lemma deliver_device_signals (l : list signal) :
  Forall device_signal l ->
  forall sys : Main.system, received (fold_left Main.deliver l sys) = received sys.
Proof.
  induction 1 as [| sg l Hsg _ IH]; intros sys; [reflexivity |].
  cbn [fold_left]. rewrite IH.
  destruct sg; try contradiction; reflexivity.
Qed.

(** What the three slots [updateSetupData] and the slot [updatePath] store
    when the masks fit the coordinates: the setup data followed by the
    path. *)
Lemma deliver_update_path (sys : Main.system) (m_top m_bottom : list bool)
    (x top bottom : list R) (p : string) :
  Np.bool_index x m_top = Ok top ->
  Np.bool_index x m_bottom = Ok bottom ->
  received (Main.deliver (Main.deliver sys (update_sig m_top m_bottom x))
              (path_name_sig p))
  = ((Some m_top, Some m_bottom, Some x, Some top, Some bottom, Some p),
     (m_top, m_bottom, Some x, Some top, Some bottom),
     (Some m_top, Some m_bottom, Some x, Some top, Some bottom)).
Proof.
  intros Et Eb.
  unfold received, Main.deliver.
  cbn [Main.data_worker Main.plot_worker Main.calculations_worker].
  unfold Data.updateSetupData, Plot.updateSetupData,
    Calculations.updateSetupData, st_bind, st_modify, st_lift.
  rewrite Et, Eb. reflexivity.
Qed.

Section WithRuntime.

Variable decode : string -> res string.
Variable fromstring : string -> list R.
Variable open_port : string -> N -> res Serial.port.

Lemma connect_devices_signals (s : state) :
  exists l,
    emitted (fst (connect_devices decode fromstring open_port s))
    = emitted s ++ l
    /\ Forall device_signal l.
Proof.
  unfold connect_devices, st_try, st_bind, st_get, st_lift, st_ret.
  destruct (SerialDevices.init (open_port (pressure_port s) (baud_rate s))
              (pressure_port s) (expected_shape_pressure s)) as [pd | e].
  2: { exists [switch_plot_button_sig false].
       split; [reflexivity | repeat constructor]. }
  destruct (SerialDevices.init (open_port (density_port s) (baud_rate s))
              (density_port s) (expected_shape_density s)) as [dd | e].
  2: { exists [switch_plot_button_sig false].
       split; [reflexivity | repeat constructor]. }
  destruct (SerialDevices.getNewData decode fromstring pd) as [pd' r1].
  destruct r1 as [v1 | e1].
  - destruct (SerialDevices.getNewData decode fromstring dd) as [dd' r2].
    destruct r2 as [v2 | e2].
    + exists [send_serial_connections_sig pd' dd';
              switch_plot_button_sig true].
      split; [cbn; rewrite <- app_assoc; reflexivity | repeat constructor].
    + exists [send_serial_connections_sig pd' dd';
              switch_plot_button_sig true; switch_plot_button_sig false].
      split; [cbn; rewrite <- !app_assoc; reflexivity | repeat constructor].
  - exists [send_serial_connections_sig pd' dd;
            switch_plot_button_sig true; switch_plot_button_sig false].
    split; [cbn; rewrite <- !app_assoc; reflexivity | repeat constructor].
Qed.

(** The signals of [validate] for a candidate that passes: the setup
    data, the path, then the signals of the device check. *)
Lemma validate_accepts (s : state) (m_top m_bottom : list bool)
    (top bottom : list R) :
  bitwise_and (x_coordinates_status s) (color_code s) = Ok m_top ->
  bitwise_and (x_coordinates_status s) (invert (color_code s))
  = Ok m_bottom ->
  Np.bool_index (x_coordinates s) m_top = Ok top ->
  Np.bool_index (x_coordinates s) m_bottom = Ok bottom ->
  SetUpOutcome.passes m_top m_bottom top bottom = true ->
  exists l,
    emitted (fst (validate decode fromstring open_port s))
    = emitted s
      ++ update_sig m_top m_bottom (x_coordinates s)
         :: path_name_sig (path s) :: l
    /\ Forall device_signal l.
Proof.
  intros Emt Emb Ect Ecb Hpass.
  unfold SetUpOutcome.passes in Hpass.
  apply andb_true_iff in Hpass. destruct Hpass as [Hshort Hdup].
  apply negb_true_iff in Hshort. apply negb_true_iff in Hdup.
  unfold validate, st_bind at 1, st_get.
  unfold st_bind at 1, st_lift at 1. rewrite Emt.
  unfold st_bind at 1, st_lift at 1. rewrite Emb.
  unfold st_bind at 1, st_lift at 1. rewrite Ect.
  unfold st_bind at 1, st_lift at 1. rewrite Ecb.
  rewrite <- negb_orb. rewrite Hshort, Hdup. cbn [negb andb].
  destruct (demo_mode s) eqn:Hdemo.
  - exists [switch_plot_button_sig true].
    split; [| repeat constructor].
    unfold st_bind, emit, st_modify, st_ret.
    cbn [fst snd emitted]. rewrite <- !app_assoc. reflexivity.
  - destruct (connect_devices_signals
                (fst ((emit (update_sig m_top m_bottom (x_coordinates s))
                       >>> emit (path_name_sig (path s))) s)))
      as [l [Hl Hdev]].
    exists l. split; [| exact Hdev].
    unfold st_bind at 1, st_ret at 1. unfold st_bind at 1, st_ret at 1.
    unfold st_bind at 1. unfold emit at 1, st_modify at 1.
    unfold st_bind at 1. unfold emit at 1, st_modify at 1.
    unfold st_bind, emit, st_modify in Hl. cbn [fst] in Hl.
    match goal with
    | |- context [connect_devices _ _ _ ?t] =>
        destruct (connect_devices decode fromstring open_port t)
          as [s3 [[] | e3]]
    end; cbn [fst] in *; rewrite Hl; cbn [emitted];
      rewrite <- !app_assoc; reflexivity.
Qed.

(** X21: a setup that passes the validation reaches all three workers
    with the same data, in demo mode and with devices alike, and whether
    or not the devices answer.  With one widget per array entry, masks
    built from the status and colour boxes that select [top] and [bottom]
    from the spin boxes, two taps or more on each surface and no coordinate
    twice on a surface: after [setUp] the data worker, the plot worker and
    the calculation worker all hold these two masks, the array of the spin
    box values and the two selections [top] and [bottom], and the data
    worker holds the path of the window. *)
Theorem accepted_setup_reaches_all_workers
    (sys : Main.system) (m_top m_bottom : list bool) (top bottom : list R) :
  let w := Main.setup_window sys in
  length (checkbox_list w) = length (x_coordinates_status w) ->
  length (spinbox_list w) = length (x_coordinates w) ->
  length (checkbox_color_list w) = length (color_code w) ->
  bitwise_and (checkbox_list w) (checkbox_color_list w) = Ok m_top ->
  bitwise_and (checkbox_list w) (invert (checkbox_color_list w))
  = Ok m_bottom ->
  Np.bool_index (spinbox_list w) m_top = Ok top ->
  Np.bool_index (spinbox_list w) m_bottom = Ok bottom ->
  (2 <= count m_top)%nat -> (2 <= count m_bottom)%nat ->
  NoDup top -> NoDup bottom ->
  received (Main.setUp decode fromstring open_port sys)
  = ((Some m_top, Some m_bottom, Some (spinbox_list w),
      Some top, Some bottom, Some (path w)),
     (m_top, m_bottom, Some (spinbox_list w), Some top, Some bottom),
     (Some m_top, Some m_bottom, Some (spinbox_list w),
      Some top, Some bottom)).
Proof.
  intros w H1 H2 H3 Emt Emb Ect Ecb Hnt Hnb Hdt Hdb.
  set (w1 := with_arrays (checkbox_list w) (spinbox_list w)
               (checkbox_color_list w)
               (with_ports (pressure_line_edit w) (density_line_edit w) w)).
  assert (Hpass : SetUpOutcome.passes m_top m_bottom top bottom = true).
  { unfold SetUpOutcome.passes.
    rewrite andb_true_iff, !negb_true_iff, !orb_false_iff, !Nat.ltb_ge,
      !SetUpFacts.any_duplicate_indices.
    repeat split; assumption. }
  destruct (validate_accepts w1 m_top m_bottom top bottom
              Emt Emb Ect Ecb Hpass) as [l [Hl Hdev]].
  assert (Hemitted :
    emitted (fst (setUp decode fromstring open_port w))
    = emitted w
      ++ update_sig m_top m_bottom (spinbox_list w)
         :: path_name_sig (path w) :: l).
  { unfold setUp, st_bind at 1.
    rewrite (SetUpOutcome.read_widgets_matching w H1 H2 H3). fold w1.
    unfold st_bind.
    destruct (validate decode fromstring open_port w1) as [w2 [[] | e]];
      cbn [fst] in *; exact Hl. }
  unfold Main.setUp. fold w.
  rewrite Hemitted, skipn_app, skipn_all, Nat.sub_diag.
  cbn [skipn app fold_left].
  rewrite (deliver_device_signals l Hdev).
  apply deliver_update_path; assumption.
Qed.

End WithRuntime.

Lemma accepted_setup_reaches_all_workers_witness :
  received
    (Main.setUp Ok SerialDevicesFacts.unsigned_fromstring
       (fun _ _ => Raise PortNotOpenError) SetUpFacts.first_system)
  = ((Some DataFacts.taps_top, Some DataFacts.taps_bottom,
      Some DataFacts.tap_coordinates,
      Some [0.1; 0.3; 0.6; 0.9], Some [0.1; 0.3; 0.6; 0.9],
      Some "Data/run.csv"%string),
     (DataFacts.taps_top, DataFacts.taps_bottom,
      Some DataFacts.tap_coordinates,
      Some [0.1; 0.3; 0.6; 0.9], Some [0.1; 0.3; 0.6; 0.9]),
     (Some DataFacts.taps_top, Some DataFacts.taps_bottom,
      Some DataFacts.tap_coordinates,
      Some [0.1; 0.3; 0.6; 0.9], Some [0.1; 0.3; 0.6; 0.9])).
Proof.
  apply (accepted_setup_reaches_all_workers
           Ok SerialDevicesFacts.unsigned_fromstring
           (fun _ _ => Raise PortNotOpenError) SetUpFacts.first_system
           DataFacts.taps_top DataFacts.taps_bottom
           [0.1; 0.3; 0.6; 0.9] [0.1; 0.3; 0.6; 0.9]);
    try reflexivity; try (vm_compute; lia);
    exact SetUpFacts.distinct_coordinates.
Defined.

End DeliveryFacts.

(** ** The profile reader *)

Module ProfileFacts.
Import ProfileData.

Lemma increasing_cons (u v : R) (l : list R) :
  increasing (u :: v :: l) = Rltb u v && increasing (v :: l).
Proof. reflexivity. Qed.

(** The test [np.all(coords[:-1] < coords[1:])] compares neighbours; it
    holds exactly when the whole array is strictly increasing. *)
Lemma increasing_sorted (l : list R) :
  increasing l = true <-> StronglySorted Rlt l.
Proof.
  induction l as [| u [| v l] IH].
  - split; [constructor | reflexivity].
  - split; [repeat constructor | reflexivity].
  - rewrite increasing_cons, andb_true_iff, Rltb_spec, IH. split.
    + intros [Huv Hs]. constructor; [exact Hs |].
      constructor; [exact Huv |].
      inversion Hs as [| v' l' _ Hv]; subst.
      rewrite Forall_forall in *. intros z Hz. specialize (Hv z Hz). lra.
    + intros Hs. inversion Hs as [| u' l' Hs' Hu]; subst.
      split; [| exact Hs']. inversion Hu. assumption.
Qed.

Lemma checked_error (n : string) (xt xb yt yb : list R) :
  error (checked n xt xb yt yb) = None
  <-> StronglySorted Rlt xt /\ StronglySorted Rlt xb.
Proof.
  rewrite <- !increasing_sorted. unfold checked. cbn [error].
  destruct (increasing xt), (increasing xb); cbn [negb];
    split; try discriminate; try (intros [H1 H2]; discriminate);
    try (intros _; split; reflexivity); reflexivity.
Qed.

Section WithPython.

Variable split : string -> list string.
Variable float : string -> res R.
Variable read_csv : string -> outcome (list R * list R).

(** What [readProfileData] returns is always the outcome of the check. *)
Lemma readProfileData_checked (lines : list string) (p : profile) :
  readProfileData split float read_csv lines = Return p ->
  exists xt xb yt yb,
    p = checked (name p) xt xb yt yb
    /\ x_top p = xt /\ x_bottom p = xb /\ y_top p = yt /\ y_bottom p = yb.
Proof.
  unfold readProfileData. destruct lines as [| first_line rest];
    [discriminate |].
  destruct (Np.getitem (split first_line) 0) as [n | e];
    cbn [lift and_then]; [| discriminate].
  destruct (line <- Np.getitem rest 0 ;; first_number split float line)
    as [count | e]; cbn [lift and_then]; [| discriminate].
  destruct (Rltb 1 count).
  - destruct (read_csv (String.concat EmptyString (tl rest)))
      as [[x y] | e]; cbn [and_then fst snd]; [| discriminate].
    intros H. injection H as <-. do 4 eexists.
    repeat split; reflexivity.
  - destruct (read_csv (String.concat EmptyString rest))
      as [[x y] | e]; cbn [and_then fst snd]; [| discriminate].
    destruct (first_valid_index x) as [k |]; [| discriminate].
    intros H. injection H as <-. do 4 eexists.
    repeat split; reflexivity.
Qed.

(** X23: whenever [readProfileData] returns, the status it returns with
    the arrays is [0] exactly when the abscissae of the top curve and
    those of the bottom curve are both strictly increasing; otherwise it
    is the [DataError], and the arrays are returned all the same.  The
    main script creates the workers exactly when the status is [0], and
    the calculation worker then holds these four arrays as its wing
    geometry, so its wing abscissae are strictly increasing. *)
Theorem readProfileData_flags_disorder
    (lines : list string) (p : profile) (d : Defaults.t) :
  readProfileData split float read_csv lines = Return p ->
  (error p = None
   <-> StronglySorted Rlt (x_top p) /\ StronglySorted Rlt (x_bottom p))
  /\ (error p <> None -> error p = Some message /\ Main.start p d = None)
  /\ (error p = None ->
      exists c a,
        Main.start p d = Some (c, a)
        /\ Calculations.x_wing_top c = x_top p
        /\ Calculations.x_wing_bottom c = x_bottom p
        /\ Calculations.y_wing_top c = y_top p
        /\ Calculations.y_wing_bottom c = y_bottom p
        /\ StronglySorted Rlt (Calculations.x_wing_top c)
        /\ StronglySorted Rlt (Calculations.x_wing_bottom c)).
Proof.
  intros Hread.
  destruct (readProfileData_checked lines p Hread)
    as [xt [xb [yt [yb [Hp [Hxt [Hxb _]]]]]]].
  assert (Hiff : error p = None
                 <-> StronglySorted Rlt (x_top p)
                     /\ StronglySorted Rlt (x_bottom p)).
  { rewrite Hxt, Hxb, Hp. apply checked_error. }
  split; [exact Hiff |]. split.
  - intros Herr. unfold Main.start.
    rewrite Hp in *. unfold checked in *. cbn [error] in *.
    destruct (increasing xt); cbn [negb] in *;
      [| split; reflexivity].
    destruct (increasing xb); cbn [negb] in *;
      [contradiction | split; reflexivity].
  - intros Hnone. unfold Main.start. rewrite Hnone.
    do 2 eexists. split; [reflexivity |].
    cbn [Calculations.init Calculations.x_wing_top
           Calculations.x_wing_bottom Calculations.y_wing_top
           Calculations.y_wing_bottom Main.add_wing_data
           Defaults.X_WING_TOP Defaults.X_WING_BOTTOM
           Defaults.Y_WING_TOP Defaults.Y_WING_BOTTOM].
    destruct (proj1 Hiff Hnone) as [H1 H2].
    repeat split; assumption.
Qed.

Lemma first_valid_index_spec (x : list R) (k : nat) :
  first_valid_index x = Some k ->
  (k < length x)%nat /\ nth k x 1 = 0
  /\ forall i, (i < k)%nat -> nth i x 1 <> 0.
Proof.
  revert k. induction x as [| u x IH]; intros k H; simpl in H;
    [discriminate |].
  destruct (Reqb u 0) eqn:Hu.
  - injection H as <-. apply Reqb_spec in Hu.
    split; [simpl; lia |]. split; [exact Hu |]. intros i Hi. lia.
  - destruct (first_valid_index x) as [k' |]; [| discriminate].
    injection H as <-. destruct (IH k' eq_refl) as [Hk [Hz Hnz]].
    split; [simpl; lia |]. split; [exact Hz |].
    intros [| i] Hi; cbn [nth].
    + intros Hz'. apply Reqb_spec in Hz'. congruence.
    + apply Hnz. lia.
Qed.

Lemma hd_rev_firstn (x : list R) (k : nat) :
  (k < length x)%nat -> hd 1 (rev (firstn (k + 1) x)) = nth k x 1.
Proof.
  revert k. induction x as [| u x IH]; intros k Hk; simpl in Hk; [lia |].
  destruct k as [| k].
  - reflexivity.
  - cbn [Nat.add firstn rev nth].
    specialize (IH k ltac:(lia)).
    destruct (rev (firstn (k + 1) x)) as [| v r] eqn:Er.
    + exfalso. apply (f_equal (@length R)) in Er.
      rewrite length_rev, length_firstn in Er. simpl in Er. lia.
    + cbn [app hd] in *. exact IH.
Qed.

Lemma hd_skipn (x : list R) (k : nat) : hd 1 (skipn k x) = nth k x 1.
Proof.
  revert k. induction x as [| u x IH]; intros [| k]; try reflexivity.
  cbn [skipn nth]. apply IH.
Qed.

Lemma tl_skipn (x : list R) (k : nat) : tl (skipn k x) = skipn (k + 1) x.
Proof.
  rewrite Nat.add_1_r. revert x.
  induction k as [| k IH]; intros [| u x]; try reflexivity.
  cbn [skipn]. rewrite IH. destruct x; reflexivity.
Qed.

(** X24: how [readProfileData] distributes the rows of the file over the
    two curves.  When the first number after the name line exceeds 1
    (Lednicer format) that line is dropped and the table is cut in two:
    the top arrays followed by the bottom arrays are the columns of the
    table.  Otherwise (Selig format) the table is cut at the first row
    whose abscissa is zero, and that row goes to both curves: the top
    arrays reversed, followed by the bottom arrays without their first
    entry, are the columns of the table, and both curves begin with the
    abscissa zero. *)
Theorem readProfileData_splits_table
    (first_line : string) (rest : list string) (p : profile) :
  readProfileData split float read_csv (first_line :: rest) = Return p ->
  exists count,
    (line <- Np.getitem rest 0 ;; first_number split float line) = Ok count
    /\ ((1 < count
         /\ exists x y,
              read_csv (String.concat EmptyString (tl rest)) = Return (x, y)
              /\ x_top p ++ x_bottom p = x
              /\ y_top p ++ y_bottom p = y)
        \/ (count <= 1
            /\ exists x y,
                 read_csv (String.concat EmptyString rest) = Return (x, y)
                 /\ rev (x_top p) ++ tl (x_bottom p) = x
                 /\ rev (y_top p) ++ tl (y_bottom p) = y
                 /\ hd 1 (x_top p) = 0 /\ hd 1 (x_bottom p) = 0)).
Proof.
  unfold readProfileData.
  destruct (Np.getitem (split first_line) 0) as [n | e];
    cbn [lift and_then]; [| discriminate].
  destruct (line <- Np.getitem rest 0 ;; first_number split float line)
    as [count | e]; cbn [lift and_then]; [| discriminate].
  intros H. exists count. split; [reflexivity |].
  destruct (Rltb 1 count) eqn:Hc.
  - left. apply Rltb_spec in Hc. split; [exact Hc |].
    destruct (read_csv (String.concat EmptyString (tl rest)))
      as [[x y] | e]; cbn [and_then fst snd] in H; [| discriminate].
    injection H as <-. exists x, y. cbn [x_top x_bottom y_top y_bottom checked].
    rewrite !firstn_skipn. repeat split; reflexivity.
  - right.
    assert (Hle : count <= 1).
    { destruct (Rle_dec count 1) as [Hle | Hgt]; [exact Hle |].
      assert (Ht : Rltb 1 count = true) by (apply Rltb_spec; lra).
      congruence. }
    split; [exact Hle |].
    destruct (read_csv (String.concat EmptyString rest))
      as [[x y] | e]; cbn [and_then fst snd] in H; [| discriminate].
    destruct (first_valid_index x) as [k |] eqn:Hk; [| discriminate].
    injection H as <-. exists x, y.
    cbn [x_top x_bottom y_top y_bottom checked].
    destruct (first_valid_index_spec x k Hk) as [Hlen [Hz _]].
    split; [reflexivity |].
    rewrite !rev_involutive, !tl_skipn, !firstn_skipn.
    split; [reflexivity |]. split; [reflexivity |].
    rewrite hd_rev_firstn by exact Hlen. rewrite hd_skipn.
    split; exact Hz.
Qed.

End WithPython.

(** *** A file in Selig format *)

(** Stand-ins for the three Python functions on the file below:
    [split] cuts a line at its blanks, [float] reads unsigned decimal
    integers, and [read_csv] answers with the table of the file. *)
Definition at_blanks (line : string) : list string :=
  SerialDevicesFacts.fields " "%char line.

Definition unsigned_float (text : string) : res R :=
  Ok (INR (SerialDevicesFacts.digits_value 0 text)).

Definition selig_table (text : string) : outcome (list R * list R) :=
  Return ([1; 0.5; 0; 0.5; 1], [0; 0.1; 0; -0.1; 0]).

Definition selig_lines : list string :=
  ["NACA"; "1 0"; "0.5 0.1"; "0 0"; "0.5 -0.1"; "1 0"]%string.

Definition selig_profile : profile :=
  checked "NACA" [0; 0.5; 1] [0; 0.5; 1] [0; 0.1; 0] [0; -0.1; 0].

Lemma selig_read :
  readProfileData at_blanks unsigned_float selig_table selig_lines
  = Return selig_profile.
Proof.
  unfold readProfileData, selig_lines, unsigned_float, first_number.
  replace (at_blanks "NACA") with ["NACA"%string] by reflexivity.
  cbn [Np.getitem nth_error lift and_then bind tl].
  replace (at_blanks "1 0") with ["1"%string; "0"%string] by reflexivity.
  cbn [Np.getitem nth_error lift and_then bind tl].
  rewrite Rltb_false.
  - unfold selig_table. cbn [and_then fst snd first_valid_index].
    rewrite (Reqb_false 1 0) by lra.
    rewrite (Reqb_false 0.5 0) by lra.
    rewrite (Reqb_true 0 0) by reflexivity.
    reflexivity.
  - vm_compute. lra.
Qed.

Lemma readProfileData_flags_disorder_witness :
  error selig_profile = None
  <-> StronglySorted Rlt (x_top selig_profile)
      /\ StronglySorted Rlt (x_bottom selig_profile).
Proof.
  exact (proj1 (readProfileData_flags_disorder at_blanks unsigned_float
                  selig_table selig_lines selig_profile
                  AcquisitionFacts.demo_defaults selig_read)).
Defined.

Lemma readProfileData_splits_table_witness :
  exists count,
    (line <- Np.getitem (tl selig_lines) 0 ;;
     first_number at_blanks unsigned_float line) = Ok count
    /\ ((1 < count
         /\ exists x y,
              selig_table (String.concat EmptyString (tl (tl selig_lines)))
              = Return (x, y)
              /\ x_top selig_profile ++ x_bottom selig_profile = x
              /\ y_top selig_profile ++ y_bottom selig_profile = y)
        \/ (count <= 1
            /\ exists x y,
                 selig_table (String.concat EmptyString (tl selig_lines))
                 = Return (x, y)
                 /\ rev (x_top selig_profile) ++ tl (x_bottom selig_profile)
                    = x
                 /\ rev (y_top selig_profile) ++ tl (y_bottom selig_profile)
                    = y
                 /\ hd 1 (x_top selig_profile) = 0
                 /\ hd 1 (x_bottom selig_profile) = 0)).
Proof.
  exact (readProfileData_splits_table at_blanks unsigned_float selig_table
           "NACA" (tl selig_lines) selig_profile selig_read).
Defined.

End ProfileFacts.
